(** * The pKVM S2MPU driver (arch/arm64/kvm/hyp/nvhe/iommu/s2mpu.c)

    A shallow embedding of the hypervisor-side S2MPU driver and the proofs
    of its specified properties.

    The driver talks to three things it does not control: the device
    registers (relaxed 32-bit MMIO), the page-table encoder behind
    [mpt_ops], and the memory-donation calls of the hypervisor.  The
    embedding keeps a chronological trace of every such interaction; the
    values that come back (register contents, return codes) are supplied by
    an arbitrary platform that may look at the whole history. *)

From Stdlib Require Import ZArith List Lia Bool Sorted.
From stdpp Require Import base numbers list.
From Equations Require Import Equations.
Import ListNotations.
Local Open Scope Z_scope.

(** ** Machine integers and the generic kernel macros *)

Definition u32 (x : Z) : Z := x mod 2 ^ 32.
Definition u64 (x : Z) : Z := x mod 2 ^ 64.

(** [int]: 32 bits, two's complement.  A conversion to [int] keeps the low
    32 bits; a conversion of an [int] to a 64-bit unsigned type ([u64] of
    it) extends the sign. *)
Definition s32 (x : Z) : Z := (x + 2 ^ 31) mod 2 ^ 32 - 2 ^ 31.

(** [BIT(n)] is [1UL << n]. *)
Definition BIT (n : Z) : Z := Z.shiftl 1 n.

(** linux/sizes.h and the errno values of the kernel ABI. *)
Definition SZ_1G : Z := 0x40000000.
Definition EINVAL : Z := 22.
Definition ENODEV : Z := 19.

(** [__ALIGN_KERNEL(x, a)] is [((x) + (a - 1)) & ~(a - 1)] at the type of
    [x], here [phys_addr_t] (64 bits); [ALIGN_DOWN(x, a)] is
    [__ALIGN_KERNEL(x - (a - 1), a)] and [IS_ALIGNED(x, a)] is
    [(x & (a - 1)) == 0]. *)
Definition ALIGN (x a : Z) : Z :=
  Z.land (u64 (x + u64 (a - 1))) (u64 (Z.lnot (u64 (a - 1)))).
Definition ALIGN_DOWN (x a : Z) : Z := ALIGN (u64 (x - u64 (a - 1))) a.
Definition IS_ALIGNED (x a : Z) : bool := Z.land x (u64 (a - 1)) =? 0.

(** [__ffs(word)]: index of the least significant set bit (undefined for
    0, where the model answers 0). *)
Fixpoint pos_ctz (p : positive) : nat :=
  match p with
  | xO q => S (pos_ctz q)
  | _ => O
  end.

Definition __ffs (word : Z) : Z :=
  match word with
  | Zpos p => Z.of_nat (pos_ctz p)
  | _ => 0
  end.

(** ** Constants of the headers

    The register map and bit masks live in asm/kvm_s2mpu.h, the remaining
    constants in other kernel headers.  They are taken as parameters: every
    definition and theorem below holds for any assignment of them, unless
    it names the facts it needs. *)

Class S2mpuHeader := {
  (* hardware versions *)
  S2MPU_VERSION_1 : Z;
  S2MPU_VERSION_2 : Z;
  S2MPU_VERSION_9 : Z;
  VERSION_CHECK_MASK : Z;
  (* geometry *)
  NR_GIGABYTES : nat;
  NR_VIDS : Z;
  SMPT_GRAN : Z;
  PAGE_SHIFT : Z;
  PAGE_SIZE : Z;
  sizeof_mpt : Z;
  (* protection bits *)
  KVM_PGTABLE_PROT_R : Z;
  KVM_PGTABLE_PROT_W : Z;
  MPT_PROT_NONE : Z;
  MPT_PROT_R : Z;
  MPT_PROT_W : Z;
  MPT_PROT_RW : Z;
  (* syndrome register fields *)
  ESR_ELx_WNR : Z;
  ESR_ELx_SAS : Z;
  ESR_ELx_SAS_SHIFT : Z;
  ESR_ELx_SRT_MASK : Z;
  ESR_ELx_SRT_SHIFT : Z;
  (* registers common to all versions *)
  REG_NS_CTRL0 : Z;
  REG_NS_CTRL1 : Z;
  REG_NS_CFG : Z;
  REG_NS_INTERRUPT_ENABLE_PER_VID_SET : Z;
  REG_NS_INTERRUPT_CLEAR : Z;
  REG_NS_VERSION : Z;
  REG_NS_INFO : Z;
  REG_NS_STATUS : Z;
  REG_NS_NUM_CONTEXT : Z;
  REG_NS_CONTEXT_CFG_VALID_VID : Z;
  REG_NS_ALL_INVALIDATION : Z;
  REG_NS_RANGE_INVALIDATION : Z;
  REG_NS_RANGE_INVALIDATION_START_PPN : Z;
  REG_NS_RANGE_INVALIDATION_END_PPN : Z;
  REG_NS_FAULT_STATUS : Z;
  REG_NS_FAULT_PA_LOW : Z -> Z;
  REG_NS_FAULT_PA_HIGH : Z -> Z;
  REG_NS_FAULT_INFO : Z -> Z;
  REG_NS_FAULT_VID_MASK : Z;
  REG_NS_L1ENTRY_L2TABLE_ADDR : Z -> Z -> Z;
  REG_NS_L1ENTRY_ATTR : Z -> Z -> Z;
  (* v1/v2 debug registers *)
  REG_NS_READ_MPTC : Z;
  REG_NS_READ_MPTC_TAG_PPN : Z;
  REG_NS_READ_MPTC_TAG_OTHERS : Z;
  REG_NS_READ_MPTC_DATA : Z;
  (* v9 registers *)
  REG_NS_V9_CTRL_ERR_RESP_T_PER_VID_SET : Z;
  REG_NS_V9_CTRL_PROT_EN_PER_VID_SET : Z;
  REG_NS_V9_CFG_MPTW_ATTRIBUTE : Z;
  REG_NS_V9_READ_STLB : Z;
  REG_NS_V9_READ_STLB_TPN : Z;
  REG_NS_V9_READ_STLB_TAG_PPN : Z;
  REG_NS_V9_READ_STLB_TAG_OTHERS : Z;
  REG_NS_V9_READ_STLB_DATA : Z;
  REG_NS_V9_MPTC_INFO : Z;
  REG_NS_V9_READ_MPTC : Z;
  REG_NS_V9_READ_MPTC_TAG_PPN : Z;
  REG_NS_V9_READ_MPTC_TAG_OTHERS : Z;
  REG_NS_V9_READ_MPTC_DATA : Z;
  REG_NS_V9_PMMU_INFO : Z;
  REG_NS_V9_READ_PTLB : Z;
  REG_NS_V9_READ_PTLB_TAG : Z;
  REG_NS_V9_READ_PTLB_DATA_S1_EN_PPN_AP : Z;
  REG_NS_V9_READ_PTLB_DATA_S1_DIS_AP_LIST : Z;
  REG_NS_V9_PMMU_INDICATOR : Z;
  REG_NS_V9_SWALKER_INFO : Z;
  REG_NS_V9_PMMU_PTLB_INFO : Z -> Z;
  REG_NS_V9_STLB_INFO : Z -> Z;
  V9_MAX_PTLB_NUM : Z;
  V9_MAX_STLB_NUM : Z;
  (* SysMMU_SYNC registers *)
  REG_NS_SYNC_CMD : Z;
  REG_NS_SYNC_COMP : Z;
  (* register fields *)
  ALL_VIDS_BITMAP : Z;
  NUM_CONTEXT_MASK : Z;
  CONTEXT_CFG_VALID_VID_CTX_VALID : Z -> Z;
  CONTEXT_CFG_VALID_VID_CTX_VID : Z -> Z -> Z;
  CTRL0_ENABLE : Z;
  CTRL0_INTERRUPT_ENABLE : Z;
  CTRL0_FAULT_RESP_TYPE_SLVERR : Z;
  CTRL0_FAULT_RESP_TYPE_DECERR : Z;
  CTRL0_MASK : Z;
  CTRL1_MASK : Z;
  CFG_MASK : Z;
  INFO_NUM_SET_MASK : Z;
  STATUS_BUSY : Z;
  STATUS_ON_INVALIDATING : Z;
  INVALIDATION_INVALIDATE : Z;
  RANGE_INVALIDATION_PPN_SHIFT : Z;
  SYNC_CMD_SYNC : Z;
  SYNC_COMP_COMPLETE : Z;
  READ_MPTC_MASK : Z;
  READ_MPTC_TAG_PPN_MASK : Z;
  READ_MPTC_TAG_OTHERS_MASK : Z;
  V9_CTRL0_MASK : Z;
  V9_READ_STLB_MASK_TYPEA : Z;
  V9_READ_STLB_MASK_TYPEB : Z;
  V9_READ_STLB_TPN_MASK : Z;
  V9_READ_STLB_TAG_PPN_MASK : Z;
  V9_READ_STLB_TAG_OTHERS_MASK : Z;
  V9_READ_MPTC_INFO_MASK : Z;
  V9_READ_MPTC_MASK : Z;
  V9_READ_MPTC_TAG_PPN_MASK : Z;
  V9_READ_MPTC_TAG_OTHERS_MASK : Z;
  V9_READ_PMMU_INFO_MASK : Z;
  V9_READ_PTLB_MASK : Z;
  V9_READ_PTLB_TAG_MASK : Z;
  V9_READ_PTLB_DATA_S1_ENABLE_PPN_AP_MASK : Z;
  V9_READ_PMMU_INDICATOR_MASK : Z;
  V9_SWALKER_INFO_MASK : Z;
  V9_READ_PMMU_PTLB_INFO_MASK : Z;
  V9_READ_SLTB_INFO_MASK : Z;
}.

(** Defined in s2mpu.c itself. *)
Definition SYNC_MAX_RETRIES : nat := 5.
Definition SYNC_TIMEOUT : nat := 5.
Definition SYNC_TIMEOUT_MULTIPLIER : nat := 3.
(** [BUILD_BUG_ON(NR_CTX_IDS != 8)] pins this one. *)
Definition NR_CTX_IDS : nat := 8.

(** ** Data model *)

(** [struct fmpt]: [smpt] is a pointer, 0 for NULL; [prot] an [enum mpt_prot]. *)
Record fmpt := Fmpt {
  smpt : Z;
  gran_1g : bool;
  prot : Z;
}.

(** [struct mpt]: one [fmpt] per gigabyte, and the version the host sent. *)
Record mpt := Mpt {
  mpt_fmpt : list fmpt;
  mpt_version : Z;
}.

(** [struct s2mpu_drv_data], the per-device [dev->data]. *)
Record s2mpu_drv_data := DrvData {
  drv_version : Z;
  context_cfg_valid_vid : Z;
}.

(** [struct pkvm_iommu], as far as this driver looks at it: an identity
    (standing for the address of the struct), the base [va] of the MMIO
    window and the [children] list. *)
#[local] Unset Elimination Schemes.
Inductive pkvm_iommu :=
  PkvmIommu (id : nat) (va : Z) (children : list pkvm_iommu).
#[local] Set Elimination Schemes.

Definition dev_id (dev : pkvm_iommu) : nat := let '(PkvmIommu i _ _) := dev in i.
Definition dev_va (dev : pkvm_iommu) : Z := let '(PkvmIommu _ v _) := dev in v.
Definition dev_children (dev : pkvm_iommu) : list pkvm_iommu :=
  let '(PkvmIommu _ _ c) := dev in c.

(** [struct kvm_cpu_context], reduced to [regs.regs[]]: [cpu_reg(ctxt, r)]
    is [ctxt->regs.regs[r]]. *)
Definition kvm_cpu_context := Z -> Z.

Definition cpu_reg (ctxt : kvm_cpu_context) (r : Z) : Z := ctxt r.
Definition set_cpu_reg (ctxt : kvm_cpu_context) (r v : Z) : kvm_cpu_context :=
  fun r' => if r' =? r then v else ctxt r'.

(** The two register-level operation tables of the source. *)
Inductive s2mpu_reg_ops := ops_v1_v2 | ops_v9.

(** ** Interactions with the outside *)

(** The calls through [mpt_ops] that reach the device: the L1ENTRY
    registers are written by these, and by nothing else. *)
Inductive mpt_call :=
| init_with_prot (va : Z) (prot : Z)
| init_with_mpt (va : Z) (m : mpt)
| apply_range (va : Z) (m : mpt) (first_gb last_gb : Z).

Inductive event :=
| EvReadl (addr val : Z)                  (* val = readl_relaxed(addr) *)
| EvWritel (val addr : Z)                 (* writel_relaxed(val, addr) *)
| EvMptOps (c : mpt_call)
| EvHostDonateHyp (pfn nr_pages ret : Z)  (* ret = __pkvm_host_donate_hyp(..) *)
| EvHypDonateHost (pfn nr_pages ret : Z). (* ret = __pkvm_hyp_donate_host(..) *)

(** [struct s2mpu_mpt_ops], the part that stays in memory: the size of an
    SMPT buffer and the update of an [mpt] by [prepare_range]. *)
Record s2mpu_mpt_ops := MptOps {
  smpt_size : Z;
  prepare_range : mpt -> Z -> Z -> Z -> mpt;
}.

(** What the driver cannot decide: the value a register reads as, the
    return codes of the two donation calls (each may depend on everything
    that happened before), the address translations [kern_hyp_va] and
    [__hyp_pa] of the hypervisor, and the page-table operations that
    [s2mpu_get_mpt_ops] has for a version (NULL is [None]). *)
Class Platform := {
  readl_value : list event -> Z -> Z;
  host_donate_hyp_ret : list event -> Z -> Z -> Z;
  hyp_donate_host_ret : list event -> Z -> Z -> Z;
  kern_hyp_va : Z -> Z;
  __hyp_pa : Z -> Z;
  s2mpu_get_mpt_ops : Z -> option s2mpu_mpt_ops;
}.

(** ** Driver state and the monad of driver code *)

Record hyp_state := HypState {
  trace : list event;
  host_mpt : mpt;
  reg_ops : option s2mpu_reg_ops;
  mpt_ops : option s2mpu_mpt_ops;
  dev_data : nat -> s2mpu_drv_data;
}.

(** A computation ends with a value and a state, faults (a call through a
    NULL operations pointer), or is still polling when the fuel of an
    unbounded loop runs out. *)
Inductive result (A : Type) :=
| Ok (a : A) (s : hyp_state)
| Fault
| Polling.
Arguments Ok {A} a s.
Arguments Fault {A}.
Arguments Polling {A}.

Definition hyp (A : Type) : Type := hyp_state -> result A.

Definition ret {A} (a : A) : hyp A := fun s => Ok a s.

Definition bind {A B} (m : hyp A) (k : A -> hyp B) : hyp B :=
  fun s =>
    match m s with
    | Ok a s' => k a s'
    | Fault => Fault
    | Polling => Polling
    end.

Declare Scope hyp_scope.
Delimit Scope hyp_scope with hyp.
Notation "'let*' x ':=' m 'in' k" :=
  (bind m (fun x => k))
  (at level 10, x name, m at level 100, k at level 200) : hyp_scope.
Notation "m '>>' k" :=
  (bind m (fun _ => k))
  (at level 100, k at level 200, right associativity) : hyp_scope.
Local Open Scope hyp_scope.

Definition gets {A} (f : hyp_state -> A) : hyp A := fun s => Ok (f s) s.
Definition modify (f : hyp_state -> hyp_state) : hyp unit := fun s => Ok tt (f s).
Definition fault {A} : hyp A := fun _ => Fault.

Definition emit (e : event) (s : hyp_state) : hyp_state :=
  HypState (trace s ++ [e]) (host_mpt s) (reg_ops s) (mpt_ops s) (dev_data s).
Definition set_host_mpt (m : mpt) (s : hyp_state) : hyp_state :=
  HypState (trace s) m (reg_ops s) (mpt_ops s) (dev_data s).
Definition set_reg_ops (o : option s2mpu_reg_ops) (s : hyp_state) : hyp_state :=
  HypState (trace s) (host_mpt s) o (mpt_ops s) (dev_data s).
Definition set_mpt_ops (o : option s2mpu_mpt_ops) (s : hyp_state) : hyp_state :=
  HypState (trace s) (host_mpt s) (reg_ops s) o (dev_data s).
Definition set_dev_data (i : nat) (d : s2mpu_drv_data) (s : hyp_state) : hyp_state :=
  HypState (trace s) (host_mpt s) (reg_ops s) (mpt_ops s)
           (fun j => if Nat.eqb j i then d else dev_data s j).

(** [for (...) body] over the elements of a list, as [list_for_each_entry]. *)
Fixpoint for_each {A} (l : list A) (body : A -> hyp unit) : hyp unit :=
  match l with
  | [] => ret tt
  | x :: l' => body x >> for_each l' body
  end.

(** ** The driver *)

#[global] Instance fmpt_inhabited : Inhabited fmpt := populate (Fmpt 0 false 0).

(** The allocation loop of [__context_cfg_valid_vid]:

      while (vid_bmap) {
              if (ctx >= num_ctx) break;
              vid = __ffs(vid_bmap);
              vid_bmap &= ~BIT(vid);
              ctx_vid[ctx++] = vid;
      }

    [vid_bmap] is a [u32], so "non-zero" is "positive".  Every turn clears
    one bit of it, which is why the loop ends.  The store to [ctx_vid] is
    by index; beyond the eight entries of the array C has no defined
    behaviour and the model leaves the array as it is. *)
Equations? ctx_alloc (num_ctx : Z) (vid_bmap : Z) (ctx : nat) (ctx_vid : list Z)
  : nat * list Z by wf (Z.to_nat vid_bmap) lt :=
  ctx_alloc num_ctx vid_bmap ctx ctx_vid with decide (0 < vid_bmap) := {
    | right _ => (ctx, ctx_vid)
    | left _ with decide (num_ctx <= Z.of_nat ctx) := {
      | left _ => (ctx, ctx_vid)
      | right _ =>
          ctx_alloc num_ctx (Z.land vid_bmap (Z.lnot (BIT (__ffs vid_bmap))))
                    (S ctx) (<[ctx := __ffs vid_bmap]> ctx_vid) } }.
Proof.
  assert (Hn : 0 <= __ffs vid_bmap) by (destruct vid_bmap; simpl; lia).
  assert (Hb : Z.testbit vid_bmap (__ffs vid_bmap) = true).
  { destruct vid_bmap as [|p|p]; try lia. simpl. clear.
    induction p as [p IH|p IH|]; try reflexivity.
    change (pos_ctz p~0) with (S (pos_ctz p)).
    rewrite Nat2Z.inj_succ. change (Z.pos p~0) with (2 * Z.pos p).
    rewrite Z.testbit_even_succ by lia. exact IH. }
  assert (Hs : Z.ldiff vid_bmap (BIT (__ffs vid_bmap))
               = vid_bmap - BIT (__ffs vid_bmap)).
  { symmetry. apply Z.sub_nocarry_ldiff. apply Z.bits_inj'. intros k Hk.
    unfold BIT. rewrite Z.shiftl_1_l.
    rewrite Z.ldiff_spec, Z.bits_0, Z.pow2_bits_eqb by lia.
    destruct (Z.eqb_spec (__ffs vid_bmap) k) as [<-|]; [rewrite Hb|]; reflexivity. }
  rewrite <- Z.ldiff_land, Hs. unfold BIT. rewrite Z.shiftl_1_l.
  pose proof (Z.pow_pos_nonneg 2 (__ffs vid_bmap)). lia.
Qed.

Section Driver.
Context {hdr : S2mpuHeader} {plat : Platform}.

(** *** MMIO and the external calls *)

Definition readl_relaxed (addr : Z) : hyp Z :=
  fun s =>
    let v := u32 (readl_value (trace s) addr) in
    Ok v (emit (EvReadl addr v) s).

Definition writel_relaxed (val addr : Z) : hyp unit :=
  modify (emit (EvWritel val addr)).

Definition __pkvm_host_donate_hyp (pfn nr_pages : Z) : hyp Z :=
  fun s =>
    let r := host_donate_hyp_ret (trace s) pfn nr_pages in
    Ok r (emit (EvHostDonateHyp pfn nr_pages r) s).

Definition __pkvm_hyp_donate_host (pfn nr_pages : Z) : hyp Z :=
  fun s =>
    let r := hyp_donate_host_ret (trace s) pfn nr_pages in
    Ok r (emit (EvHypDonateHost pfn nr_pages r) s).

(** A call through [mpt_ops] or [reg_ops] faults while the pointer is NULL. *)
Definition with_mpt_ops {A} (f : s2mpu_mpt_ops -> hyp A) : hyp A :=
  let* ops := gets mpt_ops in
  match ops with
  | Some o => f o
  | None => fault
  end.

Definition with_reg_ops {A} (f : s2mpu_reg_ops -> hyp A) : hyp A :=
  let* ops := gets reg_ops in
  match ops with
  | Some o => f o
  | None => fault
  end.

Definition call_mpt_ops (c : mpt_call) : hyp unit :=
  with_mpt_ops (fun _ => modify (emit (EvMptOps c))).

Definition get_data (dev : pkvm_iommu) : hyp s2mpu_drv_data :=
  gets (fun s => dev_data s (dev_id dev)).

(** *** Protection bits and versions *)

Definition prot_to_mpt (prot : Z) : Z :=
  Z.lor (if Z.land prot KVM_PGTABLE_PROT_R =? 0 then 0 else MPT_PROT_R)
        (if Z.land prot KVM_PGTABLE_PROT_W =? 0 then 0 else MPT_PROT_W).

Definition is_version (s : hyp_state) (dev : pkvm_iommu) (version : Z) : bool :=
  Z.land (drv_version (dev_data s (dev_id dev))) VERSION_CHECK_MASK =? version.

(** *** Context configuration *)

Definition CTX_CFG_ENTRY (ctxid : Z) (nr_ctx : nat) (vid : Z) : Z :=
  Z.lor (CONTEXT_CFG_VALID_VID_CTX_VID ctxid vid)
        (if ctxid <? Z.of_nat nr_ctx then CONTEXT_CFG_VALID_VID_CTX_VALID ctxid else 0).

(** The unrolled disjunction of the eight entries. *)
Definition ctx_cfg_entries (ctx : nat) (ctx_vid : list Z) : Z :=
  Z.lor (Z.lor (Z.lor (Z.lor (Z.lor (Z.lor (Z.lor
    (CTX_CFG_ENTRY 0 ctx (ctx_vid !!! 0%nat))
    (CTX_CFG_ENTRY 1 ctx (ctx_vid !!! 1%nat)))
    (CTX_CFG_ENTRY 2 ctx (ctx_vid !!! 2%nat)))
    (CTX_CFG_ENTRY 3 ctx (ctx_vid !!! 3%nat)))
    (CTX_CFG_ENTRY 4 ctx (ctx_vid !!! 4%nat)))
    (CTX_CFG_ENTRY 5 ctx (ctx_vid !!! 5%nat)))
    (CTX_CFG_ENTRY 6 ctx (ctx_vid !!! 6%nat)))
    (CTX_CFG_ENTRY 7 ctx (ctx_vid !!! 7%nat)).

Definition __context_cfg_valid_vid (dev : pkvm_iommu) (vid_bmap : Z) : hyp Z :=
  let* data := get_data dev in
  (* Only initialize once. *)
  if negb (context_cfg_valid_vid data =? 0) then ret (context_cfg_valid_vid data)
  else
    let* v := readl_relaxed (dev_va dev + REG_NS_NUM_CONTEXT) in
    let num_ctx := Z.land v NUM_CONTEXT_MASK in
    let '(ctx, ctx_vid) := ctx_alloc num_ctx vid_bmap 0 (replicate NR_CTX_IDS 0) in
    let res := ctx_cfg_entries ctx ctx_vid in
    modify (set_dev_data (dev_id dev) (DrvData (drv_version data) res)) >>
    ret res.

Definition __initialize_v2 (dev : pkvm_iommu) : hyp Z :=
  (* Assume all VIDs may be generated by the connected SSMTs for now. *)
  let ssmt_valid_vid_bmap := ALL_VIDS_BITMAP in
  let* ctx_cfg := __context_cfg_valid_vid dev ssmt_valid_vid_bmap in
  if ctx_cfg =? 0 then ret (- EINVAL)
  else
    writel_relaxed ctx_cfg (dev_va dev + REG_NS_CONTEXT_CFG_VALID_VID) >>
    ret 0.

Definition __initialize (dev : pkvm_iommu) : hyp Z :=
  let* data := get_data dev in
  (if drv_version data =? 0 then
     let* v := readl_relaxed (dev_va dev + REG_NS_VERSION) in
     modify (set_dev_data (dev_id dev) (DrvData v (context_cfg_valid_vid data)))
   else ret tt) >>
  let* data := get_data dev in
  let masked := Z.land (drv_version data) VERSION_CHECK_MASK in
  if masked =? S2MPU_VERSION_1 then ret 0
  else if masked =? S2MPU_VERSION_2 then __initialize_v2 dev
  else ret (- EINVAL).

(** *** Control registers *)

Definition __set_control_regs (dev : pkvm_iommu) : hyp unit :=
  let ctrl0 := 0 in
  (* Enable the S2MPU, otherwise all traffic would be allowed through. *)
  let ctrl0 := Z.lor ctrl0 CTRL0_ENABLE in
  (* Enable interrupts on fault for all VIDs. *)
  let ctrl0 := Z.lor ctrl0 CTRL0_INTERRUPT_ENABLE in
  let irq_vids := ALL_VIDS_BITMAP in
  (* Return SLVERR/DECERR to device on permission fault. *)
  let* v2 := gets (fun s => is_version s dev S2MPU_VERSION_2) in
  let ctrl0 := Z.lor ctrl0 (if v2 then CTRL0_FAULT_RESP_TYPE_DECERR
                            else CTRL0_FAULT_RESP_TYPE_SLVERR) in
  writel_relaxed irq_vids (dev_va dev + REG_NS_INTERRUPT_ENABLE_PER_VID_SET) >>
  writel_relaxed 0 (dev_va dev + REG_NS_CFG) >>
  writel_relaxed 0 (dev_va dev + REG_NS_CTRL1) >>
  writel_relaxed ctrl0 (dev_va dev + REG_NS_CTRL0).

Definition __set_control_regs_v9 (dev : pkvm_iommu) : hyp unit :=
  (* Return DECERR to device on permission fault. *)
  writel_relaxed ALL_VIDS_BITMAP (dev_va dev + REG_NS_V9_CTRL_ERR_RESP_T_PER_VID_SET) >>
  (* Enable interrupts on fault for all VIDs. *)
  writel_relaxed ALL_VIDS_BITMAP (dev_va dev + REG_NS_INTERRUPT_ENABLE_PER_VID_SET) >>
  writel_relaxed 0 (dev_va dev + REG_NS_CTRL0) >>
  (* Enable the S2MPU, otherwise all traffic would be allowed through. *)
  writel_relaxed ALL_VIDS_BITMAP (dev_va dev + REG_NS_V9_CTRL_PROT_EN_PER_VID_SET) >>
  writel_relaxed 0 (dev_va dev + REG_NS_V9_CFG_MPTW_ATTRIBUTE).

(** *** Polling and the invalidation barrier *)

(** Poll the given SFR until its value has all bits of a given mask set;
    [false] when that did not happen within [max_attempts] reads. *)
Fixpoint __wait_until (addr mask : Z) (max_attempts : nat) : hyp bool :=
  match max_attempts with
  | O => ret false
  | S n =>
      let* v := readl_relaxed addr in
      if Z.land v mask =? mask then ret true
      else __wait_until addr mask n
  end.

(** Poll the given SFR as long as its value has all bits of a given mask
    set.  The loop of the source has no bound; [fuel] bounds the number of
    reads the model follows. *)
Fixpoint __wait_while (fuel : nat) (addr mask : Z) : hyp unit :=
  match fuel with
  | O => fun _ => Polling
  | S n =>
      let* v := readl_relaxed addr in
      if Z.land v mask =? mask then __wait_while n addr mask
      else ret tt
  end.

Definition __sync_cmd_start (sync : pkvm_iommu) : hyp unit :=
  writel_relaxed SYNC_CMD_SYNC (dev_va sync + REG_NS_SYNC_CMD).

(** The [for] loop of [__invalidation_barrier_slow], with [retries] turns
    left and the current [timeout] ([size_t]; it stays far from wrapping). *)
Fixpoint slow_retry (sync : pkvm_iommu) (retries timeout : nat) : hyp unit :=
  match retries with
  | O => ret tt
  | S r =>
      __sync_cmd_start sync >>
      let* done := __wait_until (dev_va sync + REG_NS_SYNC_COMP)
                                SYNC_COMP_COMPLETE timeout in
      if done then ret tt
      else slow_retry sync r (timeout * SYNC_TIMEOUT_MULTIPLIER)%nat
  end.

Definition __invalidation_barrier_slow (sync : pkvm_iommu) : hyp unit :=
  slow_retry sync SYNC_MAX_RETRIES SYNC_TIMEOUT.

(** Initiate invalidation barrier. *)
Definition __invalidation_barrier_init (dev : pkvm_iommu) : hyp unit :=
  for_each (dev_children dev) __sync_cmd_start.

(** The body of the loop over the children in
    [__invalidation_barrier_complete]. *)
Definition sync_complete_or_slow (sync : pkvm_iommu) : hyp unit :=
  let* v := readl_relaxed (dev_va sync + REG_NS_SYNC_COMP) in
  if Z.land v SYNC_COMP_COMPLETE =? 0 then __invalidation_barrier_slow sync
  else ret tt.

(** Wait for invalidation to complete. *)
Definition __invalidation_barrier_complete (fuel : nat) (dev : pkvm_iommu)
  : hyp unit :=
  for_each (dev_children dev) sync_complete_or_slow >>
  (* Must not access SFRs while S2MPU is busy invalidating *)
  let* v2 := gets (fun s => is_version s dev S2MPU_VERSION_2) in
  let* v9 := gets (fun s => is_version s dev S2MPU_VERSION_9) in
  if v2 || v9 then
    __wait_while fuel (dev_va dev + REG_NS_STATUS)
                 (Z.lor STATUS_BUSY STATUS_ON_INVALIDATING)
  else ret tt.

Definition __all_invalidation (fuel : nat) (dev : pkvm_iommu) : hyp unit :=
  writel_relaxed INVALIDATION_INVALIDATE (dev_va dev + REG_NS_ALL_INVALIDATION) >>
  __invalidation_barrier_init dev >>
  __invalidation_barrier_complete fuel dev.

Definition __range_invalidation_init (dev : pkvm_iommu) (first_byte last_byte : Z)
  : hyp unit :=
  let start_ppn := u32 (Z.shiftr first_byte RANGE_INVALIDATION_PPN_SHIFT) in
  let end_ppn := u32 (Z.shiftr last_byte RANGE_INVALIDATION_PPN_SHIFT) in
  writel_relaxed start_ppn (dev_va dev + REG_NS_RANGE_INVALIDATION_START_PPN) >>
  writel_relaxed end_ppn (dev_va dev + REG_NS_RANGE_INVALIDATION_END_PPN) >>
  writel_relaxed INVALIDATION_INVALIDATE (dev_va dev + REG_NS_RANGE_INVALIDATION) >>
  __invalidation_barrier_init dev.

(** *** Bring-up *)

Definition reg_ops_init (ops : s2mpu_reg_ops) : pkvm_iommu -> hyp Z :=
  match ops with
  | ops_v1_v2 => __initialize
  | ops_v9 => __initialize_v2
  end.

Definition reg_ops_set_control_regs (ops : s2mpu_reg_ops) : pkvm_iommu -> hyp unit :=
  match ops with
  | ops_v1_v2 => __set_control_regs
  | ops_v9 => __set_control_regs_v9
  end.

(** Initialize S2MPU device and set all GB regions to 1G granularity with
    given protection bits. *)
Definition initialize_with_prot (fuel : nat) (dev : pkvm_iommu) (prot : Z) : hyp Z :=
  let* r := with_reg_ops (fun ops => reg_ops_init ops dev) in
  if negb (r =? 0) then ret r
  else
    call_mpt_ops (init_with_prot (dev_va dev) prot) >>
    __all_invalidation fuel dev >>
    (* Set control registers, enable the S2MPU. *)
    with_reg_ops (fun ops => reg_ops_set_control_regs ops dev) >>
    ret 0.

(** Initialize S2MPU device, set L2 table addresses and configure
    L1TABLE_ATTR registers according to the given MPT struct; the only MPT
    the driver passes is [host_mpt]. *)
Definition initialize_with_mpt (fuel : nat) (dev : pkvm_iommu) : hyp Z :=
  let* r := with_reg_ops (fun ops => reg_ops_init ops dev) in
  if negb (r =? 0) then ret r
  else
    (let* m := gets host_mpt in call_mpt_ops (init_with_mpt (dev_va dev) m)) >>
    __all_invalidation fuel dev >>
    (* Set control registers, enable the S2MPU. *)
    with_reg_ops (fun ops => reg_ops_set_control_regs ops dev) >>
    ret 0.

Definition s2mpu_resume (fuel : nat) (dev : pkvm_iommu) : hyp Z :=
  initialize_with_mpt fuel dev.

Definition s2mpu_suspend (fuel : nat) (dev : pkvm_iommu) : hyp Z :=
  initialize_with_prot fuel dev MPT_PROT_NONE.

(** *** Identity-map updates *)

Definition PA_MAX : Z := u64 (SZ_1G * Z.of_nat NR_GIGABYTES).

(** [to_valid_range] returns [false] and leaves its arguments alone, or
    returns [true] and stores the new bounds: [None] and [Some] here. *)
Definition to_valid_range (start end_ : Z) : option (Z * Z) :=
  let new_start := start in
  let new_end := end_ in
  let new_end := if PA_MAX <? new_end then PA_MAX else new_end in
  let new_start := ALIGN_DOWN new_start SMPT_GRAN in
  let new_end := ALIGN new_end SMPT_GRAN in
  if new_end <=? new_start then None
  else Some (new_start, new_end).

(** Always called on [&host_mpt]. *)
Definition __mpt_idmap_prepare (first_byte last_byte prot : Z) : hyp unit :=
  with_mpt_ops (fun ops =>
    modify (fun s =>
      set_host_mpt (prepare_range ops (host_mpt s) first_byte last_byte prot) s)).

Definition __mpt_idmap_apply (dev : pkvm_iommu) (first_byte last_byte : Z)
  : hyp unit :=
  let first_gb := u32 (first_byte / SZ_1G) in
  let last_gb := u32 (last_byte / SZ_1G) in
  (let* m := gets host_mpt in
   call_mpt_ops (apply_range (dev_va dev) m first_gb last_gb)) >>
  (* Initiate invalidation, completed in __mdt_idmap_complete. *)
  __range_invalidation_init dev first_byte last_byte.

Definition __mpt_idmap_complete (fuel : nat) (dev : pkvm_iommu) : hyp unit :=
  __invalidation_barrier_complete fuel dev.

Definition s2mpu_host_stage2_idmap_prepare (start end_ prot : Z) : hyp unit :=
  match to_valid_range start end_ with
  | None => ret tt
  | Some (start, end_) =>
      __mpt_idmap_prepare start (u64 (end_ - 1)) (prot_to_mpt prot)
  end.

Definition s2mpu_host_stage2_idmap_apply (dev : pkvm_iommu) (start end_ : Z)
  : hyp unit :=
  match to_valid_range start end_ with
  | None => ret tt
  | Some (start, end_) => __mpt_idmap_apply dev start (u64 (end_ - 1))
  end.

Definition s2mpu_host_stage2_idmap_complete (fuel : nat) (dev : pkvm_iommu)
  : hyp unit :=
  __mpt_idmap_complete fuel dev.

(** *** Register access masks for the host *)

Definition no_access : Z := 0.
Definition read_write : Z := u32 (-1).
Definition read_only (is_write : bool) : Z := if is_write then no_access else read_write.
Definition write_only (is_write : bool) : Z := if is_write then read_write else no_access.

Definition host_mmio_reg_access_mask_v9 (off : Z) (is_write : bool) : Z :=
  let read_only := read_only is_write in
  let write_only := write_only is_write in
  (* Allow reading control registers for debugging. *)
  if off =? REG_NS_CTRL0 then Z.land read_only V9_CTRL0_MASK
  else if off =? REG_NS_V9_CTRL_ERR_RESP_T_PER_VID_SET then
    Z.land read_only ALL_VIDS_BITMAP
  else if off =? REG_NS_V9_CTRL_PROT_EN_PER_VID_SET then
    Z.land read_only ALL_VIDS_BITMAP
  else if off =? REG_NS_V9_READ_STLB then
    Z.land write_only (Z.lor V9_READ_STLB_MASK_TYPEA V9_READ_STLB_MASK_TYPEB)
  else if off =? REG_NS_V9_READ_STLB_TPN then Z.land read_only V9_READ_STLB_TPN_MASK
  else if off =? REG_NS_V9_READ_STLB_TAG_PPN then
    Z.land read_only V9_READ_STLB_TAG_PPN_MASK
  else if off =? REG_NS_V9_READ_STLB_TAG_OTHERS then
    Z.land read_only V9_READ_STLB_TAG_OTHERS_MASK
  else if off =? REG_NS_V9_READ_STLB_DATA then read_only
  else if off =? REG_NS_V9_MPTC_INFO then Z.land read_only V9_READ_MPTC_INFO_MASK
  else if off =? REG_NS_V9_READ_MPTC then Z.land write_only V9_READ_MPTC_MASK
  else if off =? REG_NS_V9_READ_MPTC_TAG_PPN then
    Z.land read_only V9_READ_MPTC_TAG_PPN_MASK
  else if off =? REG_NS_V9_READ_MPTC_TAG_OTHERS then
    Z.land read_only V9_READ_MPTC_TAG_OTHERS_MASK
  else if off =? REG_NS_V9_READ_MPTC_DATA then read_only
  else if off =? REG_NS_V9_PMMU_INFO then Z.land read_only V9_READ_PMMU_INFO_MASK
  else if off =? REG_NS_V9_READ_PTLB then Z.land write_only V9_READ_PTLB_MASK
  else if off =? REG_NS_V9_READ_PTLB_TAG then Z.land read_only V9_READ_PTLB_TAG_MASK
  else if off =? REG_NS_V9_READ_PTLB_DATA_S1_EN_PPN_AP then
    Z.land read_only V9_READ_PTLB_DATA_S1_ENABLE_PPN_AP_MASK
  else if off =? REG_NS_V9_READ_PTLB_DATA_S1_DIS_AP_LIST then read_only
  else if off =? REG_NS_V9_PMMU_INDICATOR then
    Z.land read_only V9_READ_PMMU_INDICATOR_MASK
  else if off =? REG_NS_V9_SWALKER_INFO then Z.land read_only V9_SWALKER_INFO_MASK
  else if (REG_NS_V9_PMMU_PTLB_INFO 0 <=? off)
          && (off <? REG_NS_V9_PMMU_PTLB_INFO V9_MAX_PTLB_NUM) then
    Z.land read_only V9_READ_PMMU_PTLB_INFO_MASK
  else if (REG_NS_V9_STLB_INFO 0 <=? off)
          && (off <? REG_NS_V9_STLB_INFO V9_MAX_STLB_NUM) then
    Z.land read_only V9_READ_SLTB_INFO_MASK
  else no_access.

Definition host_mmio_reg_access_mask_v1_v2 (off : Z) (is_write : bool) : Z :=
  let read_only := read_only is_write in
  let write_only := write_only is_write in
  (* Allow reading control registers for debugging. *)
  if off =? REG_NS_CTRL0 then Z.land read_only CTRL0_MASK
  else if off =? REG_NS_CTRL1 then Z.land read_only CTRL1_MASK
  (* Allow reading MPTC entries for debugging. That involves:
       - writing (set,way) to READ_MPTC
       - reading READ_MPTC_*  *)
  else if off =? REG_NS_READ_MPTC then Z.land write_only READ_MPTC_MASK
  else if off =? REG_NS_READ_MPTC_TAG_PPN then Z.land read_only READ_MPTC_TAG_PPN_MASK
  else if off =? REG_NS_READ_MPTC_TAG_OTHERS then
    Z.land read_only READ_MPTC_TAG_OTHERS_MASK
  else if off =? REG_NS_READ_MPTC_DATA then read_only
  else no_access.

Definition reg_ops_host_mmio_reg_access_mask (ops : s2mpu_reg_ops)
  : Z -> bool -> Z :=
  match ops with
  | ops_v1_v2 => host_mmio_reg_access_mask_v1_v2
  | ops_v9 => host_mmio_reg_access_mask_v9
  end.

Definition host_mmio_reg_access_mask (off : Z) (is_write : bool) : hyp Z :=
  let read_only := read_only is_write in
  let write_only := write_only is_write in
  if off =? REG_NS_CFG then ret (Z.land read_only CFG_MASK)
  (* Allow EL1 IRQ handler to clear interrupts. *)
  else if off =? REG_NS_INTERRUPT_CLEAR then ret (Z.land write_only ALL_VIDS_BITMAP)
  (* Allow reading number of sets used by MPTC. *)
  else if off =? REG_NS_INFO then ret (Z.land read_only INFO_NUM_SET_MASK)
  (* Allow EL1 IRQ handler to read bitmap of pending interrupts. *)
  else if off =? REG_NS_FAULT_STATUS then ret (Z.land read_only ALL_VIDS_BITMAP)
  (* Allow reading L1ENTRY registers for debugging. *)
  else if (REG_NS_L1ENTRY_L2TABLE_ADDR 0 0 <=? off)
          && (off <? REG_NS_L1ENTRY_ATTR NR_VIDS 0) then ret read_only
  else
    (* Allow EL1 IRQ handler to read fault information. *)
    let masked_off := u32 (Z.land off (Z.lnot REG_NS_FAULT_VID_MASK)) in
    if (masked_off =? REG_NS_FAULT_PA_LOW 0)
       || (masked_off =? REG_NS_FAULT_PA_HIGH 0)
       || (masked_off =? REG_NS_FAULT_INFO 0) then ret read_only
    else
      (* Check version-specific registers. *)
      with_reg_ops (fun ops =>
        ret (reg_ops_host_mmio_reg_access_mask ops off is_write)).

(** *** Host data aborts *)

(** What the handler decodes from the syndrome: [is_write], [len], [rd]. *)
Definition dabt_is_write (esr : Z) : bool := negb (Z.land esr ESR_ELx_WNR =? 0).
Definition dabt_len (esr : Z) : Z :=
  u32 (BIT (Z.shiftr (Z.land esr ESR_ELx_SAS) ESR_ELx_SAS_SHIFT)).
Definition dabt_rd (esr : Z) : Z :=
  Z.shiftr (Z.land esr ESR_ELx_SRT_MASK) ESR_ELx_SRT_SHIFT.

(** The handler returns its verdict; the host context it was given by
    pointer comes back beside it. *)
Definition s2mpu_host_dabt_handler (dev : pkvm_iommu) (host_ctxt : kvm_cpu_context)
    (esr off : Z) : hyp (bool * kvm_cpu_context) :=
  let is_write := dabt_is_write esr in
  let len := dabt_len esr in
  let rd := dabt_rd esr in
  (* Only handle MMIO access with u32 size and alignment. *)
  if negb (len =? 4) || negb (Z.land off (4 - 1) =? 0) then ret (false, host_ctxt)
  else
    let* mask := host_mmio_reg_access_mask off is_write in
    if mask =? 0 then ret (false, host_ctxt)
    else if is_write then
      writel_relaxed (u32 (Z.land (cpu_reg host_ctxt rd) mask)) (dev_va dev + off) >>
      ret (true, host_ctxt)
    else
      let* v := readl_relaxed (dev_va dev + off) in
      ret (true, set_cpu_reg host_ctxt rd (Z.land v mask)).

(** *** Driver initialisation *)

(** [memset(&host_mpt, 0, sizeof(host_mpt))], also the initial contents of
    the static. *)
Definition mpt_zero : mpt := Mpt (replicate NR_GIGABYTES (Fmpt 0 false 0)) 0.

Definition set_host_fmpt (gb : nat) (f : fmpt) (s : hyp_state) : hyp_state :=
  set_host_mpt (Mpt (<[gb := f]> (mpt_fmpt (host_mpt s)))
                    (mpt_version (host_mpt s))) s.

(** The first [for_each_gb] loop of [s2mpu_init], over the gigabytes still
    to visit; its value is the [ret] the loop is left with.  [smpt_size]
    and [smpt_nr_pages] are the two [int] locals: [IS_ALIGNED] converts the
    former to the type of [pa], and the donation calls take the latter as
    a [u64]. *)
Fixpoint claim_smpts (in_mpt : mpt) (smpt_size smpt_nr_pages : Z) (gbs : list nat)
  : hyp Z :=
  match gbs with
  | [] => ret 0
  | gb :: gbs' =>
      let smpt := kern_hyp_va (smpt (mpt_fmpt in_mpt !!! gb)) in
      let pa := __hyp_pa smpt in
      if negb (IS_ALIGNED pa smpt_size) then ret (- EINVAL)
      else
        let* r := __pkvm_host_donate_hyp (Z.shiftr pa PAGE_SHIFT) (u64 smpt_nr_pages) in
        if negb (r =? 0) then ret r
        else
          modify (set_host_fmpt gb (Fmpt smpt true MPT_PROT_RW)) >>
          claim_smpts in_mpt smpt_size smpt_nr_pages gbs'
  end.

(** The second loop: hand back what [host_mpt] lists, up to the first
    NULL.  [WARN_ON] only reports a failure. *)
Fixpoint return_smpts (smpt_nr_pages : Z) (gbs : list nat) : hyp unit :=
  match gbs with
  | [] => ret tt
  | gb :: gbs' =>
      let* smpt := gets (fun s => smpt (mpt_fmpt (host_mpt s) !!! gb)) in
      if smpt =? 0 then ret tt
      else
        __pkvm_hyp_donate_host (Z.shiftr (__hyp_pa smpt) PAGE_SHIFT)
                               (u64 smpt_nr_pages) >>
        return_smpts smpt_nr_pages gbs'
  end.

(** [for_each_gb(gb)] visits 0, 1, ..., NR_GIGABYTES - 1. *)
Definition for_each_gb : list nat := seq 0 NR_GIGABYTES.

(** [data] is the host's [struct mpt], as the [memcpy] reads it.
    [smpt_size] and [smpt_nr_pages] are [int]s: what [mpt_ops->smpt_size()]
    returns is converted to [int]; for the division the [int] is converted
    to the type of [PAGE_SIZE], an unsigned long, and the quotient back to
    [int]. *)
Definition s2mpu_init (data : mpt) (size : Z) : hyp Z :=
  if negb (size =? sizeof_mpt) then ret (- EINVAL)
  else
    let in_mpt := data in
    let cfg_version := mpt_version in_mpt in
    (* Make sure the version sent is supported by the driver. *)
    let chosen :=
      if (cfg_version =? S2MPU_VERSION_1) || (cfg_version =? S2MPU_VERSION_2)
      then Some ops_v1_v2
      else if cfg_version =? S2MPU_VERSION_9 then Some ops_v9
      else None in
    match chosen with
    | None => ret (- ENODEV)
    | Some ops =>
        modify (set_reg_ops (Some ops)) >>
        (* Get page table operations for this version. *)
        modify (set_mpt_ops (s2mpu_get_mpt_ops cfg_version)) >>
        let* mops := gets mpt_ops in
        match mops with
        | None => ret (- EINVAL)
        | Some mops =>
            let smpt_size := s32 (smpt_size mops) in
            let smpt_nr_pages := s32 (u64 smpt_size / PAGE_SIZE) in
            (* Take ownership of all SMPT buffers. *)
            let* r := claim_smpts in_mpt smpt_size smpt_nr_pages for_each_gb in
            (* Try to return memory back if there was an error. *)
            if negb (r =? 0) then
              return_smpts smpt_nr_pages for_each_gb >>
              modify (set_host_mpt mpt_zero) >>
              ret r
            else ret r
        end
    end.

End Driver.

(** ** Vocabulary of the statements *)

(** [add_events evs s]: the state [s] after the interactions [evs], with
    nothing else changed. *)
Definition add_events (evs : list event) (s : hyp_state) : hyp_state :=
  HypState (trace s ++ evs) (host_mpt s) (reg_ops s) (mpt_ops s) (dev_data s).

Definition is_readl_of (addr : Z) (e : event) : Prop :=
  exists v, e = EvReadl addr v.

Definition is_readl (e : event) : Prop := exists addr v, e = EvReadl addr v.

Definition is_mmio (e : event) : Prop :=
  exists a v, e = EvReadl a v \/ e = EvWritel v a.

(** A read of [addr] whose value has, respectively has not, all bits of
    [mask] set. *)
Definition readl_with (addr mask : Z) (e : event) : Prop :=
  exists v, e = EvReadl addr v /\ Z.land v mask = mask.

Definition readl_without (addr mask : Z) (e : event) : Prop :=
  exists v, e = EvReadl addr v /\ Z.land v mask <> mask.

(** [slow_path_attempts cmd comp timeouts evs]: [evs] is, for each entry
    [t] of [timeouts] in turn, the command [cmd] followed by [t] reads of
    the register at [comp]. *)
Fixpoint slow_path_attempts (cmd : event) (comp : Z) (timeouts : list nat)
    (evs : list event) : Prop :=
  match timeouts with
  | [] => evs = []
  | t :: ts =>
      exists reads rest,
        evs = cmd :: reads ++ rest
        /\ length reads = t
        /\ Forall (is_readl_of comp) reads
        /\ slow_path_attempts cmd comp ts rest
  end.

(** The time-outs of [retries] turns of the slow path, from [timeout] on. *)
Fixpoint slow_timeouts (retries timeout : nat) : list nat :=
  match retries with
  | O => []
  | S r => timeout :: slow_timeouts r (timeout * SYNC_TIMEOUT_MULTIPLIER)
  end.

(** The VIDs of a bitmap: the positions of its set bits, lowest first. *)
Fixpoint pos_bits (p : positive) (k : Z) : list Z :=
  match p with
  | xH => [k]
  | xO q => pos_bits q (k + 1)
  | xI q => k :: pos_bits q (k + 1)
  end.

Definition bits_from (x k : Z) : list Z :=
  match x with
  | Zpos p => pos_bits p k
  | _ => []
  end.

Definition vids_of (bmap : Z) : list Z := bits_from bmap 0.

(** [fill ctx_vid ctx vids]: store [vids] into [ctx_vid] from slot [ctx]
    upward. *)
Fixpoint fill (ctx_vid : list Z) (ctx : nat) (vids : list Z) : list Z :=
  match vids with
  | [] => ctx_vid
  | v :: vs => fill (<[ctx := v]> ctx_vid) (S ctx) vs
  end.

(** The page ranges a stretch of the trace shows as donated to the
    hypervisor (by a call that succeeded), and those it shows handed back
    to the host. *)
Fixpoint donated (evs : list event) : list (Z * Z) :=
  match evs with
  | [] => []
  | EvHostDonateHyp pfn nr_pages r :: evs' =>
      if r =? 0 then (pfn, nr_pages) :: donated evs' else donated evs'
  | _ :: evs' => donated evs'
  end.

Fixpoint returned (evs : list event) : list (Z * Z) :=
  match evs with
  | [] => []
  | EvHypDonateHost pfn nr_pages _ :: evs' => (pfn, nr_pages) :: returned evs'
  | _ :: evs' => returned evs'
  end.

Section Vocabulary.
Context {hdr : S2mpuHeader} {plat : Platform}.

(** An access to the SYNC registers of one of the children of [dev]: the
    SYNC command, or a read of SYNC_COMP. *)
Definition child_sync_access (dev : pkvm_iommu) (e : event) : Prop :=
  exists sync,
    In sync (dev_children dev)
    /\ (e = EvWritel SYNC_CMD_SYNC (dev_va sync + REG_NS_SYNC_CMD)
        \/ is_readl_of (dev_va sync + REG_NS_SYNC_COMP) e).

(** The next [n] reads of [addr], starting after the history [tr], all
    find every bit of [mask] set. *)
Fixpoint busy_reads (n : nat) (addr mask : Z) (tr : list event) : Prop :=
  match n with
  | O => True
  | S k =>
      let v := u32 (readl_value tr addr) in
      Z.land v mask = mask /\ busy_reads k addr mask (tr ++ [EvReadl addr v])
  end.

(** The process-wide variables are the same in both states. *)
Definition same_globals (s s1 : hyp_state) : Prop :=
  host_mpt s1 = host_mpt s /\ reg_ops s1 = reg_ops s /\ mpt_ops s1 = mpt_ops s.

(** The value [__set_control_regs] writes to CTRL0 in state [s]. *)
Definition ctrl0_value (s : hyp_state) (dev : pkvm_iommu) : Z :=
  Z.lor (Z.lor (Z.lor 0 CTRL0_ENABLE) CTRL0_INTERRUPT_ENABLE)
        (if is_version s dev S2MPU_VERSION_2 then CTRL0_FAULT_RESP_TYPE_DECERR
         else CTRL0_FAULT_RESP_TYPE_SLVERR).

(** What [s2mpu_init] installs for gigabyte [gb] of the host's [data], and
    the page range it donates for it. *)
Definition claimed_fmpt (data : mpt) (gb : nat) : fmpt :=
  Fmpt (kern_hyp_va (smpt (mpt_fmpt data !!! gb))) true MPT_PROT_RW.

Definition smpt_frames (data : mpt) (nr_pages : Z) (gb : nat) : Z * Z :=
  (Z.shiftr (__hyp_pa (kern_hyp_va (smpt (mpt_fmpt data !!! gb)))) PAGE_SHIFT,
   nr_pages).

(** The value of the local [smpt_size] of [s2mpu_init], an [int], and the
    number of pages its donation calls receive: the [int] local
    [smpt_nr_pages], passed as a [u64]. *)
Definition init_smpt_size (mops : s2mpu_mpt_ops) : Z := s32 (smpt_size mops).
Definition init_nr_pages (mops : s2mpu_mpt_ops) : Z :=
  u64 (s32 (u64 (init_smpt_size mops) / PAGE_SIZE)).

(** The two ways a device is brought up, and the call each makes into
    [mpt_ops]. *)
Inductive bring_up := Resume | Suspend.

Definition run_bring_up (b : bring_up) (fuel : nat) (dev : pkvm_iommu) : hyp Z :=
  match b with
  | Resume => s2mpu_resume fuel dev
  | Suspend => s2mpu_suspend fuel dev
  end.

Definition bring_up_call (b : bring_up) (dev : pkvm_iommu) (s : hyp_state)
  : mpt_call :=
  match b with
  | Resume => init_with_mpt (dev_va dev) (host_mpt s)
  | Suspend => init_with_prot (dev_va dev) MPT_PROT_NONE
  end.

(** The writes of [__set_control_regs] and [__set_control_regs_v9]. *)
Definition control_writes_v1_v2 (dev : pkvm_iommu) (ctrl0 : Z) : list event :=
  [ EvWritel ALL_VIDS_BITMAP (dev_va dev + REG_NS_INTERRUPT_ENABLE_PER_VID_SET);
    EvWritel 0 (dev_va dev + REG_NS_CFG);
    EvWritel 0 (dev_va dev + REG_NS_CTRL1);
    EvWritel ctrl0 (dev_va dev + REG_NS_CTRL0) ].

Definition control_writes_v9 (dev : pkvm_iommu) : list event :=
  [ EvWritel ALL_VIDS_BITMAP (dev_va dev + REG_NS_V9_CTRL_ERR_RESP_T_PER_VID_SET);
    EvWritel ALL_VIDS_BITMAP (dev_va dev + REG_NS_INTERRUPT_ENABLE_PER_VID_SET);
    EvWritel 0 (dev_va dev + REG_NS_CTRL0);
    EvWritel ALL_VIDS_BITMAP (dev_va dev + REG_NS_V9_CTRL_PROT_EN_PER_VID_SET);
    EvWritel 0 (dev_va dev + REG_NS_V9_CFG_MPTW_ATTRIBUTE) ].

(** The range after canonicalisation, in the words of the specification:
    [end] clamped to [PA_MAX], [start] aligned down and [end] aligned up to
    [SMPT_GRAN]. *)
Definition canonical_start (start : Z) : Z := ALIGN_DOWN start SMPT_GRAN.
Definition canonical_end (end_ : Z) : Z := ALIGN (Z.min end_ PA_MAX) SMPT_GRAN.

(** The mask [host_mmio_reg_access_mask] computes once [reg_ops] points to
    [ops]: the function run on a state that has nothing but that. *)
Definition access_mask (ops : s2mpu_reg_ops) (off : Z) (is_write : bool) : Z :=
  match host_mmio_reg_access_mask off is_write
          (HypState [] (Mpt [] 0) (Some ops) None (fun _ => DrvData 0 0)) with
  | Ok mask _ => mask
  | _ => 0
  end.

(** The registers the host may write through the trap handler. *)
Definition host_writable (ops : s2mpu_reg_ops) (off : Z) : Prop :=
  off = REG_NS_INTERRUPT_CLEAR
  \/ match ops with
     | ops_v1_v2 => off = REG_NS_READ_MPTC
     | ops_v9 =>
         off = REG_NS_V9_READ_STLB \/ off = REG_NS_V9_READ_MPTC
         \/ off = REG_NS_V9_READ_PTLB
     end.

(** The L1ENTRY registers, the control and configuration registers and
    the invalidation registers. *)
Definition protected_reg (off : Z) : Prop :=
  (exists vid gb,
      0 <= vid < NR_VIDS /\ 0 <= gb < Z.of_nat NR_GIGABYTES
      /\ (off = REG_NS_L1ENTRY_L2TABLE_ADDR vid gb \/ off = REG_NS_L1ENTRY_ATTR vid gb))
  \/ off = REG_NS_CTRL0 \/ off = REG_NS_CTRL1 \/ off = REG_NS_CFG
  \/ off = REG_NS_ALL_INVALIDATION \/ off = REG_NS_RANGE_INVALIDATION
  \/ off = REG_NS_RANGE_INVALIDATION_START_PPN
  \/ off = REG_NS_RANGE_INVALIDATION_END_PPN.

(** [off] is the label of a case, or lies in a range, of the common mask
    table or of the table of [ops]. *)
Definition in_common_table (off : Z) : bool :=
  (off =? REG_NS_CFG) || (off =? REG_NS_INTERRUPT_CLEAR) || (off =? REG_NS_INFO)
  || (off =? REG_NS_FAULT_STATUS)
  || ((REG_NS_L1ENTRY_L2TABLE_ADDR 0 0 <=? off) && (off <? REG_NS_L1ENTRY_ATTR NR_VIDS 0))
  || (u32 (Z.land off (Z.lnot REG_NS_FAULT_VID_MASK)) =? REG_NS_FAULT_PA_LOW 0)
  || (u32 (Z.land off (Z.lnot REG_NS_FAULT_VID_MASK)) =? REG_NS_FAULT_PA_HIGH 0)
  || (u32 (Z.land off (Z.lnot REG_NS_FAULT_VID_MASK)) =? REG_NS_FAULT_INFO 0).

Definition in_version_table (ops : s2mpu_reg_ops) (off : Z) : bool :=
  match ops with
  | ops_v1_v2 =>
      (off =? REG_NS_CTRL0) || (off =? REG_NS_CTRL1) || (off =? REG_NS_READ_MPTC)
      || (off =? REG_NS_READ_MPTC_TAG_PPN) || (off =? REG_NS_READ_MPTC_TAG_OTHERS)
      || (off =? REG_NS_READ_MPTC_DATA)
  | ops_v9 =>
      (off =? REG_NS_CTRL0) || (off =? REG_NS_V9_CTRL_ERR_RESP_T_PER_VID_SET)
      || (off =? REG_NS_V9_CTRL_PROT_EN_PER_VID_SET) || (off =? REG_NS_V9_READ_STLB)
      || (off =? REG_NS_V9_READ_STLB_TPN) || (off =? REG_NS_V9_READ_STLB_TAG_PPN)
      || (off =? REG_NS_V9_READ_STLB_TAG_OTHERS) || (off =? REG_NS_V9_READ_STLB_DATA)
      || (off =? REG_NS_V9_MPTC_INFO) || (off =? REG_NS_V9_READ_MPTC)
      || (off =? REG_NS_V9_READ_MPTC_TAG_PPN) || (off =? REG_NS_V9_READ_MPTC_TAG_OTHERS)
      || (off =? REG_NS_V9_READ_MPTC_DATA) || (off =? REG_NS_V9_PMMU_INFO)
      || (off =? REG_NS_V9_READ_PTLB) || (off =? REG_NS_V9_READ_PTLB_TAG)
      || (off =? REG_NS_V9_READ_PTLB_DATA_S1_EN_PPN_AP)
      || (off =? REG_NS_V9_READ_PTLB_DATA_S1_DIS_AP_LIST)
      || (off =? REG_NS_V9_PMMU_INDICATOR) || (off =? REG_NS_V9_SWALKER_INFO)
      || ((REG_NS_V9_PMMU_PTLB_INFO 0 <=? off)
          && (off <? REG_NS_V9_PMMU_PTLB_INFO V9_MAX_PTLB_NUM))
      || ((REG_NS_V9_STLB_INFO 0 <=? off) && (off <? REG_NS_V9_STLB_INFO V9_MAX_STLB_NUM))
  end.

Definition in_mask_tables (ops : s2mpu_reg_ops) (off : Z) : bool :=
  in_common_table off || in_version_table ops off.

Definition control_writes (ops : s2mpu_reg_ops) (dev : pkvm_iommu) (s : hyp_state)
  : list event :=
  match ops with
  | ops_v1_v2 => control_writes_v1_v2 dev (ctrl0_value s dev)
  | ops_v9 => control_writes_v9 dev
  end.

End Vocabulary.

Section MoreVocabulary.
Context {hdr : S2mpuHeader} {plat : Platform}.

(** The geometry the address computations rely on: [SMPT_GRAN] is a power
    of two that divides a gigabyte, and [NR_GIGABYTES] gigabytes fit the
    64 bits of a [phys_addr_t]. *)
Definition range_geometry (k : Z) : Prop :=
  SMPT_GRAN = 2 ^ k /\ 0 <= k <= 30 /\ SZ_1G * Z.of_nat NR_GIGABYTES < 2 ^ 64.

(** The SYNC command [__sync_cmd_start] writes for the child [sync]. *)
Definition sync_cmd_event (sync : pkvm_iommu) : event :=
  EvWritel SYNC_CMD_SYNC (dev_va sync + REG_NS_SYNC_CMD).

(** The most register accesses [retries] turns of the slow path can make,
    starting with time-out [timeout]: a command and [timeout] polls per
    turn. *)
Fixpoint slow_budget (retries timeout : nat) : nat :=
  match retries with
  | O => O
  | S r => S timeout + slow_budget r (timeout * SYNC_TIMEOUT_MULTIPLIER)
  end.

(** A call of one of the two donation functions. *)
Definition is_donation (e : event) : Prop :=
  exists pfn nr_pages r,
    e = EvHostDonateHyp pfn nr_pages r \/ e = EvHypDonateHost pfn nr_pages r.

(** The operations [s2mpu_init] selects for a version. *)
Definition ops_for_version (ops : s2mpu_reg_ops) (version : Z) : Prop :=
  match ops with
  | ops_v1_v2 => version = S2MPU_VERSION_1 \/ version = S2MPU_VERSION_2
  | ops_v9 =>
      version = S2MPU_VERSION_9
      /\ version <> S2MPU_VERSION_1 /\ version <> S2MPU_VERSION_2
  end.

End MoreVocabulary.

(** ** A concrete platform to run the definitions on

    A sample assignment of the header constants, laid out like an S2MPU
    register file, with four gigabytes of physical address space.  It
    serves to run the definitions; the theorems hold for every assignment. *)

Definition sample_header : S2mpuHeader := {|
  S2MPU_VERSION_1 := 0x11000000;
  S2MPU_VERSION_2 := 0x20000000;
  S2MPU_VERSION_9 := 0x90000000;
  VERSION_CHECK_MASK := 0xffff0000;
  NR_GIGABYTES := 4;
  NR_VIDS := 8;
  SMPT_GRAN := 0x1000;
  PAGE_SHIFT := 12;
  PAGE_SIZE := 0x1000;
  sizeof_mpt := 72;
  KVM_PGTABLE_PROT_R := 4;
  KVM_PGTABLE_PROT_W := 2;
  MPT_PROT_NONE := 0;
  MPT_PROT_R := 1;
  MPT_PROT_W := 2;
  MPT_PROT_RW := 3;
  ESR_ELx_WNR := 0x40;
  ESR_ELx_SAS := 0xc00000;
  ESR_ELx_SAS_SHIFT := 22;
  ESR_ELx_SRT_MASK := 0x1f0000;
  ESR_ELx_SRT_SHIFT := 16;
  REG_NS_CTRL0 := 0x0;
  REG_NS_CTRL1 := 0x4;
  REG_NS_CFG := 0x10;
  REG_NS_INTERRUPT_ENABLE_PER_VID_SET := 0x20;
  REG_NS_INTERRUPT_CLEAR := 0x2c;
  REG_NS_VERSION := 0x60;
  REG_NS_INFO := 0x64;
  REG_NS_STATUS := 0x68;
  REG_NS_NUM_CONTEXT := 0x100;
  REG_NS_CONTEXT_CFG_VALID_VID := 0x104;
  REG_NS_ALL_INVALIDATION := 0x1000;
  REG_NS_RANGE_INVALIDATION := 0x1020;
  REG_NS_RANGE_INVALIDATION_START_PPN := 0x1024;
  REG_NS_RANGE_INVALIDATION_END_PPN := 0x1028;
  REG_NS_FAULT_STATUS := 0x2000;
  REG_NS_FAULT_PA_LOW := fun vid => 0x2004 + vid * 0x20;
  REG_NS_FAULT_PA_HIGH := fun vid => 0x2008 + vid * 0x20;
  REG_NS_FAULT_INFO := fun vid => 0x2010 + vid * 0x20;
  REG_NS_FAULT_VID_MASK := 0xe0;
  REG_NS_L1ENTRY_L2TABLE_ADDR := fun vid gb => 0x4000 + vid * 0x200 + gb * 0x8;
  REG_NS_L1ENTRY_ATTR := fun vid gb => 0x4004 + vid * 0x200 + gb * 0x8;
  REG_NS_READ_MPTC := 0x3000;
  REG_NS_READ_MPTC_TAG_PPN := 0x3004;
  REG_NS_READ_MPTC_TAG_OTHERS := 0x3008;
  REG_NS_READ_MPTC_DATA := 0x3010;
  REG_NS_V9_CTRL_ERR_RESP_T_PER_VID_SET := 0x70;
  REG_NS_V9_CTRL_PROT_EN_PER_VID_SET := 0x50;
  REG_NS_V9_CFG_MPTW_ATTRIBUTE := 0x14;
  REG_NS_V9_READ_STLB := 0x3000;
  REG_NS_V9_READ_STLB_TPN := 0x3004;
  REG_NS_V9_READ_STLB_TAG_PPN := 0x3008;
  REG_NS_V9_READ_STLB_TAG_OTHERS := 0x300c;
  REG_NS_V9_READ_STLB_DATA := 0x3010;
  REG_NS_V9_MPTC_INFO := 0x3c00;
  REG_NS_V9_READ_MPTC := 0x3c10;
  REG_NS_V9_READ_MPTC_TAG_PPN := 0x3c14;
  REG_NS_V9_READ_MPTC_TAG_OTHERS := 0x3c18;
  REG_NS_V9_READ_MPTC_DATA := 0x3c20;
  REG_NS_V9_PMMU_INFO := 0x3d00;
  REG_NS_V9_READ_PTLB := 0x3d10;
  REG_NS_V9_READ_PTLB_TAG := 0x3d14;
  REG_NS_V9_READ_PTLB_DATA_S1_EN_PPN_AP := 0x3d18;
  REG_NS_V9_READ_PTLB_DATA_S1_DIS_AP_LIST := 0x3d1c;
  REG_NS_V9_PMMU_INDICATOR := 0x3d20;
  REG_NS_V9_SWALKER_INFO := 0x3d04;
  REG_NS_V9_PMMU_PTLB_INFO := fun n => 0x3e00 + n * 0x4;
  REG_NS_V9_STLB_INFO := fun n => 0x3f00 + n * 0x4;
  V9_MAX_PTLB_NUM := 0x10;
  V9_MAX_STLB_NUM := 0x10;
  REG_NS_SYNC_CMD := 0x0;
  REG_NS_SYNC_COMP := 0x4;
  ALL_VIDS_BITMAP := 0xff;
  NUM_CONTEXT_MASK := 0xf;
  CONTEXT_CFG_VALID_VID_CTX_VALID := fun ctx => BIT (4 * ctx + 3);
  CONTEXT_CFG_VALID_VID_CTX_VID :=
    fun ctx vid => Z.land (Z.shiftl vid (4 * ctx)) (Z.shiftl 7 (4 * ctx));
  CTRL0_ENABLE := 1;
  CTRL0_INTERRUPT_ENABLE := 2;
  CTRL0_FAULT_RESP_TYPE_SLVERR := 4;
  CTRL0_FAULT_RESP_TYPE_DECERR := 4;
  CTRL0_MASK := 7;
  CTRL1_MASK := 1;
  CFG_MASK := 0x3ff;
  INFO_NUM_SET_MASK := 0xffff;
  STATUS_BUSY := 1;
  STATUS_ON_INVALIDATING := 2;
  INVALIDATION_INVALIDATE := 1;
  RANGE_INVALIDATION_PPN_SHIFT := 12;
  SYNC_CMD_SYNC := 1;
  SYNC_COMP_COMPLETE := 1;
  READ_MPTC_MASK := 0xffff;
  READ_MPTC_TAG_PPN_MASK := 0xffffff;
  READ_MPTC_TAG_OTHERS_MASK := 0xfff;
  V9_CTRL0_MASK := 1;
  V9_READ_STLB_MASK_TYPEA := 0xffff;
  V9_READ_STLB_MASK_TYPEB := 0xff0000;
  V9_READ_STLB_TPN_MASK := 0xffffff;
  V9_READ_STLB_TAG_PPN_MASK := 0xffffff;
  V9_READ_STLB_TAG_OTHERS_MASK := 0xfff;
  V9_READ_MPTC_INFO_MASK := 0xffff;
  V9_READ_MPTC_MASK := 0xffff;
  V9_READ_MPTC_TAG_PPN_MASK := 0xffffff;
  V9_READ_MPTC_TAG_OTHERS_MASK := 0xfff;
  V9_READ_PMMU_INFO_MASK := 0xffff;
  V9_READ_PTLB_MASK := 0xffff;
  V9_READ_PTLB_TAG_MASK := 0xffffff;
  V9_READ_PTLB_DATA_S1_ENABLE_PPN_AP_MASK := 0xffffff;
  V9_READ_PMMU_INDICATOR_MASK := 0xff;
  V9_SWALKER_INFO_MASK := 0xffff;
  V9_READ_PMMU_PTLB_INFO_MASK := 0xffff;
  V9_READ_SLTB_INFO_MASK := 0xffff;
|}.

(** Page-table operations with 64 KiB SMPT buffers whose [prepare_range]
    records the protection in every gigabyte entry. *)
Definition sample_mpt_ops : s2mpu_mpt_ops :=
  MptOps 0x10000
         (fun m _ _ p => Mpt (map (fun f => Fmpt (smpt f) (gran_1g f) p) (mpt_fmpt m))
                             (mpt_version m)).

(** A platform whose registers read as [regs] says, given the number of
    interactions so far and the address; whose hyp mapping is the identity;
    and whose donations succeed except [host_donate_hyp] of the frame
    [bad_pfn]. *)
Definition sample_platform (regs : nat -> Z -> Z) (bad_pfn : Z) : Platform := {|
  readl_value := fun tr addr => regs (length tr) addr;
  host_donate_hyp_ret := fun _ pfn _ => if pfn =? bad_pfn then -1 else 0;
  hyp_donate_host_ret := fun _ _ _ => 0;
  kern_hyp_va := fun v => v;
  __hyp_pa := fun v => v;
  s2mpu_get_mpt_ops := fun _ => Some sample_mpt_ops;
|}.

(** Page-table operations whose SMPT size does not fit an [int]. *)
Definition huge_mpt_ops : s2mpu_mpt_ops :=
  MptOps 0x80000000 (fun m _ _ _ => m).

(** The same platform with the page-table operations [huge_mpt_ops]. *)
Definition huge_platform : Platform := {|
  readl_value := fun _ _ => 0;
  host_donate_hyp_ret := fun _ _ _ => 0;
  hyp_donate_host_ret := fun _ _ _ => 0;
  kern_hyp_va := fun v => v;
  __hyp_pa := fun v => v;
  s2mpu_get_mpt_ops := fun _ => Some huge_mpt_ops;
|}.

(** The state before [s2mpu_init]: statics are zero, nothing has happened.
    [dev->data] of a registered device starts out as [data0]. *)
Definition boot_state {hdr : S2mpuHeader} (data0 : s2mpu_drv_data) : hyp_state :=
  HypState [] mpt_zero None None (fun _ => data0).

(** A state after a successful [s2mpu_init] for the given operations. *)
Definition ready_state {hdr : S2mpuHeader} (ops : s2mpu_reg_ops)
    (data0 : s2mpu_drv_data) : hyp_state :=
  HypState [] mpt_zero (Some ops) (Some sample_mpt_ops) (fun _ => data0).

(** Registers of a v2 device with eight contexts whose SYNC child has
    completed and whose STATUS reads [status (n)] after [n] interactions. *)
Definition v2_regs (status : nat -> Z) (n : nat) (addr : Z) : Z :=
  if addr =? 0x60 then 0x20000000
  else if addr =? 0x100 then 8
  else if addr =? 0x68 then status n
  else if addr =? 0x10004 then 1
  else 0.

(** Four SMPT buffers, the third of which is not aligned to the 64 KiB of
    [sample_mpt_ops]. *)
Definition sample_host_mpt : mpt :=
  Mpt [Fmpt 0x10000 false 0; Fmpt 0x20000 false 0; Fmpt 0x30800 false 0;
       Fmpt 0x40000 false 0] 0x20000000.


(** Four SMPT buffers at 2 GiB, for [huge_mpt_ops]. *)
Definition high_host_mpt : mpt :=
  Mpt (replicate 4 (Fmpt 0x80000000 false 0)) 0x20000000.

(** Four SMPT buffers aligned to the 64 KiB of [sample_mpt_ops]. *)
Definition aligned_host_mpt : mpt :=
  Mpt [Fmpt 0x10000 false 0; Fmpt 0x20000 false 0; Fmpt 0x30000 false 0;
       Fmpt 0x40000 false 0] 0x20000000.

(** The state a computation ends in, [s] if it does not end. *)
Definition state_of {A} (r : result A) (s : hyp_state) : hyp_state :=
  match r with
  | Ok _ s' => s'
  | _ => s
  end.

(** An S2MPU at offset 0 with one SysMMU_SYNC child, and a lone one. *)
Definition sample_sync : pkvm_iommu := PkvmIommu 1 0x10000 [].
Definition sample_dev : pkvm_iommu := PkvmIommu 0 0 [sample_sync].
Definition lone_dev : pkvm_iommu := PkvmIommu 0 0 [].

(** * Properties *)

Section Proofs.
Context {hdr : S2mpuHeader} {plat : Platform}.

(** ** Traces *)

Lemma add_events_nil s : add_events [] s = s.
Proof. destruct s. unfold add_events. simpl. by rewrite app_nil_r. Qed.

Lemma add_events_app e1 e2 s :
  add_events e2 (add_events e1 s) = add_events (e1 ++ e2) s.
Proof. unfold add_events. simpl. by rewrite app_assoc. Qed.

Lemma emit_add_events e s : emit e s = add_events [e] s.
Proof. reflexivity. Qed.

Lemma trace_add_events evs s : trace (add_events evs s) = trace s ++ evs.
Proof. reflexivity. Qed.

(** ** Bounded polling and the slow path *)

Lemma wait_until_run addr mask n s :
  exists b evs,
    __wait_until addr mask n s = Ok b (add_events evs s)
    /\ (length evs <= n)%nat
    /\ (b = false -> length evs = n /\ Forall (readl_without addr mask) evs)
    /\ (b = true -> exists pre e, evs = pre ++ [e]
                     /\ Forall (readl_without addr mask) pre
                     /\ readl_with addr mask e).
Proof.
  revert s. induction n as [|n IH]; intros s; simpl.
  - exists false, []. rewrite add_events_nil.
    split; [reflexivity|]. split; [simpl; lia|]. split; [auto|discriminate].
  - unfold bind, readl_relaxed. simpl.
    set (v := u32 (readl_value (trace s) addr)).
    destruct (Z.eqb_spec (Z.land v mask) mask) as [Hc|Hc].
    + exists true, [EvReadl addr v].
      split; [reflexivity|]. split; [simpl; lia|]. split; [discriminate|].
      intros _. exists [], (EvReadl addr v).
      split; [reflexivity|]. split; [constructor|]. by exists v.
    + destruct (IH (emit (EvReadl addr v) s)) as (b & evs & Hrun & Hlen & Hf & Ht).
      exists b, (EvReadl addr v :: evs).
      rewrite Hrun, emit_add_events, add_events_app. simpl.
      assert (Hr : readl_without addr mask (EvReadl addr v)) by (by exists v).
      split; [reflexivity|]. split; [lia|]. split.
      * intros Hb. destruct (Hf Hb) as [Hl Hall]. split; [lia|by constructor].
      * intros Hb. destruct (Ht Hb) as (pre & e & -> & Hpre & He).
        exists (EvReadl addr v :: pre), e.
        split; [reflexivity|]. split; [by constructor|assumption].
Qed.

Lemma readl_without_not_with addr mask e :
  readl_without addr mask e -> ~ readl_with addr mask e.
Proof. intros (v & -> & Hv) (v' & [= <-] & Hv'). contradiction. Qed.

Lemma split_after_prefix {A} (P : A -> Prop) (l l2 pre : list A) e post :
  l ++ l2 = pre ++ e :: post -> Forall (fun x => ~ P x) l -> P e ->
  exists pre2, l2 = pre2 ++ e :: post.
Proof.
  revert pre. induction l as [|x l IH]; intros pre Heq Hall He; simpl in Heq.
  - by exists pre.
  - inversion Hall as [|? ? Hx Hl]; subst.
    destruct pre as [|y pre]; simpl in Heq; injection Heq as -> Heq.
    + contradiction.
    + by apply (IH pre).
Qed.

Lemma wait_until_never addr mask n s :
  (forall tr, Z.land (u32 (readl_value tr addr)) mask <> mask) ->
  exists evs,
    __wait_until addr mask n s = Ok false (add_events evs s)
    /\ length evs = n /\ Forall (is_readl_of addr) evs.
Proof.
  intros Hnever. revert s. induction n as [|n IH]; intros s; simpl.
  - exists []. by rewrite add_events_nil.
  - unfold bind, readl_relaxed. simpl.
    destruct (Z.eqb_spec (Z.land (u32 (readl_value (trace s) addr)) mask) mask)
      as [Hc|_]; [by apply Hnever in Hc|].
    destruct (IH (emit (EvReadl addr (u32 (readl_value (trace s) addr))) s))
      as (evs & Hrun & Hlen & Hall).
    eexists (_ :: evs). rewrite Hrun, emit_add_events, add_events_app.
    split; [reflexivity|]. split; [simpl; lia|].
    constructor; [by eexists|assumption].
Qed.

Lemma slow_retry_never sync retries timeout s :
  (forall tr, Z.land (u32 (readl_value tr (dev_va sync + REG_NS_SYNC_COMP)))
                     SYNC_COMP_COMPLETE <> SYNC_COMP_COMPLETE) ->
  exists evs,
    slow_retry sync retries timeout s = Ok tt (add_events evs s)
    /\ slow_path_attempts (EvWritel SYNC_CMD_SYNC (dev_va sync + REG_NS_SYNC_CMD))
                          (dev_va sync + REG_NS_SYNC_COMP)
                          (slow_timeouts retries timeout) evs.
Proof.
  intros Hnever. revert timeout s.
  induction retries as [|r IH]; intros timeout s; simpl.
  - exists []. by rewrite add_events_nil.
  - unfold bind, __sync_cmd_start, writel_relaxed, modify. simpl.
    destruct (wait_until_never _ _ timeout
                (emit (EvWritel SYNC_CMD_SYNC (dev_va sync + REG_NS_SYNC_CMD)) s)
                Hnever) as (reads & -> & Hlen & Hreads).
    destruct (IH (timeout * SYNC_TIMEOUT_MULTIPLIER)%nat
                 (add_events reads
                    (emit (EvWritel SYNC_CMD_SYNC (dev_va sync + REG_NS_SYNC_CMD)) s)))
      as (rest & -> & Hrest).
    eexists (_ :: reads ++ rest).
    rewrite emit_add_events, !add_events_app. simpl.
    split; [reflexivity|]. by exists reads, rest.
Qed.

Lemma slow_retry_run sync retries timeout s :
  exists evs,
    slow_retry sync retries timeout s = Ok tt (add_events evs s)
    /\ forall pre e post,
         evs = pre ++ e :: post ->
         readl_with (dev_va sync + REG_NS_SYNC_COMP) SYNC_COMP_COMPLETE e ->
         post = [].
Proof.
  revert timeout s. induction retries as [|r IH]; intros timeout s; simpl.
  - exists []. rewrite add_events_nil. split; [reflexivity|].
    intros [|] ? ? [=].
  - unfold bind, __sync_cmd_start, writel_relaxed, modify. simpl.
    set (cmd := EvWritel SYNC_CMD_SYNC (dev_va sync + REG_NS_SYNC_CMD)).
    set (comp := dev_va sync + REG_NS_SYNC_COMP).
    assert (Hcmd : ~ readl_with comp SYNC_COMP_COMPLETE cmd)
      by (intros (v & [=] & _)).
    destruct (wait_until_run comp SYNC_COMP_COMPLETE timeout (emit cmd s))
      as (b & reads & -> & _ & Hf & Ht).
    destruct b.
    + destruct (Ht eq_refl) as (pre' & e' & -> & Hpre & _).
      eexists (cmd :: pre' ++ [e']).
      rewrite emit_add_events, add_events_app. split; [reflexivity|].
      intros pre e post Heq He.
      destruct (split_after_prefix (readl_with comp SYNC_COMP_COMPLETE)
                  (cmd :: pre') [e'] pre e post) as (pre2 & Hp2); auto.
      { constructor; [assumption|].
        eapply Forall_impl; [exact Hpre|]. intros; by apply readl_without_not_with. }
      destruct pre2 as [|? [|? ?]]; by inversion Hp2.
    + destruct (Hf eq_refl) as [_ Hreads].
      destruct (IH (timeout * SYNC_TIMEOUT_MULTIPLIER)%nat
                   (add_events reads (emit cmd s))) as (rest & -> & Hrest).
      eexists (cmd :: reads ++ rest).
      rewrite emit_add_events, !add_events_app. split; [reflexivity|].
      intros pre e post Heq He.
      destruct (split_after_prefix (readl_with comp SYNC_COMP_COMPLETE)
                  (cmd :: reads) rest pre e post) as (pre2 & Hp2); auto.
      { constructor; [assumption|].
        eapply Forall_impl; [exact Hreads|]. intros; by apply readl_without_not_with. }
      by apply (Hrest pre2 e post).
Qed.

Lemma add_events_inj evs evs' s : add_events evs s = add_events evs' s -> evs = evs'.
Proof. intros [= H]. by apply app_inv_head in H. Qed.

(** C9.  [__invalidation_barrier_slow] always returns, and it returns
    nothing: a caller cannot tell whether the SYNC completed.  When
    SYNC_COMP never reads as COMPLETE, what it does is exactly five times
    the SYNC command followed by polls of SYNC_COMP, 5 of them, then 15,
    45, 135 and 405.  In every run, a read of SYNC_COMP that finds COMPLETE
    set is the last thing the function does: no command is issued after
    it. *)
Theorem invalidation_barrier_slow_retries (sync : pkvm_iommu) (s : hyp_state) :
  let cmd := EvWritel SYNC_CMD_SYNC (dev_va sync + REG_NS_SYNC_CMD) in
  let comp := dev_va sync + REG_NS_SYNC_COMP in
  exists evs,
    __invalidation_barrier_slow sync s = Ok tt (add_events evs s)
    /\ ((forall tr, Z.land (u32 (readl_value tr comp)) SYNC_COMP_COMPLETE
                    <> SYNC_COMP_COMPLETE) ->
        slow_path_attempts cmd comp [5; 15; 45; 135; 405]%nat evs)
    /\ (forall pre e post,
          evs = pre ++ e :: post -> readl_with comp SYNC_COMP_COMPLETE e ->
          post = []).
Proof.
  intros cmd comp. unfold __invalidation_barrier_slow.
  destruct (slow_retry_run sync SYNC_MAX_RETRIES SYNC_TIMEOUT s) as (evs & Hrun & Hfin).
  exists evs. split; [exact Hrun|]. split; [|exact Hfin].
  intros Hnever.
  destruct (slow_retry_never sync SYNC_MAX_RETRIES SYNC_TIMEOUT s Hnever)
    as (evs' & Hrun' & Hshape).
  rewrite Hrun in Hrun'. injection Hrun' as Heq.
  apply app_inv_head in Heq. subst evs'. exact Hshape.
Qed.

(** ** Running monadic code *)

Lemma bind_ok {A B} (m : hyp A) (k : A -> hyp B) s b s' :
  bind m k s = Ok b s' -> exists a s1, m s = Ok a s1 /\ k a s1 = Ok b s'.
Proof. unfold bind. destruct (m s) as [a s1| |]; try discriminate. eauto. Qed.

Lemma for_each_run {A} (l : list A) (body : A -> hyp unit) (P : A -> event -> Prop) :
  (forall x s, In x l ->
     exists evs, body x s = Ok tt (add_events evs s) /\ Forall (P x) evs) ->
  forall s, exists evs,
    for_each l body s = Ok tt (add_events evs s)
    /\ Forall (fun e => exists x, In x l /\ P x e) evs.
Proof.
  induction l as [|x l IH]; intros Hbody s; simpl.
  - exists []. by rewrite add_events_nil.
  - destruct (Hbody x s) as (e1 & H1 & HP1); [by left|].
    destruct IH with (s := add_events e1 s) as (e2 & H2 & HP2).
    { intros y s0 Hy. apply Hbody. by right. }
    exists (e1 ++ e2). unfold bind. rewrite H1, H2, add_events_app.
    split; [reflexivity|]. apply Forall_app. split.
    + eapply Forall_impl; [exact HP1|]. intros e He. exists x. split; [by left|done].
    + eapply Forall_impl; [exact HP2|]. intros e (y & Hy & He). exists y.
      split; [by right|done].
Qed.

Lemma is_version_add_events evs s dev v :
  is_version (add_events evs s) dev v = is_version s dev v.
Proof. reflexivity. Qed.

(** ** The invalidation barrier *)

Lemma slow_retry_accesses sync retries timeout s :
  exists evs,
    slow_retry sync retries timeout s = Ok tt (add_events evs s)
    /\ Forall (fun e => e = EvWritel SYNC_CMD_SYNC (dev_va sync + REG_NS_SYNC_CMD)
                        \/ is_readl_of (dev_va sync + REG_NS_SYNC_COMP) e) evs.
Proof.
  revert timeout s. induction retries as [|r IH]; intros timeout s; simpl.
  - exists []. by rewrite add_events_nil.
  - unfold bind, __sync_cmd_start, writel_relaxed, modify. simpl.
    set (cmd := EvWritel SYNC_CMD_SYNC (dev_va sync + REG_NS_SYNC_CMD)).
    set (comp := dev_va sync + REG_NS_SYNC_COMP).
    destruct (wait_until_run comp SYNC_COMP_COMPLETE timeout (emit cmd s))
      as (b & reads & -> & _ & Hf & Ht).
    assert (Hreads : Forall (fun e => e = cmd \/ is_readl_of comp e) reads).
    { destruct b.
      - destruct (Ht eq_refl) as (pre & e & -> & Hpre & (v & -> & _)).
        apply Forall_app. split.
        + eapply Forall_impl; [exact Hpre|]. intros e (w & -> & _). right. by exists w.
        + constructor; [|constructor]. right. by exists v.
      - destruct (Hf eq_refl) as [_ Hall].
        eapply Forall_impl; [exact Hall|]. intros e (w & -> & _). right. by exists w. }
    destruct b.
    + exists (cmd :: reads). rewrite emit_add_events, add_events_app.
      split; [reflexivity|]. constructor; [by left|assumption].
    + destruct (IH (timeout * SYNC_TIMEOUT_MULTIPLIER)%nat
                   (add_events reads (emit cmd s))) as (rest & -> & Hrest).
      exists (cmd :: reads ++ rest). rewrite emit_add_events, !add_events_app.
      split; [reflexivity|]. constructor; [by left|]. by apply Forall_app.
Qed.

Lemma barrier_init_run dev s :
  exists evs,
    __invalidation_barrier_init dev s = Ok tt (add_events evs s)
    /\ Forall (child_sync_access dev) evs.
Proof.
  unfold __invalidation_barrier_init.
  destruct (for_each_run (dev_children dev) __sync_cmd_start
              (fun sync e => e = EvWritel SYNC_CMD_SYNC (dev_va sync + REG_NS_SYNC_CMD))) with (s := s)
    as (evs & Hrun & Hall).
  { intros sync s0 _. eexists [_]. split; [reflexivity|]. by constructor. }
  exists evs. split; [exact Hrun|].
  eapply Forall_impl; [exact Hall|]. intros e (sync & Hin & ->). exists sync. auto.
Qed.

Lemma sync_phase_run dev s :
  exists evs,
    for_each (dev_children dev) sync_complete_or_slow s = Ok tt (add_events evs s)
    /\ Forall (child_sync_access dev) evs.
Proof.
  destruct (for_each_run (dev_children dev) sync_complete_or_slow
              (fun sync e => e = EvWritel SYNC_CMD_SYNC (dev_va sync + REG_NS_SYNC_CMD)
                             \/ is_readl_of (dev_va sync + REG_NS_SYNC_COMP) e)) with (s := s)
    as (evs & Hrun & Hall).
  { intros sync s0 _. unfold sync_complete_or_slow, bind, readl_relaxed. simpl.
    set (v := u32 (readl_value (trace s0) (dev_va sync + REG_NS_SYNC_COMP))).
    assert (Hv : is_readl_of (dev_va sync + REG_NS_SYNC_COMP)
                   (EvReadl (dev_va sync + REG_NS_SYNC_COMP) v)) by (by exists v).
    destruct (Z.land v SYNC_COMP_COMPLETE =? 0).
    - unfold __invalidation_barrier_slow.
      destruct (slow_retry_accesses sync SYNC_MAX_RETRIES SYNC_TIMEOUT
                  (emit (EvReadl (dev_va sync + REG_NS_SYNC_COMP) v) s0))
        as (evs & -> & Hall).
      eexists (_ :: evs). rewrite emit_add_events, add_events_app.
      split; [reflexivity|]. constructor; [by right|assumption].
    - eexists [_]. split; [reflexivity|]. constructor; [by right|constructor]. }
  exists evs. split; [exact Hrun|].
  eapply Forall_impl; [exact Hall|]. intros e (sync & Hin & He). by exists sync.
Qed.

Lemma wait_while_run fuel addr mask s :
  (busy_reads fuel addr mask (trace s) /\ __wait_while fuel addr mask s = Polling)
  \/ (~ busy_reads fuel addr mask (trace s)
      /\ exists polls v,
           __wait_while fuel addr mask s = Ok tt (add_events (polls ++ [EvReadl addr v]) s)
           /\ Forall (readl_with addr mask) polls
           /\ Z.land v mask <> mask
           /\ (length polls < fuel)%nat).
Proof.
  revert s. induction fuel as [|n IH]; intros s; simpl.
  - left. done.
  - unfold bind, readl_relaxed. simpl.
    set (v := u32 (readl_value (trace s) addr)).
    destruct (Z.eqb_spec (Z.land v mask) mask) as [Hc|Hc].
    + destruct (IH (emit (EvReadl addr v) s)) as [[Hb Hp]|[Hb (polls & w & Hrun & Hall & Hw & Hlen)]].
      * left. split; [split; assumption|exact Hp].
      * right. split; [intros [_ Hb']; by apply Hb|].
        exists (EvReadl addr v :: polls), w.
        rewrite Hrun, emit_add_events, add_events_app.
        split; [reflexivity|]. split; [|split; [assumption|simpl; lia]].
        constructor; [by exists v|assumption].
    + right. split; [by intros [Hb _]|].
      exists [], v. split; [reflexivity|]. split; [constructor|]. split; [assumption|simpl; lia].
Qed.

Lemma barrier_complete_run fuel dev s :
  exists sync_evs,
    Forall (child_sync_access dev) sync_evs
    /\ (is_version s dev S2MPU_VERSION_2 || is_version s dev S2MPU_VERSION_9 = false ->
        __invalidation_barrier_complete fuel dev s = Ok tt (add_events sync_evs s))
    /\ (is_version s dev S2MPU_VERSION_2 || is_version s dev S2MPU_VERSION_9 = true ->
        __invalidation_barrier_complete fuel dev s
        = __wait_while fuel (dev_va dev + REG_NS_STATUS)
            (Z.lor STATUS_BUSY STATUS_ON_INVALIDATING) (add_events sync_evs s)).
Proof.
  destruct (sync_phase_run dev s) as (evs & Hrun & Hall).
  exists evs. split; [exact Hall|].
  unfold __invalidation_barrier_complete, bind. rewrite Hrun.
  unfold gets. rewrite !is_version_add_events.
  split; intros ->; reflexivity.
Qed.

Lemma readl_with_is_mmio addr mask e : readl_with addr mask e -> is_mmio e.
Proof. intros (v & -> & _). exists addr, v. by left. Qed.

Lemma child_sync_access_is_mmio dev e : child_sync_access dev e -> is_mmio e.
Proof.
  intros (sync & _ & [->|(v & ->)]).
  - eexists _, _. by right.
  - eexists _, _. by left.
Qed.

Lemma barrier_complete_ok fuel dev s s' :
  __invalidation_barrier_complete fuel dev s = Ok tt s' ->
  exists evs, s' = add_events evs s /\ Forall is_mmio evs.
Proof.
  intros Hrun. destruct (barrier_complete_run fuel dev s) as (evs & Hall & Hno & Hyes).
  assert (Hmm : Forall is_mmio evs).
  { eapply Forall_impl; [exact Hall|]. apply child_sync_access_is_mmio. }
  destruct (is_version s dev S2MPU_VERSION_2 || is_version s dev S2MPU_VERSION_9).
  - rewrite (Hyes eq_refl) in Hrun.
    destruct (wait_while_run fuel (dev_va dev + REG_NS_STATUS)
                (Z.lor STATUS_BUSY STATUS_ON_INVALIDATING) (add_events evs s))
      as [[_ Hp]|[_ (polls & v & Hok & Hpolls & _)]]; [congruence|].
    rewrite Hok in Hrun. injection Hrun as <-.
    eexists. rewrite add_events_app. split; [reflexivity|].
    apply Forall_app. split; [assumption|]. apply Forall_app. split.
    + eapply Forall_impl; [exact Hpolls|]. apply readl_with_is_mmio.
    + constructor; [|constructor]. eexists _, _. by left.
  - rewrite (Hno eq_refl) in Hrun. injection Hrun as <-. eauto.
Qed.

Lemma all_invalidation_ok fuel dev s s' :
  __all_invalidation fuel dev s = Ok tt s' ->
  exists evs,
    s' = add_events (EvWritel INVALIDATION_INVALIDATE (dev_va dev + REG_NS_ALL_INVALIDATION)
                     :: evs) s
    /\ Forall is_mmio evs.
Proof.
  unfold __all_invalidation, bind, writel_relaxed, modify. simpl.
  set (w := EvWritel _ _).
  destruct (barrier_init_run dev (emit w s)) as (e1 & -> & H1).
  intros Hrun. apply barrier_complete_ok in Hrun as (e2 & -> & H2).
  exists (e1 ++ e2). rewrite emit_add_events, !add_events_app.
  split; [reflexivity|]. apply Forall_app. split; [|assumption].
  eapply Forall_impl; [exact H1|]. apply child_sync_access_is_mmio.
Qed.

(** ** Version initialisation *)

Lemma context_cfg_run dev bmap s :
  exists res s1 reads,
    __context_cfg_valid_vid dev bmap s = Ok res s1
    /\ same_globals s s1
    /\ trace s1 = trace s ++ reads
    /\ Forall is_readl reads
    /\ context_cfg_valid_vid (dev_data s1 (dev_id dev)) = res
    /\ drv_version (dev_data s1 (dev_id dev)) = drv_version (dev_data s (dev_id dev)).
Proof.
  unfold __context_cfg_valid_vid, bind, get_data, gets.
  destruct (Z.eqb_spec (context_cfg_valid_vid (dev_data s (dev_id dev))) 0) as [Hz|Hz];
    simpl.
  - destruct (ctx_alloc _ _ _ _) as [ctx ctx_vid]. simpl.
    eexists _, _, [_]. split; [reflexivity|]. simpl.
    rewrite Nat.eqb_refl. simpl.
    split; [by repeat split|]. split; [reflexivity|].
    split; [|by split]. constructor; [|constructor]. by eexists _, _.
  - eexists _, s, []. split; [reflexivity|]. rewrite app_nil_r.
    split; [by repeat split|]. by repeat split.
Qed.

Lemma initialize_v2_run dev s r s1 :
  __initialize_v2 dev s = Ok r s1 ->
  same_globals s s1
  /\ drv_version (dev_data s1 (dev_id dev)) = drv_version (dev_data s (dev_id dev))
  /\ exists reads,
       Forall is_readl reads
       /\ ((r = - EINVAL /\ trace s1 = trace s ++ reads)
           \/ (r = 0
               /\ context_cfg_valid_vid (dev_data s1 (dev_id dev)) <> 0
               /\ trace s1 = trace s ++ reads
                    ++ [EvWritel (context_cfg_valid_vid (dev_data s1 (dev_id dev)))
                                 (dev_va dev + REG_NS_CONTEXT_CFG_VALID_VID)])).
Proof.
  unfold __initialize_v2. intros Hrun.
  apply bind_ok in Hrun as (cfg & s0 & Hcfg & Hrun).
  destruct (context_cfg_run dev ALL_VIDS_BITMAP s)
    as (res & s0' & reads & Hcfg' & Hg & Htr & Hreads & Hres & Hver).
  rewrite Hcfg in Hcfg'. injection Hcfg' as <- <-.
  destruct (Z.eqb_spec cfg 0) as [Hz|Hnz].
  - injection Hrun as <- <-. split; [exact Hg|]. split; [exact Hver|].
    exists reads. split; [exact Hreads|]. left. by split.
  - unfold bind, writel_relaxed, modify, ret in Hrun. injection Hrun as <- <-.
    destruct Hg as (? & ? & ?). split; [by repeat split|]. split; [exact Hver|].
    exists reads. split; [exact Hreads|]. right. simpl.
    rewrite Hres, Htr, <- app_assoc. by repeat split.
Qed.

Lemma initialize_run dev s s1 :
  __initialize dev s = Ok 0 s1 ->
  same_globals s s1
  /\ exists reads,
       Forall is_readl reads
       /\ ((is_version s1 dev S2MPU_VERSION_1 = true /\ trace s1 = trace s ++ reads)
           \/ (is_version s1 dev S2MPU_VERSION_1 = false
               /\ is_version s1 dev S2MPU_VERSION_2 = true
               /\ context_cfg_valid_vid (dev_data s1 (dev_id dev)) <> 0
               /\ trace s1 = trace s ++ reads
                    ++ [EvWritel (context_cfg_valid_vid (dev_data s1 (dev_id dev)))
                                 (dev_va dev + REG_NS_CONTEXT_CFG_VALID_VID)])).
Proof.
  unfold __initialize. intros Hrun.
  apply bind_ok in Hrun as (data & s0 & Hd & Hrun). injection Hd as <- <-.
  apply bind_ok in Hrun as ([] & s0 & Hver & Hrun).
  assert (Hs0 : same_globals s s0 /\ exists r0, trace s0 = trace s ++ r0 /\ Forall is_readl r0).
  { destruct (drv_version (dev_data s (dev_id dev)) =? 0).
    - unfold bind, readl_relaxed, modify in Hver. injection Hver as <-.
      split; [by repeat split|]. eexists [_]. split; [reflexivity|].
      constructor; [|constructor]. by eexists _, _.
    - injection Hver as <-. split; [by repeat split|]. exists [].
      by rewrite app_nil_r. }
  clear Hver. destruct Hs0 as ((Hm & Hr & Ho) & r0 & Htr0 & Hr0).
  apply bind_ok in Hrun as (data & s0' & Hd & Hrun). injection Hd as <- <-.
  unfold is_version.
  destruct (Z.eqb_spec (Z.land (drv_version (dev_data s0 (dev_id dev))) VERSION_CHECK_MASK)
              S2MPU_VERSION_1) as [H1|H1].
  - injection Hrun as <-. split; [by repeat split|].
    exists r0. split; [assumption|]. left. split; [|assumption].
    by apply Z.eqb_eq.
  - destruct (Z.eqb_spec (Z.land (drv_version (dev_data s0 (dev_id dev))) VERSION_CHECK_MASK)
                S2MPU_VERSION_2) as [H2|H2]; [|discriminate].
    apply initialize_v2_run in Hrun as ((Hm1 & Hr1 & Ho1) & Hv & reads & Hreads & Hcase).
    split; [repeat split; congruence|].
    exists (r0 ++ reads). split; [by apply Forall_app|].
    destruct Hcase as [[Hbad _]|(_ & Hnz & Htr)]; [discriminate|].
    right. rewrite Hv. split; [by apply Z.eqb_neq|]. split; [by apply Z.eqb_eq|].
    split; [assumption|]. rewrite Htr, Htr0, <- !app_assoc. reflexivity.
Qed.

(** ** Bring-up *)

Lemma set_control_regs_run ops dev s :
  reg_ops_set_control_regs ops dev s = Ok tt (add_events (control_writes ops dev s) s).
Proof.
  destruct ops; simpl;
    unfold __set_control_regs, __set_control_regs_v9, bind, gets, writel_relaxed, modify;
    simpl; rewrite !emit_add_events, !add_events_app; reflexivity.
Qed.

Lemma bring_up_run b fuel dev s s' :
  run_bring_up b fuel dev s = Ok 0 s' ->
  exists ops s1 inval,
    reg_ops s = Some ops
    /\ reg_ops_init ops dev s = Ok 0 s1
    /\ Forall is_mmio inval
    /\ s' = add_events (EvMptOps (bring_up_call b dev s1) :: inval
                        ++ control_writes ops dev s1) s1.
Proof.
  assert (Hgen : forall call,
    (let* r := with_reg_ops (fun ops => reg_ops_init ops dev) in
     if negb (r =? 0) then ret r
     else call >> __all_invalidation fuel dev >>
          with_reg_ops (fun ops => reg_ops_set_control_regs ops dev) >> ret 0) s
    = Ok 0 s' ->
    (forall s1, reg_ops s1 = reg_ops s ->
       call s1 = Fault \/ call s1 = Ok tt (add_events [EvMptOps (bring_up_call b dev s1)] s1)) ->
    (forall ops s1, reg_ops s = Some ops -> reg_ops_init ops dev s = Ok 0 s1 ->
       reg_ops s1 = reg_ops s) ->
    exists ops s1 inval,
      reg_ops s = Some ops
      /\ reg_ops_init ops dev s = Ok 0 s1
      /\ Forall is_mmio inval
      /\ s' = add_events (EvMptOps (bring_up_call b dev s1) :: inval
                          ++ control_writes ops dev s1) s1).
  { intros call Hrun Hcall Hkeep.
    apply bind_ok in Hrun as (r & s1 & Hinit & Hrun).
    unfold with_reg_ops, bind, gets in Hinit.
    destruct (reg_ops s) as [ops|] eqn:Hops; [|discriminate].
    destruct (Z.eqb_spec r 0) as [->|Hr]; simpl in Hrun;
      [|injection Hrun as -> _; contradiction].
    specialize (Hkeep ops s1 eq_refl Hinit).
    apply bind_ok in Hrun as ([] & s2 & Hc & Hrun).
    destruct (Hcall s1 Hkeep) as [Hf|Hok]; [congruence|].
    rewrite Hok in Hc. injection Hc as <-.
    apply bind_ok in Hrun as ([] & s3 & Hinv & Hrun).
    apply all_invalidation_ok in Hinv as (evs & -> & Hevs).
    apply bind_ok in Hrun as ([] & s4 & Hctl & Hrun). injection Hrun as <-.
    unfold with_reg_ops, bind, gets in Hctl. simpl in Hctl.
    rewrite Hkeep in Hctl. rewrite set_control_regs_run in Hctl.
    injection Hctl as <-.
    exists ops, s1, (EvWritel INVALIDATION_INVALIDATE (dev_va dev + REG_NS_ALL_INVALIDATION)
                     :: evs).
    split; [reflexivity|]. split; [assumption|]. split.
    - constructor; [|assumption]. eexists _, _. by right.
    - rewrite !add_events_app. reflexivity. }
  assert (Hkeep : forall ops s1, reg_ops s = Some ops ->
            reg_ops_init ops dev s = Ok 0 s1 -> reg_ops s1 = reg_ops s).
  { intros [] s1 _ Hinit; simpl in Hinit.
    - by apply initialize_run in Hinit as ((_ & ? & _) & _).
    - by apply initialize_v2_run in Hinit as ((_ & ? & _) & _). }
  intros Hrun. destruct b; simpl in Hrun.
  - apply (Hgen _ Hrun); [|exact Hkeep].
    intros s1 _. unfold bind, gets, call_mpt_ops, with_mpt_ops, bind, gets.
    destruct (mpt_ops s1); [right; reflexivity|left; reflexivity].
  - apply (Hgen _ Hrun); [|exact Hkeep].
    intros s1 _. unfold call_mpt_ops, with_mpt_ops, bind, gets.
    destruct (mpt_ops s1); [right; reflexivity|left; reflexivity].
Qed.

(** Bring-up does not get stuck: once [s2mpu_init] has installed the
    operations, resume and suspend return, provided STATUS stops reading
    busy (here: never reads busy). *)
Lemma initialize_v2_total dev s :
  exists r s1, __initialize_v2 dev s = Ok r s1.
Proof.
  unfold __initialize_v2, bind.
  destruct (context_cfg_run dev ALL_VIDS_BITMAP s) as (res & s1 & _ & -> & _).
  destruct (res =? 0); eexists _, _; reflexivity.
Qed.

Lemma initialize_total dev s :
  exists r s1, __initialize dev s = Ok r s1.
Proof.
  unfold __initialize, bind, get_data, gets.
  destruct (drv_version (dev_data s (dev_id dev)) =? 0); simpl;
    repeat match goal with
           | |- context [if ?c then _ else _] => destruct c
           end;
    try (eexists _, _; reflexivity); apply initialize_v2_total.
Qed.

Lemma barrier_complete_returns fuel dev s :
  (0 < fuel)%nat ->
  (forall tr, Z.land (u32 (readl_value tr (dev_va dev + REG_NS_STATUS)))
                     (Z.lor STATUS_BUSY STATUS_ON_INVALIDATING)
              <> Z.lor STATUS_BUSY STATUS_ON_INVALIDATING) ->
  exists evs, __invalidation_barrier_complete fuel dev s = Ok tt (add_events evs s).
Proof.
  intros Hfuel Hidle.
  destruct (barrier_complete_run fuel dev s) as (evs & _ & Hno & Hyes).
  destruct (is_version s dev S2MPU_VERSION_2 || is_version s dev S2MPU_VERSION_9).
  - rewrite (Hyes eq_refl).
    destruct (wait_while_run fuel (dev_va dev + REG_NS_STATUS)
                (Z.lor STATUS_BUSY STATUS_ON_INVALIDATING) (add_events evs s))
      as [[Hb _]|[_ (polls & v & -> & _)]].
    + destruct fuel; [lia|]. destruct Hb as [Hb _]. by apply Hidle in Hb.
    + rewrite add_events_app. eauto.
  - rewrite (Hno eq_refl). eauto.
Qed.

Lemma bring_up_returns b fuel dev s ops mops :
  reg_ops s = Some ops -> mpt_ops s = Some mops -> (0 < fuel)%nat ->
  (forall tr, Z.land (u32 (readl_value tr (dev_va dev + REG_NS_STATUS)))
                     (Z.lor STATUS_BUSY STATUS_ON_INVALIDATING)
              <> Z.lor STATUS_BUSY STATUS_ON_INVALIDATING) ->
  exists r s', run_bring_up b fuel dev s = Ok r s'.
Proof.
  intros Hops Hmops Hfuel Hidle.
  assert (Hinit : exists r s1, reg_ops_init ops dev s = Ok r s1
                               /\ (r = 0 -> same_globals s s1)).
  { destruct ops; simpl.
    - destruct (initialize_total dev s) as (r & s1 & Hrun). exists r, s1.
      split; [exact Hrun|]. intros ->. by apply initialize_run in Hrun as [? _].
    - destruct (initialize_v2_total dev s) as (r & s1 & Hrun). exists r, s1.
      split; [exact Hrun|]. intros _. by apply initialize_v2_run in Hrun as [? _]. }
  destruct Hinit as (r & s1 & Hrun & Hsame).
  assert (Htail : forall c, r = 0 ->
            exists s', (call_mpt_ops c >> __all_invalidation fuel dev >>
                        with_reg_ops (fun ops => reg_ops_set_control_regs ops dev) >>
                        ret 0) s1 = Ok 0 s').
  { intros c ->. destruct (Hsame eq_refl) as (_ & Hr1 & Hm1).
    unfold call_mpt_ops, with_mpt_ops, __all_invalidation, bind, gets, modify,
      writel_relaxed. rewrite Hm1, Hmops. simpl.
    destruct (barrier_init_run dev
                (emit (EvWritel INVALIDATION_INVALIDATE (dev_va dev + REG_NS_ALL_INVALIDATION))
                   (emit (EvMptOps c) s1))) as (e1 & -> & _).
    match goal with
    | |- context [__invalidation_barrier_complete fuel dev ?st] =>
        destruct (barrier_complete_returns fuel dev st Hfuel Hidle) as (e2 & ->)
    end.
    unfold with_reg_ops, bind, gets. simpl. rewrite Hr1, Hops.
    rewrite set_control_regs_run. eauto. }
  destruct b; simpl;
    unfold s2mpu_resume, s2mpu_suspend, initialize_with_mpt, initialize_with_prot;
    unfold bind at 1; unfold with_reg_ops at 1; unfold bind at 1; unfold gets at 1;
    rewrite Hops, Hrun;
    (destruct (Z.eqb_spec r 0) as [Hz|Hnz]; simpl; [|eexists _, _; reflexivity]).
  - destruct (Htail (init_with_mpt (dev_va dev) (host_mpt s1)) Hz) as (s' & Ht).
    exists 0, s'. rewrite <- Ht. reflexivity.
  - destruct (Htail (init_with_prot (dev_va dev) MPT_PROT_NONE) Hz) as (s' & Ht).
    exists 0, s'. exact Ht.
Qed.

Lemma land_lor_l a b : Z.land (Z.lor a b) a = a.
Proof.
  apply Z.bits_inj'. intros n _. rewrite Z.land_spec, Z.lor_spec.
  destruct (Z.testbit a n), (Z.testbit b n); reflexivity.
Qed.

Lemma land_lor_r a b : Z.land (Z.lor a b) b = b.
Proof. rewrite Z.lor_comm. apply land_lor_l. Qed.

Lemma land_lor_inner a b c : Z.land (Z.lor (Z.lor a b) c) b = b.
Proof.
  apply Z.bits_inj'. intros n _. rewrite Z.land_spec, !Z.lor_spec.
  destruct (Z.testbit a n), (Z.testbit b n), (Z.testbit c n); reflexivity.
Qed.

Lemma land_lor_inner2 a b c d : Z.land (Z.lor (Z.lor (Z.lor a b) c) d) b = b.
Proof.
  apply Z.bits_inj'. intros n _. rewrite Z.land_spec, !Z.lor_spec.
  destruct (Z.testbit a n), (Z.testbit b n), (Z.testbit c n), (Z.testbit d n);
    reflexivity.
Qed.


(** C4.  After a successful resume or suspend the device is enabled.  With
    the v1/v2 operations the last register access is the write of CTRL0,
    whose value has ENABLE and INTERRUPT_ENABLE set and carries the fault
    response DECERR on a v2 device and SLVERR on a v1 device.  With the v9
    operations V9_CTRL_PROT_EN_PER_VID_SET is written with ALL_VIDS_BITMAP
    and nothing but the write of 0 to V9_CFG_MPTW_ATTRIBUTE follows. *)
Theorem bring_up_leaves_enabled (b : bring_up) (fuel : nat) (dev : pkvm_iommu)
    (s s' : hyp_state) :
  S2MPU_VERSION_1 <> S2MPU_VERSION_2 ->
  run_bring_up b fuel dev s = Ok 0 s' ->
  (reg_ops s = Some ops_v1_v2
   /\ (is_version s' dev S2MPU_VERSION_1 = true \/ is_version s' dev S2MPU_VERSION_2 = true)
   /\ exists pre ctrl0,
        trace s' = pre ++ [EvWritel ctrl0 (dev_va dev + REG_NS_CTRL0)]
        /\ Z.land ctrl0 CTRL0_ENABLE = CTRL0_ENABLE
        /\ Z.land ctrl0 CTRL0_INTERRUPT_ENABLE = CTRL0_INTERRUPT_ENABLE
        /\ (is_version s' dev S2MPU_VERSION_1 = true ->
            Z.land ctrl0 CTRL0_FAULT_RESP_TYPE_SLVERR = CTRL0_FAULT_RESP_TYPE_SLVERR)
        /\ (is_version s' dev S2MPU_VERSION_2 = true ->
            Z.land ctrl0 CTRL0_FAULT_RESP_TYPE_DECERR = CTRL0_FAULT_RESP_TYPE_DECERR))
  \/ (reg_ops s = Some ops_v9
      /\ exists pre,
           trace s' = pre
             ++ [EvWritel ALL_VIDS_BITMAP (dev_va dev + REG_NS_V9_CTRL_PROT_EN_PER_VID_SET);
                 EvWritel 0 (dev_va dev + REG_NS_V9_CFG_MPTW_ATTRIBUTE)]).
Proof.
  intros Hdistinct Hrun.
  apply bring_up_run in Hrun as (ops & s1 & inval & Hops & Hinit & Hinval & ->).
  destruct ops; simpl in Hinit.
  - left. split; [assumption|].
    apply initialize_run in Hinit as (_ & reads & _ & Hcase).
    rewrite !is_version_add_events.
    assert (Hv : is_version s1 dev S2MPU_VERSION_1 = true
                 \/ is_version s1 dev S2MPU_VERSION_2 = true).
    { destruct Hcase as [[? _]|(_ & ? & _)]; auto. }
    split; [exact Hv|].
    eexists (trace s1 ++ EvMptOps _ :: inval ++ [_; _; _]), (ctrl0_value s1 dev).
    split.
    { rewrite trace_add_events. simpl. unfold control_writes_v1_v2.
      rewrite <- !app_assoc. simpl. rewrite <- !app_assoc. reflexivity. }
    unfold ctrl0_value.
    split; [apply land_lor_inner2|]. split; [apply land_lor_inner|].
    split.
    + intros H1. unfold is_version in *.
      destruct (Z.eqb_spec (Z.land (drv_version (dev_data s1 (dev_id dev))) VERSION_CHECK_MASK)
                  S2MPU_VERSION_2) as [H2|_].
      * apply Z.eqb_eq in H1. congruence.
      * apply land_lor_r.
    + intros ->. apply land_lor_r.
  - right. split; [assumption|].
    eexists (trace s1 ++ EvMptOps _ :: inval ++ [_; _; _]).
    rewrite trace_add_events. simpl. unfold control_writes_v9.
    rewrite <- !app_assoc. simpl. rewrite <- !app_assoc. reflexivity.
Qed.

(** C3 (as amended).  [__invalidation_barrier_complete] first deals with
    the children, touching nothing but their SYNC registers.  On a v2 or
    v9 device it then reads STATUS again and again for as long as the
    value read has both BUSY and ON_INVALIDATING set, and returns after
    the first read that has not: it does not return before such a read,
    and it accesses no other register in between.  On a v1 device it
    returns right after the children, without reading STATUS. *)
Theorem invalidation_barrier_complete_status_poll (fuel : nat) (dev : pkvm_iommu)
    (s : hyp_state) :
  S2MPU_VERSION_1 <> S2MPU_VERSION_2 ->
  S2MPU_VERSION_1 <> S2MPU_VERSION_9 ->
  let status := dev_va dev + REG_NS_STATUS in
  let busy := Z.lor STATUS_BUSY STATUS_ON_INVALIDATING in
  exists sync_evs,
    Forall (child_sync_access dev) sync_evs
    /\ (is_version s dev S2MPU_VERSION_2 = true
        \/ is_version s dev S2MPU_VERSION_9 = true ->
        (busy_reads fuel status busy (trace s ++ sync_evs)
         /\ __invalidation_barrier_complete fuel dev s = Polling)
        \/ (~ busy_reads fuel status busy (trace s ++ sync_evs)
            /\ exists polls v,
                 __invalidation_barrier_complete fuel dev s
                 = Ok tt (add_events (sync_evs ++ polls ++ [EvReadl status v]) s)
                 /\ Forall (readl_with status busy) polls
                 /\ Z.land v busy <> busy))
    /\ (is_version s dev S2MPU_VERSION_1 = true ->
        __invalidation_barrier_complete fuel dev s = Ok tt (add_events sync_evs s)).
Proof.
  intros H12 H19 status busy. subst status busy.
  destruct (barrier_complete_run fuel dev s) as (evs & Hall & Hno & Hyes).
  exists evs. split; [exact Hall|]. split.
  - intros Hv. rewrite Hyes by (destruct Hv as [-> | ->]; [reflexivity|apply orb_true_r]).
    destruct (wait_while_run fuel (dev_va dev + REG_NS_STATUS)
                (Z.lor STATUS_BUSY STATUS_ON_INVALIDATING) (add_events evs s))
      as [[Hb Hp]|[Hb (polls & v & Hok & Hpolls & Hv' & _)]].
    + left. by split.
    + right. split; [exact Hb|]. exists polls, v.
      rewrite Hok, add_events_app. by repeat split.
  - intros H1. apply Hno. unfold is_version in *. apply Z.eqb_eq in H1.
    apply orb_false_iff. split; apply Z.eqb_neq; congruence.
Qed.


(** ** Identity-map updates *)

(** C5.  When the range is empty after clamping [end] to [PA_MAX] and
    aligning [start] down and [end] up to [SMPT_GRAN], both
    [s2mpu_host_stage2_idmap_prepare] and [s2mpu_host_stage2_idmap_apply]
    return with the state as it was: nothing is added to the trace, so
    there is no register access, and [host_mpt] is what it was. *)
Theorem idmap_empty_range_is_noop (dev : pkvm_iommu) (start end_ prot : Z)
    (s : hyp_state) :
  canonical_end end_ <= canonical_start start ->
  s2mpu_host_stage2_idmap_prepare start end_ prot s = Ok tt s
  /\ s2mpu_host_stage2_idmap_apply dev start end_ s = Ok tt s.
Proof.
  intros Hempty.
  assert (Hnone : to_valid_range start end_ = None).
  { unfold to_valid_range. unfold canonical_end, canonical_start in Hempty.
    replace (if PA_MAX <? end_ then PA_MAX else end_) with (Z.min end_ PA_MAX)
      by (destruct (Z.ltb_spec PA_MAX end_); lia).
    by destruct (Z.leb_spec (ALIGN (Z.min end_ PA_MAX) SMPT_GRAN)
                            (ALIGN_DOWN start SMPT_GRAN)); [|lia]. }
  unfold s2mpu_host_stage2_idmap_prepare, s2mpu_host_stage2_idmap_apply.
  by rewrite Hnone.
Qed.

(** ** The trap handler *)

Lemma land_3_mod_4 off : Z.land off (4 - 1) = off mod 4.
Proof. change (4 - 1) with (Z.ones 2). by rewrite Z.land_ones. Qed.

(** C6.  A host data abort whose access width is not 4 bytes, or whose
    offset is not a multiple of 4, is left unhandled: the handler returns
    false, the state is as before (no MMIO access) and so is the host
    context. *)
Theorem dabt_rejects_bad_width_or_alignment (dev : pkvm_iommu)
    (host_ctxt : kvm_cpu_context) (esr off : Z) (s : hyp_state) :
  dabt_len esr <> 4 \/ off mod 4 <> 0 ->
  s2mpu_host_dabt_handler dev host_ctxt esr off s = Ok (false, host_ctxt) s.
Proof.
  intros Hbad. unfold s2mpu_host_dabt_handler. rewrite land_3_mod_4.
  destruct (Z.eqb_spec (dabt_len esr) 4), (Z.eqb_spec (off mod 4) 0);
    simpl; try reflexivity.
  destruct Hbad; contradiction.
Qed.

Lemma read_only_cases w : read_only w = 0 \/ read_only w = Z.ones 32.
Proof. destruct w; [left|right]; reflexivity. Qed.

Lemma write_only_cases w : write_only w = 0 \/ write_only w = Z.ones 32.
Proof. destruct w; [right|left]; reflexivity. Qed.

Lemma masked_u32 a x : a = 0 \/ a = Z.ones 32 -> 0 <= Z.land a x < 2 ^ 32.
Proof.
  intros [-> | ->].
  - rewrite Z.land_0_l. lia.
  - rewrite Z.land_comm, Z.land_ones by lia. apply Z.mod_pos_bound. lia.
Qed.

Ltac mask_cases :=
  repeat match goal with
         | |- context [if ?c then _ else _] => destruct c eqn:?
         end.

Lemma access_mask_run ops off w s :
  reg_ops s = Some ops ->
  host_mmio_reg_access_mask off w s = Ok (access_mask ops off w) s.
Proof.
  intros Hops. unfold access_mask, host_mmio_reg_access_mask.
  mask_cases; try reflexivity.
  unfold with_reg_ops, bind, gets. simpl. by rewrite Hops.
Qed.

Lemma access_mask_u32 ops off w : 0 <= access_mask ops off w < 2 ^ 32.
Proof.
  pose proof (read_only_cases w) as Hr. pose proof (write_only_cases w) as Hw.
  assert (Hro : 0 <= read_only w < 2 ^ 32).
  { destruct Hr as [-> | ->]; [lia|]. change (Z.ones 32) with 4294967295. lia. }
  unfold access_mask, host_mmio_reg_access_mask.
  mask_cases; simpl; try (by apply masked_u32); try exact Hro.
  destruct ops; simpl;
    unfold host_mmio_reg_access_mask_v1_v2, host_mmio_reg_access_mask_v9;
    mask_cases; try (by apply masked_u32); try exact Hro; unfold no_access; lia.
Qed.

(** C7.  For a trap of width 4 at an offset that is a multiple of 4 the
    handler computes [mask = host_mmio_reg_access_mask(off, is_write)].
    If the mask is 0 it returns false and touches nothing.  Otherwise a
    write stores [cpu_reg(host_ctxt, rd) & mask] at [dev->va + off], a
    read loads from [dev->va + off] and puts [value & mask] into register
    [rd] of the host; both return true. *)
Theorem dabt_forwards_masked_access (dev : pkvm_iommu) (host_ctxt : kvm_cpu_context)
    (esr off : Z) (s : hyp_state) (ops : s2mpu_reg_ops) :
  reg_ops s = Some ops ->
  dabt_len esr = 4 ->
  off mod 4 = 0 ->
  exists mask,
    host_mmio_reg_access_mask off (dabt_is_write esr) s = Ok mask s
    /\ s2mpu_host_dabt_handler dev host_ctxt esr off s
       = if mask =? 0 then Ok (false, host_ctxt) s
         else if dabt_is_write esr then
           Ok (true, host_ctxt)
              (add_events [EvWritel (Z.land (cpu_reg host_ctxt (dabt_rd esr)) mask)
                                    (dev_va dev + off)] s)
         else
           let v := u32 (readl_value (trace s) (dev_va dev + off)) in
           Ok (true, set_cpu_reg host_ctxt (dabt_rd esr) (Z.land v mask))
              (add_events [EvReadl (dev_va dev + off) v] s).
Proof.
  intros Hops Hlen Hal.
  exists (access_mask ops off (dabt_is_write esr)).
  split; [by apply access_mask_run|].
  unfold s2mpu_host_dabt_handler. rewrite land_3_mod_4, Hlen, Hal. simpl.
  unfold bind. rewrite (access_mask_run ops) by assumption.
  destruct (access_mask ops off (dabt_is_write esr) =? 0); [reflexivity|].
  destruct (dabt_is_write esr); [|reflexivity].
  unfold writel_relaxed, modify. simpl.
  replace (u32 (Z.land (cpu_reg host_ctxt (dabt_rd esr)) (access_mask ops off true)))
    with (Z.land (cpu_reg host_ctxt (dabt_rd esr)) (access_mask ops off true));
    [reflexivity|].
  unfold u32. symmetry. apply Z.mod_small.
  pose proof (access_mask_u32 ops off true) as Hm.
  assert (Hsub : Z.land (Z.land (cpu_reg host_ctxt (dabt_rd esr)) (access_mask ops off true))
                        (Z.ones 32)
                 = Z.land (cpu_reg host_ctxt (dabt_rd esr)) (access_mask ops off true)).
  { rewrite <- Z.land_assoc. f_equal. rewrite Z.land_ones by lia.
    apply Z.mod_small. exact Hm. }
  rewrite <- Hsub. rewrite Z.land_ones by lia. apply Z.mod_pos_bound. lia.
Qed.

Lemma access_mask_write_surface ops off :
  access_mask ops off true <> 0 -> host_writable ops off.
Proof.
  unfold access_mask, host_mmio_reg_access_mask, host_writable.
  destruct ops; simpl; mask_cases; simpl;
    unfold host_mmio_reg_access_mask_v1_v2, host_mmio_reg_access_mask_v9;
    mask_cases; simpl; try (intros H; exfalso; apply H; reflexivity);
    intros _;
    repeat match goal with
           | H : (off =? _) = true |- _ => apply Z.eqb_eq in H
           end; auto.
Qed.

Lemma access_mask_outside_tables ops off w :
  in_mask_tables ops off = false -> access_mask ops off w = 0.
Proof.
  unfold in_mask_tables, in_common_table. intros Hnot.
  apply orb_false_iff in Hnot as [Hc Hv].
  repeat (apply orb_false_iff in Hc as [Hc ?]).
  unfold access_mask, host_mmio_reg_access_mask. cbv zeta.
  repeat match goal with
         | H : _ = false |- _ => rewrite H; clear H
         end.
  simpl. destruct ops; simpl in *;
    unfold host_mmio_reg_access_mask_v1_v2, host_mmio_reg_access_mask_v9;
    repeat (apply orb_false_iff in Hv as [Hv ?]);
    repeat match goal with
           | H : _ = false |- _ => rewrite H; clear H
           end; reflexivity.
Qed.

(** C8.  A write by the host is let through at INTERRUPT_CLEAR and at the
    read-selector registers of the debug interface only (READ_MPTC with
    the v1/v2 operations; V9_READ_STLB, V9_READ_MPTC and V9_READ_PTLB with
    the v9 operations): everywhere else the write mask is 0.  So, in a
    register map that keeps them apart from those, the L1ENTRY registers,
    CTRL0, CTRL1, CFG and the invalidation registers cannot be written by
    the host.  An offset that no mask table lists has mask 0 for reads as
    well as for writes. *)
Theorem host_write_surface (ops : s2mpu_reg_ops) (off : Z) (s : hyp_state) :
  reg_ops s = Some ops ->
  (forall o, protected_reg o -> ~ host_writable ops o) ->
  exists mask_r mask_w,
    host_mmio_reg_access_mask off false s = Ok mask_r s
    /\ host_mmio_reg_access_mask off true s = Ok mask_w s
    /\ (mask_w <> 0 -> host_writable ops off)
    /\ (protected_reg off -> mask_w = 0)
    /\ (in_mask_tables ops off = false -> mask_r = 0 /\ mask_w = 0).
Proof.
  intros Hops Hlayout.
  exists (access_mask ops off false), (access_mask ops off true).
  split; [by apply access_mask_run|]. split; [by apply access_mask_run|].
  split; [apply access_mask_write_surface|]. split.
  - intros Hp. destruct (Z.eq_dec (access_mask ops off true) 0) as [|Hnz]; [assumption|].
    exfalso. apply (Hlayout off Hp). by apply access_mask_write_surface.
  - intros Hnot. split; by apply access_mask_outside_tables.
Qed.

(** ** Context configuration *)

Lemma pos_bits_testbit p k i :
  In i (pos_bits p k) <-> k <= i /\ Z.testbit (Zpos p) (i - k) = true.
Proof.
  revert k. induction p as [p IH|p IH|]; intros k; simpl.
  - rewrite IH. split.
    + intros [<-|[Hk Hb]].
      * split; [lia|]. by rewrite Z.sub_diag.
      * split; [lia|]. replace (i - k) with (Z.succ (i - (k + 1))) by lia.
        change (Z.pos p~1) with (2 * Z.pos p + 1).
        rewrite Z.testbit_odd_succ by lia. exact Hb.
    + intros [Hk Hb]. destruct (Z.eq_dec i k) as [->|Hne]; [by left|right].
      split; [lia|]. replace (i - k) with (Z.succ (i - (k + 1))) in Hb by lia.
      change (Z.pos p~1) with (2 * Z.pos p + 1) in Hb.
      rewrite Z.testbit_odd_succ in Hb by lia. exact Hb.
  - rewrite IH. split.
    + intros [Hk Hb]. split; [lia|].
      replace (i - k) with (Z.succ (i - (k + 1))) by lia.
      change (Z.pos p~0) with (2 * Z.pos p).
      rewrite Z.testbit_even_succ by lia. exact Hb.
    + intros [Hk Hb]. destruct (Z.eq_dec i k) as [->|Hne].
      * rewrite Z.sub_diag in Hb. discriminate.
      * split; [lia|]. replace (i - k) with (Z.succ (i - (k + 1))) in Hb by lia.
        change (Z.pos p~0) with (2 * Z.pos p) in Hb.
        rewrite Z.testbit_even_succ in Hb by lia. exact Hb.
  - split.
    + intros [<-|[]]. split; [lia|]. by rewrite Z.sub_diag.
    + intros [Hk Hb]. left. destruct (Z.eq_dec i k) as [->|Hne]; [reflexivity|].
      destruct (i - k) eqn:E; try lia; discriminate.
Qed.

(** [vids_of] lists exactly the set bits. *)
Lemma vids_of_testbit bmap i :
  0 <= bmap -> (In i (vids_of bmap) <-> 0 <= i /\ Z.testbit bmap i = true).
Proof.
  intros Hb. unfold vids_of, bits_from. destruct bmap as [|p|p]; try lia.
  - simpl. rewrite Z.bits_0. intuition discriminate.
  - rewrite pos_bits_testbit, Z.sub_0_r. reflexivity.
Qed.

Lemma pos_bits_lower p k : Forall (fun i => k <= i) (pos_bits p k).
Proof.
  apply List.Forall_forall. intros i Hi. apply pos_bits_testbit in Hi. lia.
Qed.

(** ... in ascending order. *)
Lemma pos_bits_sorted p k : StronglySorted Z.lt (pos_bits p k).
Proof.
  revert k. induction p as [p IH|p IH|]; intros k; simpl.
  - constructor; [apply IH|].
    eapply Forall_impl; [apply pos_bits_lower|]. simpl. intros; lia.
  - apply IH.
  - repeat constructor.
Qed.

Lemma vids_of_sorted bmap : StronglySorted Z.lt (vids_of bmap).
Proof.
  unfold vids_of, bits_from. destruct bmap; try constructor. apply pos_bits_sorted.
Qed.

Lemma bits_from_double y k : 0 <= y -> bits_from (2 * y) k = bits_from y (k + 1).
Proof. destruct y; try lia; reflexivity. Qed.

Lemma ffs_nonneg x : 0 <= __ffs x.
Proof. destruct x; simpl; lia. Qed.

Lemma ffs_double p : __ffs (Z.pos p~0) = __ffs (Z.pos p) + 1.
Proof.
  unfold __ffs. change (pos_ctz p~0) with (S (pos_ctz p)).
  rewrite Nat2Z.inj_succ. lia.
Qed.

Lemma pos_clear_lowest p :
  0 <= Z.pos p - 2 ^ __ffs (Z.pos p).
Proof.
  induction p as [p IH|p IH|]; try (simpl; lia).
  rewrite ffs_double, Z.pow_add_r by (try apply ffs_nonneg; lia).
  change (Z.pos p~0) with (2 * Z.pos p). lia.
Qed.

Lemma bits_from_step p k :
  bits_from (Z.pos p) k
  = (k + __ffs (Z.pos p)) :: bits_from (Z.pos p - 2 ^ __ffs (Z.pos p)) k.
Proof.
  revert k. induction p as [p IH|p IH|]; intros k.
  - simpl. rewrite Z.add_0_r. reflexivity.
  - change (bits_from (Z.pos p~0) k) with (bits_from (Z.pos p) (k + 1)).
    rewrite IH, ffs_double. f_equal; [lia|].
    rewrite <- bits_from_double by apply pos_clear_lowest. f_equal.
    rewrite Z.pow_add_r by (try apply ffs_nonneg; lia).
    change (Z.pos p~0) with (2 * Z.pos p). lia.
  - simpl. rewrite Z.add_0_r. reflexivity.
Qed.

Lemma clear_lowest_sub x :
  0 < x -> Z.land x (Z.lnot (BIT (__ffs x))) = x - 2 ^ __ffs x.
Proof.
  intros Hx. pose proof (ffs_nonneg x) as Hn.
  assert (Hb : Z.testbit x (__ffs x) = true).
  { destruct x as [|p|p]; try lia. simpl. clear.
    induction p as [p IH|p IH|]; try reflexivity.
    change (pos_ctz p~0) with (S (pos_ctz p)).
    rewrite Nat2Z.inj_succ. change (Z.pos p~0) with (2 * Z.pos p).
    rewrite Z.testbit_even_succ by lia. exact IH. }
  unfold BIT. rewrite Z.shiftl_1_l, <- Z.ldiff_land.
  symmetry. apply Z.sub_nocarry_ldiff. apply Z.bits_inj'. intros k Hk.
  rewrite Z.ldiff_spec, Z.bits_0, Z.pow2_bits_eqb by lia.
  destruct (Z.eqb_spec (__ffs x) k) as [<-|]; [rewrite Hb|]; reflexivity.
Qed.

Lemma vids_of_step x :
  0 < x -> vids_of x = __ffs x :: vids_of (Z.land x (Z.lnot (BIT (__ffs x)))).
Proof.
  intros Hx. rewrite clear_lowest_sub by assumption.
  destruct x as [|p|p]; try lia. unfold vids_of. by rewrite bits_from_step.
Qed.

Lemma vids_of_nonpos x : x <= 0 -> vids_of x = [].
Proof. destruct x; try lia; reflexivity. Qed.

Lemma ctx_alloc_fill num_ctx vid_bmap ctx ctx_vid :
  ctx_alloc num_ctx vid_bmap ctx ctx_vid
  = let k := Nat.min (Z.to_nat (num_ctx - Z.of_nat ctx)) (length (vids_of vid_bmap)) in
    ((ctx + k)%nat, fill ctx_vid ctx (take k (vids_of vid_bmap))).
Proof.
  funelim (ctx_alloc num_ctx vid_bmap ctx ctx_vid); simpl.
  - rewrite vids_of_nonpos by lia. rewrite Nat.min_0_r. simpl.
    by rewrite Nat.add_0_r.
  - replace (Z.to_nat (num_ctx - Z.of_nat ctx)) with 0%nat by lia. simpl.
    by rewrite Nat.add_0_r.
  - rewrite H. rewrite (vids_of_step vid_bmap) by assumption. simpl.
    replace (Z.to_nat (num_ctx - Z.of_nat ctx))
      with (S (Z.to_nat (num_ctx - Z.of_nat (S ctx)))) by lia.
    simpl. f_equal. lia.
Qed.

Lemma fill_length vs cv ctx : length (fill cv ctx vs) = length cv.
Proof.
  revert cv ctx. induction vs as [|v vs IH]; intros cv ctx; simpl; [done|].
  by rewrite IH, length_insert.
Qed.

Lemma fill_lookup vs cv ctx i :
  (i < length cv)%nat ->
  fill cv ctx vs !!! i
  = if ((ctx <=? i) && (i <? ctx + length vs))%nat then vs !!! (i - ctx)%nat
    else cv !!! i.
Proof.
  revert cv ctx. induction vs as [|v vs IH]; intros cv ctx Hi; simpl.
  - rewrite Nat.add_0_r.
    destruct (Nat.leb_spec ctx i), (Nat.ltb_spec i ctx); simpl; try reflexivity; lia.
  - rewrite IH by (by rewrite length_insert).
    destruct (Nat.leb_spec (S ctx) i), (Nat.ltb_spec i (S ctx + length vs)),
             (Nat.leb_spec ctx i), (Nat.ltb_spec i (ctx + S (length vs)));
      simpl; try lia.
    + replace (i - ctx)%nat with (S (i - S ctx)) by lia. reflexivity.
    + rewrite list_lookup_total_insert_ne by lia. reflexivity.
    + assert (i = ctx) as -> by lia.
      rewrite list_lookup_total_insert_eq by lia. by rewrite Nat.sub_diag.
    + rewrite list_lookup_total_insert_ne by lia. reflexivity.
Qed.

(** C10 (as amended).  With nothing cached, [__context_cfg_valid_vid]
    reads NUM_CONTEXT once and hands the VIDs of ALL_VIDS_BITMAP, lowest
    first, to the context slots 0, 1, ... until the VIDs or the
    [NUM_CONTEXT] contexts of the hardware run out; the remaining slots
    stay 0.  The result is the disjunction of the eight entries and is
    stored in the device data.  When no context is allocated
    [__initialize_v2] returns -EINVAL.  A result that is not 0 is
    returned as it is by every later call, which touches nothing.  This is
    for a bitmap of at most eight VIDs, with which the loop stays inside
    [ctx_vid], and a VID field that is 0 for VID 0. *)
Theorem context_cfg_assignment (dev : pkvm_iommu) (s : hyp_state) :
  (forall ctx, CONTEXT_CFG_VALID_VID_CTX_VID ctx 0 = 0) ->
  (length (vids_of ALL_VIDS_BITMAP) <= NR_CTX_IDS)%nat ->
  context_cfg_valid_vid (dev_data s (dev_id dev)) = 0 ->
  let v := u32 (readl_value (trace s) (dev_va dev + REG_NS_NUM_CONTEXT)) in
  let num_ctx := Z.land v NUM_CONTEXT_MASK in
  let vids := vids_of ALL_VIDS_BITMAP in
  let ctx := Nat.min (Z.to_nat num_ctx) (length vids) in
  exists ctx_vid res s1,
    length ctx_vid = NR_CTX_IDS
    /\ (forall i, (i < NR_CTX_IDS)%nat ->
          ctx_vid !!! i = if (i <? ctx)%nat then vids !!! i else 0)
    /\ res = ctx_cfg_entries ctx ctx_vid
    /\ __context_cfg_valid_vid dev ALL_VIDS_BITMAP s = Ok res s1
    /\ trace s1 = trace s ++ [EvReadl (dev_va dev + REG_NS_NUM_CONTEXT) v]
    /\ context_cfg_valid_vid (dev_data s1 (dev_id dev)) = res
    /\ (ctx = 0%nat -> __initialize_v2 dev s = Ok (- EINVAL) s1)
    /\ (res <> 0 ->
        forall s2 bmap,
          context_cfg_valid_vid (dev_data s2 (dev_id dev)) = res ->
          __context_cfg_valid_vid dev bmap s2 = Ok res s2).
Proof.
  intros Hvid0 Hfits Hfresh v num_ctx vids ctx.
  set (ctx_vid := fill (replicate NR_CTX_IDS 0) 0 (take ctx vids)).
  assert (Hrun : __context_cfg_valid_vid dev ALL_VIDS_BITMAP s
                 = Ok (ctx_cfg_entries ctx ctx_vid)
                      (set_dev_data (dev_id dev)
                         (DrvData (drv_version (dev_data s (dev_id dev)))
                                  (ctx_cfg_entries ctx ctx_vid))
                         (emit (EvReadl (dev_va dev + REG_NS_NUM_CONTEXT) v) s))).
  { unfold __context_cfg_valid_vid, bind, get_data, gets. rewrite Hfresh. simpl.
    fold v. fold num_ctx. rewrite ctx_alloc_fill. cbv zeta.
    rewrite Z.sub_0_r. fold vids. fold ctx. reflexivity. }
  assert (Hlook : forall i, (i < NR_CTX_IDS)%nat ->
            ctx_vid !!! i = if (i <? ctx)%nat then vids !!! i else 0).
  { intros i Hi. unfold ctx_vid. rewrite fill_lookup by (by rewrite length_replicate).
    rewrite length_take. change (0 <=? i)%nat with true.
    rewrite andb_true_l, Nat.add_0_l.
    replace (ctx `min` length vids)%nat with ctx by lia.
    rewrite Nat.sub_0_r.
    destruct (Nat.ltb_spec i ctx).
    - by rewrite lookup_total_take_lt.
    - by rewrite lookup_total_replicate_2. }
  eexists ctx_vid, (ctx_cfg_entries ctx ctx_vid), _.
  split; [unfold ctx_vid; by rewrite fill_length, length_replicate|].
  split; [exact Hlook|]. split; [reflexivity|]. split; [exact Hrun|].
  split; [reflexivity|]. split; [simpl; by rewrite Nat.eqb_refl|]. split.
  - intros Hz. unfold __initialize_v2, bind. rewrite Hrun.
    assert (Hres : ctx_cfg_entries ctx ctx_vid = 0).
    { unfold ctx_cfg_entries, CTX_CFG_ENTRY.
      rewrite !Hlook by (unfold NR_CTX_IDS; lia). rewrite Hz. simpl.
      rewrite !Hvid0. reflexivity. }
    rewrite Hres. reflexivity.
  - intros Hnz s2 bmap Hc.
    unfold __context_cfg_valid_vid, bind, get_data, gets. rewrite Hc.
    destruct (Z.eqb_spec (ctx_cfg_entries ctx ctx_vid) 0); [contradiction|reflexivity].
Qed.

(** ** Driver initialisation *)

Section Init.
Variables (data : mpt) (smpt_sz nr : Z).


Lemma donated_app e1 e2 : donated (e1 ++ e2) = donated e1 ++ donated e2.
Proof.
  induction e1 as [|[? ?|? ?|?|? ? r|? ? r] e1 IH]; simpl; try done.
  destruct (r =? 0); simpl; by rewrite IH.
Qed.

Lemma returned_app e1 e2 : returned (e1 ++ e2) = returned e1 ++ returned e2.
Proof. induction e1 as [|[] e1 IH]; simpl; try done. by rewrite IH. Qed.

Lemma claim_smpts_run n j s :
  mpt_fmpt (host_mpt s) = (claimed_fmpt data <$> seq 0 j) ++ replicate n (Fmpt 0 false 0) ->
  exists k r evs s',
    (j <= k <= j + n)%nat
    /\ claim_smpts data smpt_sz nr (seq j n) s = Ok r s'
    /\ trace s' = trace s ++ evs
    /\ mpt_fmpt (host_mpt s')
       = (claimed_fmpt data <$> seq 0 k) ++ replicate (j + n - k) (Fmpt 0 false 0)
    /\ donated evs = smpt_frames data (u64 nr) <$> seq j (k - j)
    /\ returned evs = []
    /\ (r = 0 -> k = (j + n)%nat)
    /\ (r <> 0 ->
        (k < j + n)%nat
        /\ (r = - EINVAL \/ exists pfn, In (EvHostDonateHyp pfn (u64 nr) r) evs)).
Proof.
  revert j s. induction n as [|n IH]; intros j s Hmpt.
  - exists j, 0, [], s. simpl. rewrite app_nil_r, Nat.add_0_r, Nat.sub_diag.
    repeat split; try done; lia.
  - simpl.
    destruct (IS_ALIGNED (__hyp_pa (kern_hyp_va (smpt (mpt_fmpt data !!! j)))) smpt_sz);
      simpl.
    + unfold bind, __pkvm_host_donate_hyp.
      set (pfn := Z.shiftr _ _).
      set (r0 := host_donate_hyp_ret (trace s) pfn (u64 nr)).
      destruct (Z.eqb_spec r0 0) as [Hr0|Hr0]; simpl.
      * set (s2 := set_host_fmpt j _ _).
        destruct (IH (S j) s2) as (k & r & evs & s' & Hk & Hrun & Htr & Hm & Hd & Hr & Hz & Hnz).
        { unfold s2, set_host_fmpt, set_host_mpt, emit. cbn [host_mpt mpt_fmpt].
          rewrite Hmpt.
          rewrite insert_app_r_alt by (rewrite length_fmap, length_seq; lia).
          rewrite length_fmap, length_seq, Nat.sub_diag.
          rewrite seq_S, fmap_app, <- app_assoc. reflexivity. }
        exists k, r, (EvHostDonateHyp pfn (u64 nr) r0 :: evs), s'.
        split; [lia|]. split; [exact Hrun|].
        split; [rewrite Htr; unfold s2; simpl; by rewrite <- app_assoc|].
        split; [rewrite Hm; f_equal; f_equal; lia|].
        split.
        { simpl. destruct (Z.eqb_spec r0 0); [|contradiction]. rewrite Hd.
          replace (k - j)%nat with (S (k - S j)) by lia. reflexivity. }
        split; [exact Hr|]. split; [intros Hr'; rewrite Hz by assumption; lia|].
        intros Hne. destruct (Hnz Hne) as [Hlt [Hinv|(pfn' & Hin)]].
        -- split; [lia|by left].
        -- split; [lia|]. right. exists pfn'. by right.
      * exists j, r0, [EvHostDonateHyp pfn (u64 nr) r0], (emit (EvHostDonateHyp pfn (u64 nr) r0) s).
        split; [lia|]. split; [reflexivity|]. split; [reflexivity|].
        split; [simpl; rewrite Hmpt; f_equal; f_equal; lia|].
        split.
        { simpl. destruct (Z.eqb_spec r0 0); [contradiction|].
          by rewrite Nat.sub_diag. }
        split; [reflexivity|]. split; [intros; contradiction|].
        intros _. split; [lia|]. right. exists pfn. by left.
    + exists j, (- EINVAL), [], s.
      split; [lia|]. split; [reflexivity|]. split; [by rewrite app_nil_r|].
      split; [rewrite Hmpt; f_equal; f_equal; lia|].
      split; [by rewrite Nat.sub_diag|]. split; [reflexivity|].
      split; [intros; discriminate|]. intros _. split; [lia|by left].
Qed.


End Init.


End Proofs.

(** ** The theorems at work on the sample platform *)

(** C9, for a SYNC_COMP register that always reads 0. *)
Lemma invalidation_barrier_slow_retries_witness :
  exists evs,
    __invalidation_barrier_slow (hdr := sample_header)
      (plat := sample_platform (fun _ _ => 0) (-1)) sample_sync
      (ready_state (hdr := sample_header) ops_v1_v2 (DrvData 0 0))
    = Ok tt (add_events evs (ready_state (hdr := sample_header) ops_v1_v2 (DrvData 0 0)))
    /\ slow_path_attempts (EvWritel 1 0x10000) 0x10004 [5; 15; 45; 135; 405]%nat evs.
Proof.
  destruct (invalidation_barrier_slow_retries (hdr := sample_header)
              (plat := sample_platform (fun _ _ => 0) (-1)) sample_sync
              (ready_state (hdr := sample_header) ops_v1_v2 (DrvData 0 0)))
    as (evs & Hrun & Hnever & _).
  exists evs. split; [exact Hrun|]. apply Hnever. intros tr. vm_compute. discriminate.
Defined.



Lemma bring_up_leaves_enabled_witness :
  let hdr := sample_header in
  let plat := sample_platform (v2_regs (fun _ => 0)) (-1) in
  let s := ready_state ops_v1_v2 (DrvData 0 0) in
  let s' := state_of (s2mpu_suspend 4 sample_dev s) s in
  exists pre ctrl0,
    trace s' = pre ++ [EvWritel ctrl0 (dev_va sample_dev + REG_NS_CTRL0)]
    /\ Z.land ctrl0 CTRL0_ENABLE = CTRL0_ENABLE.
Proof.
  intros hdr plat s s'.
  destruct (bring_up_leaves_enabled (hdr := hdr) (plat := plat) Suspend 4 sample_dev s s')
    as [(_ & _ & pre & ctrl0 & Htr & Hen & _)|(Hops & _)].
  - discriminate.
  - vm_compute. reflexivity.
  - exists pre, ctrl0. by split.
  - discriminate Hops.
Defined.

(** C3 fails as stated: polling stops although BUSY is still set.  STATUS
    of a lone v2 device reads 1 (BUSY set, ON_INVALIDATING clear); the
    barrier returns after that single read. *)
Lemma status_poll_stops_while_busy :
  let hdr := sample_header in
  let plat := sample_platform (fun _ _ => 1) (-1) in
  let s := ready_state ops_v1_v2 (DrvData S2MPU_VERSION_2 0) in
  is_version s lone_dev S2MPU_VERSION_2 = true
  /\ __invalidation_barrier_complete 8 lone_dev s
     = Ok tt (add_events [EvReadl (dev_va lone_dev + REG_NS_STATUS) 1] s)
  /\ Z.land 1 STATUS_BUSY = STATUS_BUSY
  /\ STATUS_BUSY <> 0.
Proof. vm_compute. repeat split; discriminate. Qed.

(** C3 on a v2 device whose STATUS reads busy until six interactions have
    happened. *)
Lemma invalidation_barrier_complete_status_poll_witness :
  let hdr := sample_header in
  let plat := sample_platform (v2_regs (fun n => if (n <? 6)%nat then 3 else 2)) (-1) in
  let s := ready_state ops_v1_v2 (DrvData S2MPU_VERSION_2 0) in
  exists sync_evs polls v,
    Forall (child_sync_access sample_dev) sync_evs
    /\ __invalidation_barrier_complete 16 sample_dev s
       = Ok tt (add_events (sync_evs ++ polls
                            ++ [EvReadl (dev_va sample_dev + REG_NS_STATUS) v]) s)
    /\ Forall (readl_with (dev_va sample_dev + REG_NS_STATUS)
                          (Z.lor STATUS_BUSY STATUS_ON_INVALIDATING)) polls
    /\ Z.land v (Z.lor STATUS_BUSY STATUS_ON_INVALIDATING)
       <> Z.lor STATUS_BUSY STATUS_ON_INVALIDATING.
Proof.
  intros hdr plat s.
  destruct (invalidation_barrier_complete_status_poll (hdr := hdr) (plat := plat)
              16 sample_dev s) as (evs & Hall & Hv2 & _).
  - discriminate.
  - discriminate.
  - destruct Hv2 as [[_ Hp]|(_ & polls & v & Hrun & Hpolls & Hv)].
    + left. reflexivity.
    + vm_compute in Hp. discriminate Hp.
    + exists evs, polls, v. by repeat split.
Defined.

(** C5 on a range that ends before it starts. *)
Lemma idmap_empty_range_is_noop_witness :
  let hdr := sample_header in
  let plat := sample_platform (fun _ _ => 0) (-1) in
  let s := ready_state ops_v1_v2 (DrvData 0 0) in
  s2mpu_host_stage2_idmap_prepare 0x2000 0x1000 MPT_PROT_RW s = Ok tt s
  /\ s2mpu_host_stage2_idmap_apply sample_dev 0x2000 0x1000 s = Ok tt s.
Proof.
  intros hdr plat s.
  apply (idmap_empty_range_is_noop (hdr := hdr)).
  vm_compute. discriminate.
Defined.

(** C6 on a one-byte access. *)
Lemma dabt_rejects_bad_width_or_alignment_witness :
  let hdr := sample_header in
  let plat := sample_platform (fun _ _ => 0) (-1) in
  let s := ready_state ops_v1_v2 (DrvData 0 0) in
  s2mpu_host_dabt_handler sample_dev (fun _ => 0) 0 0 s = Ok (false, fun _ => 0) s.
Proof.
  intros hdr plat s.
  apply (dabt_rejects_bad_width_or_alignment (hdr := hdr) (plat := plat)).
  left. vm_compute. discriminate.
Defined.

(** C7 on a four-byte load from CTRL0. *)
Lemma dabt_forwards_masked_access_witness :
  let hdr := sample_header in
  let plat := sample_platform (fun _ _ => 0xffff) (-1) in
  let s := ready_state ops_v1_v2 (DrvData 0 0) in
  exists mask,
    host_mmio_reg_access_mask 0 (dabt_is_write 0x800000) s = Ok mask s
    /\ s2mpu_host_dabt_handler sample_dev (fun _ => 0) 0x800000 0 s
       = if mask =? 0 then Ok (false, fun _ => 0) s
         else if dabt_is_write 0x800000 then
           Ok (true, fun _ => 0)
              (add_events [EvWritel (Z.land (cpu_reg (fun _ => 0) (dabt_rd 0x800000)) mask)
                                    (dev_va sample_dev + 0)] s)
         else
           let v := u32 (readl_value (trace s) (dev_va sample_dev + 0)) in
           Ok (true, set_cpu_reg (fun _ => 0) (dabt_rd 0x800000) (Z.land v mask))
              (add_events [EvReadl (dev_va sample_dev + 0) v] s).
Proof.
  intros hdr plat s.
  apply (dabt_forwards_masked_access (hdr := hdr) (plat := plat)
           sample_dev (fun _ => 0) 0x800000 0 s ops_v1_v2); reflexivity.
Defined.

Lemma sample_header_protects ops o :
  protected_reg (hdr := sample_header) o -> ~ host_writable (hdr := sample_header) ops o.
Proof.
  unfold protected_reg, host_writable. simpl.
  intros Hp Hw.
  assert (Hw' : o = 44 \/ o = 12288 \/ o = 15376 \/ o = 15632).
  { destruct ops; simpl in Hw; lia. }
  clear Hw.
  destruct Hp as [(vid & gb & Hvid & Hgb & Hoff)|Hp]; lia.
Qed.

(** C8 on a store to ALL_INVALIDATION. *)
Lemma host_write_surface_witness :
  let hdr := sample_header in
  let plat := sample_platform (fun _ _ => 0) (-1) in
  let s := ready_state ops_v1_v2 (DrvData 0 0) in
  exists mask_r mask_w,
    host_mmio_reg_access_mask REG_NS_ALL_INVALIDATION false s = Ok mask_r s
    /\ host_mmio_reg_access_mask REG_NS_ALL_INVALIDATION true s = Ok mask_w s
    /\ (mask_w <> 0 -> host_writable ops_v1_v2 REG_NS_ALL_INVALIDATION)
    /\ (protected_reg REG_NS_ALL_INVALIDATION -> mask_w = 0)
    /\ (in_mask_tables ops_v1_v2 REG_NS_ALL_INVALIDATION = false
        -> mask_r = 0 /\ mask_w = 0).
Proof.
  intros hdr plat s.
  apply (host_write_surface (hdr := hdr) ops_v1_v2 REG_NS_ALL_INVALIDATION s).
  - reflexivity.
  - apply sample_header_protects.
Defined.



(** What the rolled-back run looks like. *)
Example s2mpu_init_rollback_trace :
  let hdr := sample_header in
  let plat := sample_platform (fun _ _ => 0) (-1) in
  exists s',
    s2mpu_init sample_host_mpt 72 (boot_state (DrvData 0 0)) = Ok (- EINVAL) s'
    /\ trace s' = [EvHostDonateHyp 0x10 16 0; EvHostDonateHyp 0x20 16 0;
                   EvHypDonateHost 0x10 16 0; EvHypDonateHost 0x20 16 0]
    /\ host_mpt s' = mpt_zero.
Proof. eexists. split; [vm_compute; reflexivity|]. split; reflexivity. Qed.

(** C10 on hardware with three contexts. *)
Lemma context_cfg_assignment_witness :
  let hdr := sample_header in
  let plat := sample_platform (fun _ _ => 3) (-1) in
  let s := ready_state ops_v9 (DrvData 0 0) in
  exists ctx_vid res s1,
    ctx_vid = [0; 1; 2; 0; 0; 0; 0; 0]
    /\ res = 0xa98
    /\ __context_cfg_valid_vid lone_dev ALL_VIDS_BITMAP s = Ok res s1
    /\ __context_cfg_valid_vid lone_dev ALL_VIDS_BITMAP s1 = Ok res s1.
Proof.
  intros hdr plat s.
  destruct (context_cfg_assignment (hdr := hdr) (plat := plat) lone_dev s)
    as (ctx_vid & res & s1 & Hlen & Hlook & Hres & Hrun & _ & Hcached & _ & Hkeep).
  - intros ctx. simpl. by rewrite Z.shiftl_0_l.
  - vm_compute. lia.
  - reflexivity.
  - assert (Hcv : ctx_vid = [0; 1; 2; 0; 0; 0; 0; 0]).
    { destruct ctx_vid as [|c0 [|c1 [|c2 [|c3 [|c4 [|c5 [|c6 [|c7 [|]]]]]]]]];
        try discriminate Hlen.
      pose proof (Hlook 0%nat) as H0. pose proof (Hlook 1%nat) as H1.
      pose proof (Hlook 2%nat) as H2. pose proof (Hlook 3%nat) as H3.
      pose proof (Hlook 4%nat) as H4. pose proof (Hlook 5%nat) as H5.
      pose proof (Hlook 6%nat) as H6. pose proof (Hlook 7%nat) as H7.
      vm_compute in H0, H1, H2, H3, H4, H5, H6, H7.
      rewrite H0, H1, H2, H3, H4, H5, H6, H7 by (unfold NR_CTX_IDS; lia).
      reflexivity. }
    assert (Hr : res = 0xa98) by (rewrite Hres, Hcv; reflexivity).
    exists ctx_vid, res, s1.
    split; [exact Hcv|]. split; [exact Hr|]. split; [exact Hrun|].
    apply Hkeep; [rewrite Hr; discriminate|exact Hcached].
Defined.

(** C10 fails as stated: a result of 0 is not kept.  NUM_CONTEXT reads 0
    at first and 8 afterwards.  The first call computes 0; the second call
    reads the hardware again and returns another value. *)
Lemma zero_context_cfg_is_recomputed :
  let hdr := sample_header in
  let plat := sample_platform (fun n _ => match n with O => 0 | _ => 8 end) (-1) in
  let s := ready_state ops_v9 (DrvData 0 0) in
  exists s1 s2,
    __context_cfg_valid_vid lone_dev ALL_VIDS_BITMAP s = Ok 0 s1
    /\ __context_cfg_valid_vid lone_dev ALL_VIDS_BITMAP s1 = Ok 0xfedcba98 s2
    /\ trace s2 = [EvReadl 0x100 0; EvReadl 0x100 8].
Proof.
  eexists _, _. split; [vm_compute; reflexivity|].
  split; [vm_compute; reflexivity|]. reflexivity.
Qed.

(** With the v9 operations nothing reads VERSION: a device whose data
    starts out zero keeps version 0, and its barrier does not poll STATUS. *)
Example v9_resume_trace :
  let hdr := sample_header in
  let plat := sample_platform (fun _ _ => 8) (-1) in
  exists s',
    s2mpu_resume 0 lone_dev (ready_state ops_v9 (DrvData 0 0)) = Ok 0 s'
    /\ drv_version (dev_data s' 0%nat) = 0
    /\ trace s' = [EvReadl 0x100 8; EvWritel 0xfedcba98 0x104;
                   EvMptOps (init_with_mpt 0 mpt_zero);
                   EvWritel 1 0x1000;
                   EvWritel 0xff 0x70; EvWritel 0xff 0x20; EvWritel 0 0x0;
                   EvWritel 0xff 0x50; EvWritel 0 0x14].
Proof. eexists. split; [vm_compute; reflexivity|]. split; reflexivity. Qed.


(** * Further properties of the driver *)

Section MoreProofs.
Context {hdr : S2mpuHeader} {plat : Platform}.

(** ** Range canonicalisation *)

Lemma u64_small x : 0 <= x < 2 ^ 64 -> u64 x = x.
Proof. intros. unfold u64. by apply Z.mod_small. Qed.

Lemma u32_small x : 0 <= x < 2 ^ 32 -> u32 x = x.
Proof. intros. unfold u32. by apply Z.mod_small. Qed.

Lemma land_align_mask y k :
  0 <= k < 64 -> 0 <= y < 2 ^ 64 ->
  Z.land y (u64 (Z.lnot (u64 (2 ^ k - 1)))) = 2 ^ k * (y / 2 ^ k).
Proof.
  intros Hk Hy.
  assert (Hpow : 0 < 2 ^ k <= 2 ^ 63).
  { split; [apply Z.pow_pos_nonneg; lia|apply Z.pow_le_mono_r; lia]. }
  rewrite (u64_small (2 ^ k - 1)) by lia.
  replace (2 ^ k - 1) with (Z.ones k) by (rewrite Z.ones_equiv; lia).
  unfold u64. rewrite <- (Z.land_ones _ 64) by lia.
  rewrite (Z.land_comm (Z.lnot _)), Z.land_assoc.
  rewrite (Z.land_ones y 64), (Z.mod_small y) by lia.
  rewrite <- Z.ldiff_land, Z.ldiff_ones_r by lia.
  rewrite Z.shiftl_mul_pow2, Z.shiftr_div_pow2 by lia. lia.
Qed.

Lemma ALIGN_pow2 x k :
  0 <= k < 64 -> 0 <= x -> x + 2 ^ k - 1 < 2 ^ 64 ->
  ALIGN x (2 ^ k) = 2 ^ k * ((x + 2 ^ k - 1) / 2 ^ k).
Proof.
  intros Hk Hx Hfit.
  assert (Hpow : 0 < 2 ^ k) by (apply Z.pow_pos_nonneg; lia).
  unfold ALIGN.
  pose proof (land_align_mask (x + (2 ^ k - 1)) k Hk ltac:(lia)) as H.
  rewrite (u64_small (2 ^ k - 1)) in H by lia.
  rewrite !(u64_small (2 ^ k - 1)) by lia.
  rewrite (u64_small (x + (2 ^ k - 1))) by lia.
  rewrite H. f_equal. f_equal. lia.
Qed.

Lemma ALIGN_DOWN_pow2 x k :
  0 <= k < 64 -> 0 <= x < 2 ^ 64 ->
  ALIGN_DOWN x (2 ^ k) = 2 ^ k * (x / 2 ^ k).
Proof.
  intros Hk Hx.
  assert (Hpow : 0 < 2 ^ k <= 2 ^ 63).
  { split; [apply Z.pow_pos_nonneg; lia|apply Z.pow_le_mono_r; lia]. }
  unfold ALIGN_DOWN, ALIGN.
  rewrite !(u64_small (2 ^ k - 1)) by lia.
  replace (u64 (u64 (x - (2 ^ k - 1)) + (2 ^ k - 1))) with x.
  - pose proof (land_align_mask x k Hk Hx) as H.
    rewrite (u64_small (2 ^ k - 1)) in H by lia. exact H.
  - unfold u64. rewrite Zplus_mod_idemp_l.
    replace (x - (2 ^ k - 1) + (2 ^ k - 1)) with x by lia.
    symmetry. by apply Z.mod_small.
Qed.

Lemma round_down_bounds g x : 0 < g -> g * (x / g) <= x < g * (x / g) + g.
Proof.
  intros Hg. pose proof (Z.mul_div_le x g Hg). pose proof (Z.mul_succ_div_gt x g Hg).
  lia.
Qed.

Lemma div_of_multiple g m : 0 < g -> (g * m + g - 1) / g = m.
Proof. intros Hg. symmetry. apply Z.div_unique with (r := g - 1); lia. Qed.

Lemma PA_MAX_geometry k :
  range_geometry k ->
  0 < SMPT_GRAN <= SZ_1G /\ 0 <= PA_MAX /\ PA_MAX + SZ_1G <= 2 ^ 64
  /\ PA_MAX = SZ_1G * Z.of_nat NR_GIGABYTES
  /\ exists q, PA_MAX = SMPT_GRAN * q.
Proof.
  intros (Hg & Hk & Hfit).
  assert (Hpow : 0 < 2 ^ k) by (apply Z.pow_pos_nonneg; lia).
  assert (Hle : 2 ^ k <= 2 ^ 30) by (apply Z.pow_le_mono_r; lia).
  assert (Hpa : PA_MAX = SZ_1G * Z.of_nat NR_GIGABYTES).
  { unfold PA_MAX. apply u64_small. unfold SZ_1G in *. lia. }
  rewrite Hpa, Hg. change SZ_1G with (2 ^ 30) in *.
  split; [lia|]. split; [lia|]. split; [lia|]. split; [reflexivity|].
  exists (2 ^ (30 - k) * Z.of_nat NR_GIGABYTES).
  rewrite Z.mul_assoc, <- Z.pow_add_r by lia. f_equal. f_equal. lia.
Qed.

Lemma to_valid_range_eq (k s e : Z) :
  range_geometry k ->
  0 <= s < 2 ^ 64 -> 0 <= e < 2 ^ 64 ->
  to_valid_range s e
  = if SMPT_GRAN * ((Z.min e PA_MAX + SMPT_GRAN - 1) / SMPT_GRAN)
       <=? SMPT_GRAN * (s / SMPT_GRAN)
    then None
    else Some (SMPT_GRAN * (s / SMPT_GRAN),
               SMPT_GRAN * ((Z.min e PA_MAX + SMPT_GRAN - 1) / SMPT_GRAN)).
Proof.
  intros Hgeo Hs He.
  destruct (PA_MAX_geometry k Hgeo) as (Hgran & Hpa0 & Hpafit & _).
  destruct Hgeo as (Hg & Hk & Hfit).
  unfold to_valid_range.
  replace (if PA_MAX <? e then PA_MAX else e) with (Z.min e PA_MAX)
    by (destruct (Z.ltb_spec PA_MAX e); lia).
  assert (Hpow : 0 < 2 ^ k <= SZ_1G) by (rewrite <- Hg; lia).
  rewrite Hg, ALIGN_DOWN_pow2, ALIGN_pow2 by lia. reflexivity.
Qed.

Lemma to_valid_range_bounds (k start end_ new_start new_end : Z) :
  range_geometry k ->
  0 <= start < 2 ^ 64 -> 0 <= end_ < 2 ^ 64 ->
  to_valid_range start end_ = Some (new_start, new_end) ->
  0 <= new_start < new_end /\ new_end <= PA_MAX.
Proof.
  intros Hgeo Hs He Hv.
  destruct (PA_MAX_geometry k Hgeo) as (Hgran & Hpa0 & _ & _ & q & Hq).
  rewrite (to_valid_range_eq k) in Hv by assumption.
  assert (Hgpos : 0 < SMPT_GRAN) by exact (proj1 Hgran).
  destruct (Z.leb_spec (SMPT_GRAN * ((Z.min end_ PA_MAX + SMPT_GRAN - 1) / SMPT_GRAN))
              (SMPT_GRAN * (start / SMPT_GRAN))) as [|Hlt]; [discriminate|].
  injection Hv as <- <-.
  split; [split; [|exact Hlt]|].
  - apply Z.mul_nonneg_nonneg; [lia|]. apply Z.div_pos; lia.
  - rewrite Hq. apply Z.mul_le_mono_nonneg_l; [lia|].
    rewrite <- (div_of_multiple SMPT_GRAN q) at 2 by lia.
    apply Z.div_le_mono; lia.
Qed.

(** X1.  What [to_valid_range] hands on is a non-empty range inside
    [0, PA_MAX] whose two ends are multiples of [SMPT_GRAN]; it covers the
    requested range below [PA_MAX] and exceeds it by less than one
    [SMPT_GRAN] at either end; canonicalising it again changes nothing. *)
Theorem to_valid_range_canonical (k start end_ new_start new_end : Z) :
  range_geometry k ->
  0 <= start < 2 ^ 64 -> 0 <= end_ < 2 ^ 64 ->
  to_valid_range start end_ = Some (new_start, new_end) ->
  0 <= new_start < new_end /\ new_end <= PA_MAX
  /\ new_start mod SMPT_GRAN = 0 /\ new_end mod SMPT_GRAN = 0
  /\ new_start <= start < new_start + SMPT_GRAN
  /\ Z.min end_ PA_MAX <= new_end < Z.min end_ PA_MAX + SMPT_GRAN
  /\ to_valid_range new_start new_end = Some (new_start, new_end).
Proof.
  intros Hgeo Hs He Hv.
  destruct (to_valid_range_bounds k start end_ new_start new_end Hgeo Hs He Hv)
    as (Hord & Hne_le).
  destruct (PA_MAX_geometry k Hgeo) as (Hgran & Hpa0 & Hpafit & Hpa & q & Hq).
  rewrite (to_valid_range_eq k) in Hv by assumption.
  set (ns := SMPT_GRAN * (start / SMPT_GRAN)) in *.
  set (ne := SMPT_GRAN * ((Z.min end_ PA_MAX + SMPT_GRAN - 1) / SMPT_GRAN)) in *.
  destruct (Z.leb_spec ne ns) as [|Hlt]; [discriminate|]. injection Hv as <- <-.
  assert (Hgpos : 0 < SMPT_GRAN) by exact (proj1 Hgran).
  pose proof (round_down_bounds SMPT_GRAN start Hgpos) as Hns.
  pose proof (round_down_bounds SMPT_GRAN (Z.min end_ PA_MAX + SMPT_GRAN - 1) Hgpos)
    as Hne.
  fold ns in Hns. fold ne in Hne.
  split; [exact Hord|]. split; [exact Hne_le|].
  split; [unfold ns; by rewrite Z.mul_comm, Z_mod_mult|].
  split; [unfold ne; by rewrite Z.mul_comm, Z_mod_mult|].
  split; [lia|]. split; [lia|].
  rewrite (to_valid_range_eq k) by (try assumption; unfold SZ_1G in *; lia).
  rewrite (Z.min_l ne PA_MAX) by lia.
  assert (Hns_id : SMPT_GRAN * (ns / SMPT_GRAN) = ns).
  { unfold ns. rewrite (Z.mul_comm SMPT_GRAN (start / SMPT_GRAN)), Z.div_mul by lia.
    lia. }
  assert (Hne_id : SMPT_GRAN * ((ne + SMPT_GRAN - 1) / SMPT_GRAN) = ne).
  { unfold ne at 1. rewrite div_of_multiple by lia. reflexivity. }
  rewrite Hns_id, Hne_id.
  destruct (Z.leb_spec ne ns); [lia|reflexivity].
Qed.

(** ** Identity-map updates on a non-empty range *)

Lemma for_each_sync_cmd l s :
  for_each l __sync_cmd_start s = Ok tt (add_events (map sync_cmd_event l) s).
Proof.
  revert s. induction l as [|x l IH]; intros s; simpl.
  - by rewrite add_events_nil.
  - unfold bind, __sync_cmd_start, writel_relaxed, modify. simpl.
    rewrite IH, emit_add_events, add_events_app. reflexivity.
Qed.

(** The two inner functions, on whatever bytes they are given. *)
Lemma mpt_idmap_prepare_run first_byte last_byte prot ops s :
  mpt_ops s = Some ops ->
  __mpt_idmap_prepare first_byte last_byte prot s
  = Ok tt (set_host_mpt (prepare_range ops (host_mpt s) first_byte last_byte prot) s).
Proof.
  intros Hops. unfold __mpt_idmap_prepare, with_mpt_ops, bind, gets.
  by rewrite Hops.
Qed.

Lemma mpt_idmap_apply_run dev first_byte last_byte ops s :
  mpt_ops s = Some ops ->
  __mpt_idmap_apply dev first_byte last_byte s
  = Ok tt (add_events
             (EvMptOps (apply_range (dev_va dev) (host_mpt s)
                          (u32 (first_byte / SZ_1G)) (u32 (last_byte / SZ_1G)))
              :: EvWritel (u32 (Z.shiftr first_byte RANGE_INVALIDATION_PPN_SHIFT))
                          (dev_va dev + REG_NS_RANGE_INVALIDATION_START_PPN)
              :: EvWritel (u32 (Z.shiftr last_byte RANGE_INVALIDATION_PPN_SHIFT))
                          (dev_va dev + REG_NS_RANGE_INVALIDATION_END_PPN)
              :: EvWritel INVALIDATION_INVALIDATE (dev_va dev + REG_NS_RANGE_INVALIDATION)
              :: map sync_cmd_event (dev_children dev)) s).
Proof.
  intros Hops.
  unfold __mpt_idmap_apply, __range_invalidation_init, bind, gets, call_mpt_ops,
    with_mpt_ops, bind, gets, writel_relaxed, modify.
  rewrite Hops. simpl.
  unfold __invalidation_barrier_init. rewrite for_each_sync_cmd.
  rewrite !emit_add_events, !add_events_app. reflexivity.
Qed.

(** Gigabyte indices and page numbers of a canonical range. *)
Lemma range_index_bounds (k new_start new_end : Z) :
  range_geometry k ->
  0 <= RANGE_INVALIDATION_PPN_SHIFT ->
  PA_MAX <= 2 ^ 32 * 2 ^ RANGE_INVALIDATION_PPN_SHIFT ->
  0 <= new_start < new_end -> new_end <= PA_MAX ->
  (0 <= new_start / SZ_1G <= (new_end - 1) / SZ_1G
   /\ (new_end - 1) / SZ_1G < Z.of_nat NR_GIGABYTES)
  /\ (0 <= Z.shiftr new_start RANGE_INVALIDATION_PPN_SHIFT
           <= Z.shiftr (new_end - 1) RANGE_INVALIDATION_PPN_SHIFT
      /\ Z.shiftr (new_end - 1) RANGE_INVALIDATION_PPN_SHIFT < 2 ^ 32).
Proof.
  intros Hgeo Hsh Hppn Hlt Hle.
  destruct (PA_MAX_geometry k Hgeo) as (_ & _ & Hfit & Hpa & _).
  assert (H1g : 0 < SZ_1G) by reflexivity.
  assert (Hpow : 0 < 2 ^ RANGE_INVALIDATION_PPN_SHIFT) by (apply Z.pow_pos_nonneg; lia).
  split.
  - split; [split|].
    + apply Z.div_pos; lia.
    + apply Z.div_le_mono; lia.
    + apply Z.div_lt_upper_bound; lia.
  - rewrite !Z.shiftr_div_pow2 by lia. split; [split|].
    + apply Z.div_pos; lia.
    + apply Z.div_le_mono; lia.
    + apply Z.div_lt_upper_bound; lia.
Qed.

(** X2.  On a range that is not empty after canonicalisation,
    [s2mpu_host_stage2_idmap_prepare] touches no hardware and none of the
    driver's other variables: it replaces [host_mpt] by what
    [prepare_range] makes of it for the bytes [new_start .. new_end - 1], a
    non-empty inclusive range that ends below [PA_MAX], with the
    protection reduced to its read and write bits. *)
Theorem idmap_prepare_updates_host_mpt (k start end_ prot new_start new_end : Z)
    (ops : s2mpu_mpt_ops) (s : hyp_state) :
  range_geometry k ->
  0 <= start < 2 ^ 64 -> 0 <= end_ < 2 ^ 64 ->
  mpt_ops s = Some ops ->
  to_valid_range start end_ = Some (new_start, new_end) ->
  s2mpu_host_stage2_idmap_prepare start end_ prot s
  = Ok tt (set_host_mpt
             (prepare_range ops (host_mpt s) new_start (new_end - 1) (prot_to_mpt prot))
             s)
  /\ 0 <= new_start <= new_end - 1 /\ new_end - 1 < PA_MAX.
Proof.
  intros Hgeo Hs He Hops Hv.
  destruct (to_valid_range_bounds k start end_ new_start new_end Hgeo Hs He Hv)
    as (Hlt & Hle).
  destruct (PA_MAX_geometry k Hgeo) as (_ & _ & Hfit & _).
  split; [|unfold SZ_1G in *; lia].
  unfold s2mpu_host_stage2_idmap_prepare. rewrite Hv.
  rewrite (mpt_idmap_prepare_run _ _ _ ops) by exact Hops.
  rewrite u64_small by (unfold SZ_1G in *; lia). reflexivity.
Qed.

(** X3.  On such a range [s2mpu_host_stage2_idmap_apply] calls
    [apply_range] for the gigabytes [first_gb .. last_gb], which are in
    order and below [NR_GIGABYTES]; then writes the first and the last page
    number of the range (in order, and fitting 32 bits) and the
    invalidation command; then sends the SYNC command to every child, in
    list order.  It reads no register, waits for nothing and leaves
    [host_mpt] alone. *)
Theorem idmap_apply_trace (k start end_ new_start new_end : Z) (ops : s2mpu_mpt_ops)
    (dev : pkvm_iommu) (s : hyp_state) :
  range_geometry k ->
  0 <= RANGE_INVALIDATION_PPN_SHIFT ->
  PA_MAX <= 2 ^ 32 * 2 ^ RANGE_INVALIDATION_PPN_SHIFT ->
  Z.of_nat NR_GIGABYTES <= 2 ^ 32 ->
  0 <= start < 2 ^ 64 -> 0 <= end_ < 2 ^ 64 ->
  mpt_ops s = Some ops ->
  to_valid_range start end_ = Some (new_start, new_end) ->
  let first_gb := new_start / SZ_1G in
  let last_gb := (new_end - 1) / SZ_1G in
  let start_ppn := Z.shiftr new_start RANGE_INVALIDATION_PPN_SHIFT in
  let end_ppn := Z.shiftr (new_end - 1) RANGE_INVALIDATION_PPN_SHIFT in
  s2mpu_host_stage2_idmap_apply dev start end_ s
  = Ok tt (add_events
             (EvMptOps (apply_range (dev_va dev) (host_mpt s) first_gb last_gb)
              :: EvWritel start_ppn (dev_va dev + REG_NS_RANGE_INVALIDATION_START_PPN)
              :: EvWritel end_ppn (dev_va dev + REG_NS_RANGE_INVALIDATION_END_PPN)
              :: EvWritel INVALIDATION_INVALIDATE (dev_va dev + REG_NS_RANGE_INVALIDATION)
              :: map sync_cmd_event (dev_children dev)) s)
  /\ 0 <= first_gb <= last_gb /\ last_gb < Z.of_nat NR_GIGABYTES
  /\ 0 <= start_ppn <= end_ppn /\ end_ppn < 2 ^ 32.
Proof.
  intros Hgeo Hsh Hppn Hnr Hs He Hops Hv first_gb last_gb start_ppn end_ppn.
  destruct (to_valid_range_bounds k start end_ new_start new_end Hgeo Hs He Hv)
    as (Hlt & Hle).
  destruct (PA_MAX_geometry k Hgeo) as (_ & _ & Hfit & _).
  destruct (range_index_bounds k new_start new_end Hgeo Hsh Hppn Hlt Hle)
    as ((Hgb1 & Hgb2) & (Hpp1 & Hpp2)).
  fold first_gb last_gb in Hgb1, Hgb2. fold start_ppn end_ppn in Hpp1, Hpp2.
  split; [|auto].
  unfold s2mpu_host_stage2_idmap_apply. rewrite Hv.
  rewrite (mpt_idmap_apply_run _ _ _ ops) by exact Hops.
  rewrite (u64_small (new_end - 1)) by (unfold SZ_1G in *; lia).
  fold first_gb last_gb start_ppn end_ppn.
  rewrite !u32_small by lia. reflexivity.
Qed.

(** X16.  A whole update of the identity map, prepare then apply then
    complete, on a range that is not empty: [apply] hands to [apply_range]
    the [host_mpt] that [prepare] has just stored, the range invalidation
    and one SYNC command per child follow, and then the SYNC phase of the
    barrier, which touches only the children; on a v2 or v9 device the wait
    on STATUS comes last.  [host_mpt] ends as [prepare] left it. *)
Theorem idmap_update_sequence (k start end_ prot new_start new_end : Z)
    (ops : s2mpu_mpt_ops) (dev : pkvm_iommu) (fuel : nat) (s : hyp_state) :
  range_geometry k ->
  0 <= RANGE_INVALIDATION_PPN_SHIFT ->
  PA_MAX <= 2 ^ 32 * 2 ^ RANGE_INVALIDATION_PPN_SHIFT ->
  Z.of_nat NR_GIGABYTES <= 2 ^ 32 ->
  0 <= start < 2 ^ 64 -> 0 <= end_ < 2 ^ 64 ->
  mpt_ops s = Some ops ->
  to_valid_range start end_ = Some (new_start, new_end) ->
  let m := prepare_range ops (host_mpt s) new_start (new_end - 1) (prot_to_mpt prot) in
  let evs :=
    EvMptOps (apply_range (dev_va dev) m (new_start / SZ_1G) ((new_end - 1) / SZ_1G))
    :: EvWritel (Z.shiftr new_start RANGE_INVALIDATION_PPN_SHIFT)
                (dev_va dev + REG_NS_RANGE_INVALIDATION_START_PPN)
    :: EvWritel (Z.shiftr (new_end - 1) RANGE_INVALIDATION_PPN_SHIFT)
                (dev_va dev + REG_NS_RANGE_INVALIDATION_END_PPN)
    :: EvWritel INVALIDATION_INVALIDATE (dev_va dev + REG_NS_RANGE_INVALIDATION)
    :: map sync_cmd_event (dev_children dev) in
  exists sync_evs,
    Forall (child_sync_access dev) sync_evs
    /\ (s2mpu_host_stage2_idmap_prepare start end_ prot >>
        s2mpu_host_stage2_idmap_apply dev start end_ >>
        s2mpu_host_stage2_idmap_complete fuel dev) s
       = if is_version s dev S2MPU_VERSION_2 || is_version s dev S2MPU_VERSION_9
         then __wait_while fuel (dev_va dev + REG_NS_STATUS)
                (Z.lor STATUS_BUSY STATUS_ON_INVALIDATING)
                (add_events (evs ++ sync_evs) (set_host_mpt m s))
         else Ok tt (add_events (evs ++ sync_evs) (set_host_mpt m s)).
Proof.
  intros Hgeo Hsh Hppn Hnr Hs He Hops Hv m evs.
  destruct (to_valid_range_bounds k start end_ new_start new_end Hgeo Hs He Hv)
    as (Hlt & Hle).
  destruct (PA_MAX_geometry k Hgeo) as (_ & _ & Hfit & _).
  destruct (range_index_bounds k new_start new_end Hgeo Hsh Hppn Hlt Hle)
    as ((Hgb1 & Hgb2) & (Hpp1 & Hpp2)).
  assert (Hprep : s2mpu_host_stage2_idmap_prepare start end_ prot s
                  = Ok tt (set_host_mpt m s)).
  { unfold s2mpu_host_stage2_idmap_prepare. rewrite Hv.
    rewrite (mpt_idmap_prepare_run _ _ _ ops) by exact Hops.
    rewrite u64_small by (unfold SZ_1G in *; lia). reflexivity. }
  assert (Happ : s2mpu_host_stage2_idmap_apply dev start end_ (set_host_mpt m s)
                 = Ok tt (add_events evs (set_host_mpt m s))).
  { unfold s2mpu_host_stage2_idmap_apply. rewrite Hv.
    rewrite (mpt_idmap_apply_run _ _ _ ops) by exact Hops.
    rewrite (u64_small (new_end - 1)) by (unfold SZ_1G in *; lia).
    rewrite !u32_small by lia. reflexivity. }
  destruct (sync_phase_run dev (add_events evs (set_host_mpt m s)))
    as (sync_evs & Hrun & Hall).
  exists sync_evs. split; [exact Hall|].
  unfold bind. rewrite Hprep, Happ.
  unfold s2mpu_host_stage2_idmap_complete, __mpt_idmap_complete,
    __invalidation_barrier_complete, bind.
  rewrite Hrun. unfold gets. rewrite add_events_app.
  change (is_version (add_events (evs ++ sync_evs) (set_host_mpt m s)) dev)
    with (is_version s dev).
  destruct (is_version s dev S2MPU_VERSION_2 || is_version s dev S2MPU_VERSION_9);
    reflexivity.
Qed.

(** ** Driver initialisation, the successful case *)

Lemma claim_smpts_frame data sz nr gbs s r s' :
  claim_smpts data sz nr gbs s = Ok r s' ->
  reg_ops s' = reg_ops s /\ mpt_ops s' = mpt_ops s /\ dev_data s' = dev_data s
  /\ (exists evs, trace s' = trace s ++ evs /\ Forall is_donation evs)
  /\ (r = 0 ->
      forall gb, In gb gbs ->
        IS_ALIGNED (__hyp_pa (kern_hyp_va (smpt (mpt_fmpt data !!! gb)))) sz = true).
Proof.
  revert s. induction gbs as [|gb gbs IH]; intros s Hrun; simpl in Hrun.
  - injection Hrun as <- <-. repeat split; try done.
    exists []. by rewrite app_nil_r.
  - destruct (IS_ALIGNED _ sz) eqn:Hal; simpl in Hrun.
    + unfold bind, __pkvm_host_donate_hyp in Hrun.
      set (e := EvHostDonateHyp _ _ _) in Hrun.
      assert (He : is_donation e) by (eexists _, _, _; by left).
      destruct (Z.eqb_spec (host_donate_hyp_ret (trace s)
                  (Z.shiftr (__hyp_pa (kern_hyp_va (smpt (mpt_fmpt data !!! gb))))
                            PAGE_SHIFT) (u64 nr)) 0) as [Hz|Hnz];
        simpl in Hrun.
      * apply IH in Hrun as (Hr & Hm & Hd & (evs & Htr & Hevs) & Hall).
        split; [exact Hr|]. split; [exact Hm|]. split; [exact Hd|]. split.
        { exists (e :: evs). split; [|by constructor].
          rewrite Htr. simpl. by rewrite <- app_assoc. }
        intros Hr0 gb' [<-|Hin]; [exact Hal|by apply Hall].
      * injection Hrun as <- <-. repeat split; try done.
        exists [e]. split; [reflexivity|by constructor].
    + injection Hrun as <- <-. repeat split; try done.
      exists []. by rewrite app_nil_r.
Qed.

Lemma claim_smpts_total data sz nr gbs s :
  exists r s', claim_smpts data sz nr gbs s = Ok r s'.
Proof.
  revert s. induction gbs as [|gb gbs IH]; intros s; simpl; [by eexists _, _|].
  destruct (IS_ALIGNED _ sz); simpl; [|by eexists _, _].
  unfold bind, __pkvm_host_donate_hyp.
  destruct (host_donate_hyp_ret _ _ _ =? 0); simpl; [apply IH|by eexists _, _].
Qed.

Lemma return_smpts_frame nr gbs s :
  exists evs,
    return_smpts nr gbs s = Ok tt (add_events evs s) /\ Forall is_donation evs.
Proof.
  revert s. induction gbs as [|gb gbs IH]; intros s; simpl.
  - exists []. by rewrite add_events_nil.
  - unfold bind, gets.
    destruct (smpt (mpt_fmpt (host_mpt s) !!! gb) =? 0).
    + exists []. by rewrite add_events_nil.
    + unfold __pkvm_hyp_donate_host. set (e := EvHypDonateHost _ _ _).
      destruct (IH (emit e s)) as (evs & -> & Hevs).
      exists (e :: evs). rewrite emit_add_events, add_events_app.
      split; [reflexivity|]. constructor; [|assumption]. eexists _, _, _. by right.
Qed.

Lemma s32_small x : 0 <= x < 2 ^ 31 -> s32 x = x.
Proof. intros Hx. unfold s32. rewrite Z.mod_small by lia. lia. Qed.

Lemma init_sizes_small mops :
  0 < PAGE_SIZE -> 0 <= smpt_size mops < 2 ^ 31 ->
  init_smpt_size mops = smpt_size mops
  /\ init_nr_pages mops = smpt_size mops / PAGE_SIZE.
Proof.
  intros Hp Hsz. unfold init_nr_pages, init_smpt_size.
  rewrite (s32_small (smpt_size mops)) by exact Hsz.
  split; [reflexivity|].
  rewrite (u64_small (smpt_size mops)) by lia.
  assert (Hq : 0 <= smpt_size mops / PAGE_SIZE < 2 ^ 31).
  { split; [apply Z.div_pos; lia|].
    apply Z.le_lt_trans with (smpt_size mops); [|lia].
    apply Z.div_le_upper_bound; [lia|]. nia. }
  rewrite s32_small by exact Hq. apply u64_small. lia.
Qed.

(** X4.  When [s2mpu_init] returns 0, the size was that of a [struct mpt];
    [reg_ops] points to the operations for the version the host sent (the
    common table for v1 and v2, the other for v9) and [mpt_ops] to what
    [s2mpu_get_mpt_ops] has for it; every gigabyte of [host_mpt] holds the
    hyp address of the host's buffer, at 1G granularity with read-write
    protection; the physical address of every buffer has passed
    [IS_ALIGNED] for the SMPT size as the [int] local holds it; and the
    trace has grown by exactly one successful donation per gigabyte, in
    order, each of the number of pages the [int] local [smpt_nr_pages]
    gives as a [u64], with nothing handed back.  When the SMPT size fits
    an [int] the two numbers are the size itself and the size divided by
    [PAGE_SIZE]. *)
Theorem s2mpu_init_success_installs (data : mpt) (size : Z) (s s' : hyp_state) :
  host_mpt s = mpt_zero ->
  s2mpu_init data size s = Ok 0 s' ->
  exists ops mops evs,
    size = sizeof_mpt
    /\ reg_ops s' = Some ops /\ ops_for_version ops (mpt_version data)
    /\ s2mpu_get_mpt_ops (mpt_version data) = Some mops /\ mpt_ops s' = Some mops
    /\ mpt_fmpt (host_mpt s') = claimed_fmpt data <$> seq 0 NR_GIGABYTES
    /\ (forall gb, (gb < NR_GIGABYTES)%nat ->
          IS_ALIGNED (__hyp_pa (kern_hyp_va (smpt (mpt_fmpt data !!! gb))))
                     (init_smpt_size mops) = true)
    /\ trace s' = trace s ++ evs
    /\ donated evs = smpt_frames data (init_nr_pages mops) <$> seq 0 NR_GIGABYTES
    /\ Forall is_donation evs /\ returned evs = []
    /\ dev_data s' = dev_data s
    /\ (0 < PAGE_SIZE -> 0 <= smpt_size mops < 2 ^ 31 ->
        init_smpt_size mops = smpt_size mops
        /\ init_nr_pages mops = smpt_size mops / PAGE_SIZE).
Proof.
  intros Hzero. unfold s2mpu_init.
  destruct (Z.eqb_spec size sizeof_mpt) as [Hsize|]; simpl;
    [|intros [= H]; discriminate H].
  match goal with
  | |- context [match ?c with Some _ => _ | None => _ end] =>
      destruct c as [ops|] eqn:Hops
  end; [|intros [= H]; discriminate H].
  assert (Hfor : ops_for_version ops (mpt_version data)).
  { revert Hops.
    destruct (Z.eqb_spec (mpt_version data) S2MPU_VERSION_1),
             (Z.eqb_spec (mpt_version data) S2MPU_VERSION_2),
             (Z.eqb_spec (mpt_version data) S2MPU_VERSION_9);
      simpl; intros [= <-]; simpl; auto. }
  clear Hops.
  unfold bind at 1 2 3. unfold modify, gets. simpl.
  destruct (s2mpu_get_mpt_ops (mpt_version data)) as [mops|] eqn:Hget;
    [|intros [= H]; discriminate H].
  set (s0 := set_mpt_ops _ _).
  fold (init_smpt_size mops).
  set (nr := s32 (u64 (init_smpt_size mops) / PAGE_SIZE)).
  destruct (claim_smpts_run data (init_smpt_size mops) nr NR_GIGABYTES 0 s0)
    as (k & r & claims & s1 & Hk & Hrun & Htr & Hm & Hd & Hr & Hz & Hfail).
  { unfold s0. simpl. rewrite Hzero. reflexivity. }
  unfold bind, for_each_gb. rewrite Hrun.
  pose proof (claim_smpts_frame _ _ _ _ _ _ _ Hrun)
    as (Hreg & Hmops & Hdev & (evs & Htr' & Hevs) & Hal).
  rewrite Htr in Htr'. apply app_inv_head in Htr'. subst evs.
  destruct (Z.eqb_spec r 0) as [->|Hne]; simpl.
  - intros [= <-]. specialize (Hz eq_refl). subst k.
    exists ops, mops, claims.
    split; [assumption|]. split; [by rewrite Hreg|]. split; [assumption|].
    split; [reflexivity|]. split; [by rewrite Hmops|].
    split; [rewrite Hm, Nat.sub_diag; simpl; by rewrite app_nil_r|].
    split; [intros gb Hgb; apply (Hal eq_refl), in_seq; lia|].
    split; [exact Htr|]. split; [by rewrite Hd, Nat.sub_0_r|].
    split; [assumption|]. split; [assumption|]. split; [by rewrite Hdev|].
    apply init_sizes_small.
  - destruct (return_smpts_frame nr (seq 0 NR_GIGABYTES) s1)
      as (rets & -> & _).
    simpl. intros [= H]. contradiction.
Qed.

(** X5.  Whatever it returns, [s2mpu_init] returns, and it touches no
    device: it reads and writes no register and makes none of the calls
    through [mpt_ops] that program one.  It asks [mpt_ops] for the SMPT
    size; beyond that, what it adds to the trace are calls of the two
    donation functions and nothing else, and no device's [data] changes. *)
Theorem s2mpu_init_touches_no_device (data : mpt) (size : Z) (s : hyp_state) :
  exists r evs s',
    s2mpu_init data size s = Ok r s'
    /\ trace s' = trace s ++ evs
    /\ Forall is_donation evs
    /\ dev_data s' = dev_data s.
Proof.
  unfold s2mpu_init.
  destruct (size =? sizeof_mpt); simpl.
  2:{ exists (- EINVAL), [], s. rewrite app_nil_r. by repeat split. }
  match goal with
  | |- context [match ?c with Some _ => _ | None => _ end] => destruct c as [ops|]
  end.
  2:{ exists (- ENODEV), [], s. rewrite app_nil_r. by repeat split. }
  unfold bind at 1 2 3. unfold modify, gets. simpl.
  destruct (s2mpu_get_mpt_ops (mpt_version data)) as [mops|].
  2:{ eexists (- EINVAL), [], _. split; [reflexivity|]. simpl.
      rewrite app_nil_r. by repeat split. }
  set (s0 := set_mpt_ops _ _).
  set (sz := s32 (smpt_size mops)).
  set (nr := s32 (u64 sz / PAGE_SIZE)).
  destruct (claim_smpts_total data sz nr for_each_gb s0) as (r & s1 & Hrun).
  unfold bind. rewrite Hrun.
  pose proof (claim_smpts_frame _ _ _ _ _ _ _ Hrun)
    as (_ & _ & Hdev & (evs & Htr & Hevs) & _).
  destruct (r =? 0); simpl.
  - exists r, evs, s1. by repeat split.
  - destruct (return_smpts_frame nr for_each_gb s1)
      as (rets & -> & Hrets).
    simpl. eexists r, (evs ++ rets), _. split; [reflexivity|]. simpl.
    split; [by rewrite Htr, <- app_assoc|]. split; [by apply Forall_app|].
    exact Hdev.
Qed.

(** ** Bring-up: failure and repetition *)

Lemma initialize_any dev s r s1 :
  __initialize dev s = Ok r s1 ->
  same_globals s s1
  /\ (r <> 0 ->
      r = - EINVAL
      /\ exists reads, trace s1 = trace s ++ reads /\ Forall is_readl reads).
Proof.
  unfold __initialize. intros Hrun.
  apply bind_ok in Hrun as (data & s0 & Hd & Hrun). injection Hd as <- <-.
  apply bind_ok in Hrun as ([] & s0 & Hver & Hrun).
  assert (Hs0 : same_globals s s0
                /\ exists r0, trace s0 = trace s ++ r0 /\ Forall is_readl r0).
  { destruct (drv_version (dev_data s (dev_id dev)) =? 0).
    - unfold bind, readl_relaxed, modify in Hver. injection Hver as <-.
      split; [by repeat split|]. eexists [_]. split; [reflexivity|].
      constructor; [|constructor]. by eexists _, _.
    - injection Hver as <-. split; [by repeat split|]. exists [].
      by rewrite app_nil_r. }
  clear Hver. destruct Hs0 as ((Hm & Hr & Ho) & r0 & Htr0 & Hr0).
  apply bind_ok in Hrun as (data & s0' & Hd & Hrun). injection Hd as <- <-.
  destruct (Z.land (drv_version (dev_data s0 (dev_id dev))) VERSION_CHECK_MASK
            =? S2MPU_VERSION_1).
  - injection Hrun as <- <-. split; [by repeat split|]. intros []; reflexivity.
  - destruct (Z.land (drv_version (dev_data s0 (dev_id dev))) VERSION_CHECK_MASK
              =? S2MPU_VERSION_2).
    + apply initialize_v2_run in Hrun as ((Hm1 & Hr1 & Ho1) & _ & reads & Hreads & Hcase).
      split; [repeat split; congruence|].
      intros Hne. destruct Hcase as [[-> Htr]|[-> _]]; [|contradiction].
      split; [reflexivity|]. exists (r0 ++ reads).
      split; [by rewrite Htr, Htr0, <- app_assoc|by apply Forall_app].
    + injection Hrun as <- <-. split; [by repeat split|]. intros _.
      split; [reflexivity|]. by exists r0.
Qed.

Lemma bring_up_unfold b fuel dev s r s' :
  run_bring_up b fuel dev s = Ok r s' ->
  exists ops r0 s1,
    reg_ops s = Some ops
    /\ reg_ops_init ops dev s = Ok r0 s1
    /\ (r0 <> 0 -> r = r0 /\ s' = s1)
    /\ (r0 = 0 -> r = 0).
Proof.
  assert (Hgen : forall call : hyp unit,
    (let* x := with_reg_ops (fun ops => reg_ops_init ops dev) in
     if negb (x =? 0) then ret x
     else call >> __all_invalidation fuel dev >>
          with_reg_ops (fun ops => reg_ops_set_control_regs ops dev) >> ret 0) s
    = Ok r s' ->
    exists ops r0 s1,
      reg_ops s = Some ops
      /\ reg_ops_init ops dev s = Ok r0 s1
      /\ (r0 <> 0 -> r = r0 /\ s' = s1)
      /\ (r0 = 0 -> r = 0)).
  { intros call Hrun.
    apply bind_ok in Hrun as (r0 & s1 & Hinit & Hrun).
    unfold with_reg_ops, bind, gets in Hinit.
    destruct (reg_ops s) as [ops|]; [|discriminate].
    exists ops, r0, s1. split; [reflexivity|]. split; [exact Hinit|].
    destruct (Z.eqb_spec r0 0) as [->|Hne]; simpl in Hrun.
    - split; [intros []; reflexivity|]. intros _.
      apply bind_ok in Hrun as (? & ? & _ & Hrun).
      apply bind_ok in Hrun as (? & ? & _ & Hrun).
      apply bind_ok in Hrun as (? & ? & _ & Hrun).
      by injection Hrun as <- _.
    - injection Hrun as <- <-. split; [done|]. intros; contradiction. }
  destruct b; simpl; apply Hgen.
Qed.

(** X6.  A resume or suspend that returns an error has written nothing:
    the error is -EINVAL, what was added to the trace are register reads
    only (no write, no call into [mpt_ops]), and the process-wide
    variables are as before. *)
Theorem bring_up_failure_writes_nothing (b : bring_up) (fuel : nat) (dev : pkvm_iommu)
    (s s' : hyp_state) (r : Z) :
  run_bring_up b fuel dev s = Ok r s' ->
  r <> 0 ->
  r = - EINVAL
  /\ same_globals s s'
  /\ exists reads, trace s' = trace s ++ reads /\ Forall is_readl reads.
Proof.
  intros Hrun Hne.
  apply bring_up_unfold in Hrun as (ops & r0 & s1 & _ & Hinit & Hfail & Hok).
  destruct (Z.eq_dec r0 0) as [Hz|Hnz]; [by apply Hok in Hz|].
  destruct (Hfail Hnz) as [-> ->].
  destruct ops; simpl in Hinit.
  - apply initialize_any in Hinit as (Hg & Hf).
    destruct (Hf Hnz) as (-> & Hreads).
    split; [reflexivity|]. split; [exact Hg|exact Hreads].
  - apply initialize_v2_run in Hinit as (Hg & _ & reads & Hreads & Hcase).
    destruct Hcase as [[-> Htr]|[-> _]]; [|contradiction].
    split; [reflexivity|]. split; [exact Hg|]. by exists reads.
Qed.



(** ** The trap handler and the mask tables *)

Lemma land_u32_r v m : 0 <= m < 2 ^ 32 -> 0 <= Z.land v m < 2 ^ 32.
Proof.
  intros Hm.
  assert (H : Z.land (Z.land v m) (Z.ones 32) = Z.land v m).
  { rewrite <- Z.land_assoc. f_equal. rewrite Z.land_ones by lia.
    by apply Z.mod_small. }
  rewrite <- H, Z.land_ones by lia. apply Z.mod_pos_bound. lia.
Qed.

(** X8.  What a trap can do, for every syndrome and offset, once
    [reg_ops] is set: a trap left unhandled has touched neither the device
    nor the host context; a handled trap has width 4 and an aligned
    offset, and has made exactly one access, at [dev->va + off]: a write
    of a value that fits 32 bits, the host context staying as it was, or a
    read that changes no host register but [rd], which receives a value
    that fits 32 bits.  The driver's variables never change. *)
Theorem dabt_handler_footprint (dev : pkvm_iommu) (host_ctxt : kvm_cpu_context)
    (esr off : Z) (s : hyp_state) (ops : s2mpu_reg_ops) :
  reg_ops s = Some ops ->
  exists handled ctxt' evs,
    s2mpu_host_dabt_handler dev host_ctxt esr off s = Ok (handled, ctxt') (add_events evs s)
    /\ (handled = false -> evs = [] /\ ctxt' = host_ctxt)
    /\ (handled = true ->
        dabt_len esr = 4 /\ off mod 4 = 0
        /\ ((dabt_is_write esr = true /\ ctxt' = host_ctxt
             /\ exists v, evs = [EvWritel v (dev_va dev + off)] /\ 0 <= v < 2 ^ 32)
            \/ (dabt_is_write esr = false
                /\ (exists v, evs = [EvReadl (dev_va dev + off) v])
                /\ 0 <= ctxt' (dabt_rd esr) < 2 ^ 32
                /\ forall r, r <> dabt_rd esr -> ctxt' r = host_ctxt r))).
Proof.
  intros Hops.
  pose proof (access_mask_u32 ops off (dabt_is_write esr)) as Hm.
  unfold s2mpu_host_dabt_handler. rewrite land_3_mod_4.
  destruct (Z.eqb_spec (dabt_len esr) 4) as [Hlen|Hlen];
    [destruct (Z.eqb_spec (off mod 4) 0) as [Hal|Hal]|]; simpl.
  - unfold bind. rewrite (access_mask_run ops) by assumption.
    destruct (access_mask ops off (dabt_is_write esr) =? 0).
    + exists false, host_ctxt, []. rewrite add_events_nil.
      split; [reflexivity|]. split; [done|discriminate].
    + destruct (dabt_is_write esr) eqn:Hw.
      * eexists true, host_ctxt, [_]. split; [reflexivity|].
        split; [discriminate|]. intros _. split; [assumption|]. split; [assumption|].
        left. split; [reflexivity|]. split; [reflexivity|].
        eexists. split; [reflexivity|]. unfold u32. apply Z.mod_pos_bound. lia.
      * eexists true, _, [_]. split; [reflexivity|].
        split; [discriminate|]. intros _. split; [assumption|]. split; [assumption|].
        right. split; [reflexivity|]. split; [by eexists|].
        unfold set_cpu_reg. rewrite Z.eqb_refl. split; [by apply land_u32_r|].
        intros r Hr. by destruct (Z.eqb_spec r (dabt_rd esr)).
  - exists false, host_ctxt, []. rewrite add_events_nil.
    split; [reflexivity|]. split; [done|discriminate].
  - exists false, host_ctxt, []. rewrite add_events_nil.
    split; [reflexivity|]. split; [done|discriminate].
Qed.

Ltac table_cases :=
  repeat match goal with
         | |- context [if ?c then _ else _] => destruct c eqn:?
         end.

Lemma one_way_masks (m : Z) :
  (Z.land (read_only false) m = 0 \/ Z.land (read_only true) m = 0)
  /\ (Z.land (write_only false) m = 0 \/ Z.land (write_only true) m = 0).
Proof. split; [right|left]; reflexivity. Qed.

(** X9.  No register is open to the host both ways: at every offset the
    read mask or the write mask is 0. *)
Theorem no_register_read_write (ops : s2mpu_reg_ops) (off : Z) (s : hyp_state) :
  reg_ops s = Some ops ->
  exists mask_r mask_w,
    host_mmio_reg_access_mask off false s = Ok mask_r s
    /\ host_mmio_reg_access_mask off true s = Ok mask_w s
    /\ (mask_r = 0 \/ mask_w = 0).
Proof.
  intros Hops.
  exists (access_mask ops off false), (access_mask ops off true).
  split; [by apply access_mask_run|]. split; [by apply access_mask_run|].
  unfold access_mask, host_mmio_reg_access_mask. cbv zeta.
  table_cases; cbn [ret];
    try apply (proj1 (one_way_masks _)); try apply (proj2 (one_way_masks _));
    try (by right).
  unfold with_reg_ops, bind, gets, ret. cbn [reg_ops].
  destruct ops; cbn [reg_ops_host_mmio_reg_access_mask];
    unfold host_mmio_reg_access_mask_v1_v2, host_mmio_reg_access_mask_v9; cbv zeta;
    table_cases;
    try apply (proj1 (one_way_masks _)); try apply (proj2 (one_way_masks _));
    by right.
Qed.

(** X10.  The registers of the common table have the same mask whatever
    the version, and the lookup goes through for them even while [reg_ops]
    is still NULL; for every other offset the lookup calls through
    [reg_ops] and faults when that is NULL. *)
Theorem access_mask_common_table (off : Z) (is_write : bool) (s : hyp_state) :
  (in_common_table off = true ->
   exists mask,
     host_mmio_reg_access_mask off is_write s = Ok mask s
     /\ access_mask ops_v1_v2 off is_write = mask
     /\ access_mask ops_v9 off is_write = mask)
  /\ (in_common_table off = false ->
      reg_ops s = None -> host_mmio_reg_access_mask off is_write s = Fault).
Proof.
  unfold in_common_table. split.
  - intros Hin. unfold access_mask, host_mmio_reg_access_mask. cbv zeta.
    table_cases; try (eexists; split; [reflexivity|split; reflexivity]).
    exfalso.
    repeat match goal with
           | H : _ = false |- _ => rewrite H in Hin; clear H
           end.
    simpl in Hin.
    repeat match goal with
           | H : _ = false |- _ => rewrite H in Hin; clear H
           end.
    discriminate Hin.
  - intros Hout Hnull.
    repeat (apply orb_false_iff in Hout as [Hout ?]).
    unfold host_mmio_reg_access_mask. cbv zeta.
    repeat match goal with
           | H : _ = false |- _ => rewrite H; clear H
           end.
    simpl. unfold with_reg_ops, bind, gets. by rewrite Hnull.
Qed.

(** ** Polling *)

(** X11.  [__wait_until] reads nothing but the register it is given, at
    most [max_attempts] times.  It returns true exactly when its last read
    found all bits of the mask set, and no read before that one did; it
    returns false after [max_attempts] reads none of which did. *)
Theorem wait_until_bounded (addr mask : Z) (max_attempts : nat) (s : hyp_state) :
  exists b evs,
    __wait_until addr mask max_attempts s = Ok b (add_events evs s)
    /\ (length evs <= max_attempts)%nat
    /\ Forall (is_readl_of addr) evs
    /\ (b = true ->
        exists pre e, evs = pre ++ [e] /\ Forall (readl_without addr mask) pre
                      /\ readl_with addr mask e)
    /\ (b = false -> length evs = max_attempts /\ Forall (readl_without addr mask) evs).
Proof.
  destruct (wait_until_run addr mask max_attempts s) as (b & evs & Hrun & Hlen & Hf & Ht).
  exists b, evs. split; [exact Hrun|]. split; [exact Hlen|].
  split; [|by split].
  destruct b.
  - destruct (Ht eq_refl) as (pre & e & -> & Hpre & (v & -> & _)).
    apply Forall_app. split.
    + eapply Forall_impl; [exact Hpre|]. intros e (w & -> & _). by exists w.
    + constructor; [by exists v|constructor].
  - destruct (Hf eq_refl) as [_ Hall].
    eapply Forall_impl; [exact Hall|]. intros e (w & -> & _). by exists w.
Qed.

Lemma slow_retry_length sync retries timeout s :
  exists evs,
    slow_retry sync retries timeout s = Ok tt (add_events evs s)
    /\ (length evs <= slow_budget retries timeout)%nat.
Proof.
  revert timeout s. induction retries as [|r IH]; intros timeout s; simpl.
  - exists []. by rewrite add_events_nil.
  - unfold bind, __sync_cmd_start, writel_relaxed, modify. simpl.
    set (cmd := EvWritel SYNC_CMD_SYNC (dev_va sync + REG_NS_SYNC_CMD)).
    destruct (wait_until_run (dev_va sync + REG_NS_SYNC_COMP) SYNC_COMP_COMPLETE
                timeout (emit cmd s)) as (b & reads & -> & Hlen & _).
    destruct b.
    + exists (cmd :: reads). rewrite emit_add_events, add_events_app.
      split; [reflexivity|]. simpl. lia.
    + destruct (IH (timeout * SYNC_TIMEOUT_MULTIPLIER)%nat
                   (add_events reads (emit cmd s))) as (rest & -> & Hrest).
      exists (cmd :: reads ++ rest). rewrite emit_add_events, !add_events_app.
      split; [reflexivity|]. simpl. rewrite length_app. lia.
Qed.

Lemma for_each_length {A} (l : list A) (body : A -> hyp unit) (c : nat) :
  (forall x s, exists evs, body x s = Ok tt (add_events evs s) /\ (length evs <= c)%nat) ->
  forall s, exists evs,
    for_each l body s = Ok tt (add_events evs s) /\ (length evs <= c * length l)%nat.
Proof.
  intros Hbody. induction l as [|x l IH]; intros s; simpl.
  - exists []. rewrite add_events_nil. split; [reflexivity|simpl; lia].
  - destruct (Hbody x s) as (e1 & H1 & Hl1).
    destruct (IH (add_events e1 s)) as (e2 & H2 & Hl2).
    exists (e1 ++ e2). unfold bind. rewrite H1, H2, add_events_app.
    split; [reflexivity|]. rewrite length_app. lia.
Qed.

(** X12.  The SYNC phase of [__invalidation_barrier_complete] is bounded:
    it makes at most 611 register accesses per child (one read, then at
    most five commands with 5, 15, 45, 135 and 405 polls), whatever the
    children answer.  On a device that is neither v2 nor v9 this is all the
    barrier does; on the others only the wait on STATUS follows. *)
Theorem invalidation_barrier_sync_phase_bounded (fuel : nat) (dev : pkvm_iommu)
    (s : hyp_state) :
  exists sync_evs,
    (length sync_evs <= 611 * length (dev_children dev))%nat
    /\ __invalidation_barrier_complete fuel dev s
       = if is_version s dev S2MPU_VERSION_2 || is_version s dev S2MPU_VERSION_9
         then __wait_while fuel (dev_va dev + REG_NS_STATUS)
                (Z.lor STATUS_BUSY STATUS_ON_INVALIDATING) (add_events sync_evs s)
         else Ok tt (add_events sync_evs s).
Proof.
  destruct (for_each_length (dev_children dev) sync_complete_or_slow 611) with (s := s)
    as (evs & Hrun & Hlen).
  { intros sync s0. unfold sync_complete_or_slow, bind, readl_relaxed. simpl.
    destruct (Z.land _ SYNC_COMP_COMPLETE =? 0).
    - unfold __invalidation_barrier_slow.
      match goal with
      | |- context [slow_retry sync _ _ ?st] =>
          destruct (slow_retry_length sync SYNC_MAX_RETRIES SYNC_TIMEOUT st)
            as (evs & -> & Hlen)
      end.
      eexists (_ :: evs). rewrite emit_add_events, add_events_app.
      split; [reflexivity|]. simpl in *. lia.
    - eexists [_]. split; [reflexivity|]. simpl. lia. }
  exists evs. split; [exact Hlen|].
  unfold __invalidation_barrier_complete, bind. rewrite Hrun.
  unfold gets. rewrite !is_version_add_events.
  destruct (is_version s dev S2MPU_VERSION_2 || is_version s dev S2MPU_VERSION_9);
    reflexivity.
Qed.

(** X13.  The fast path: when every child's SYNC_COMP reads with a
    COMPLETE bit set, the SYNC phase is one read of SYNC_COMP per child, in
    list order, and no SYNC command is issued. *)
Theorem invalidation_barrier_fast_path (fuel : nat) (dev : pkvm_iommu) (s : hyp_state) :
  (forall sync tr,
     In sync (dev_children dev) ->
     Z.land (u32 (readl_value tr (dev_va sync + REG_NS_SYNC_COMP))) SYNC_COMP_COMPLETE
     <> 0) ->
  exists sync_evs,
    Forall2 (fun sync e => is_readl_of (dev_va sync + REG_NS_SYNC_COMP) e)
            (dev_children dev) sync_evs
    /\ __invalidation_barrier_complete fuel dev s
       = if is_version s dev S2MPU_VERSION_2 || is_version s dev S2MPU_VERSION_9
         then __wait_while fuel (dev_va dev + REG_NS_STATUS)
                (Z.lor STATUS_BUSY STATUS_ON_INVALIDATING) (add_events sync_evs s)
         else Ok tt (add_events sync_evs s).
Proof.
  intros Hdone.
  assert (Hphase : forall l s0,
            (forall sync, In sync l -> In sync (dev_children dev)) ->
            exists evs,
              for_each l sync_complete_or_slow s0 = Ok tt (add_events evs s0)
              /\ Forall2 (fun sync e => is_readl_of (dev_va sync + REG_NS_SYNC_COMP) e)
                         l evs).
  { induction l as [|sync l IH]; intros s0 Hsub; simpl.
    - exists []. rewrite add_events_nil. split; [reflexivity|constructor].
    - assert (Hstep : sync_complete_or_slow sync s0
                      = Ok tt (emit (EvReadl (dev_va sync + REG_NS_SYNC_COMP)
                                       (u32 (readl_value (trace s0)
                                               (dev_va sync + REG_NS_SYNC_COMP)))) s0)).
      { unfold sync_complete_or_slow, bind, readl_relaxed. simpl.
        destruct (Z.eqb_spec
                    (Z.land (u32 (readl_value (trace s0)
                                    (dev_va sync + REG_NS_SYNC_COMP)))
                            SYNC_COMP_COMPLETE) 0) as [Hz|_]; [|reflexivity].
        exfalso. apply (Hdone sync (trace s0)); [apply Hsub; by left|exact Hz]. }
      unfold bind at 1. rewrite Hstep.
      match goal with
      | |- context [for_each l _ ?st] =>
          destruct (IH st) as (evs & Hrest & Hall); [intros; apply Hsub; by right|];
          rewrite Hrest
      end.
      eexists (_ :: evs). rewrite emit_add_events, add_events_app.
      split; [reflexivity|]. constructor; [by eexists|assumption]. }
  destruct (Hphase (dev_children dev) s) as (evs & Hrun & Hall); [done|].
  exists evs. split; [exact Hall|].
  unfold __invalidation_barrier_complete, bind. rewrite Hrun.
  unfold gets. rewrite !is_version_add_events.
  destruct (is_version s dev S2MPU_VERSION_2 || is_version s dev S2MPU_VERSION_9);
    reflexivity.
Qed.

(** ** Protection bits *)

(** X14.  [prot_to_mpt] looks at the read and the write bit of the
    stage-2 protection and at nothing else, and yields no value but the
    four combinations of [MPT_PROT_R] and [MPT_PROT_W]. *)
Theorem prot_to_mpt_projects (prot : Z) :
  prot_to_mpt prot
  = prot_to_mpt (Z.land prot (Z.lor KVM_PGTABLE_PROT_R KVM_PGTABLE_PROT_W))
  /\ (prot_to_mpt prot = 0 \/ prot_to_mpt prot = MPT_PROT_R
      \/ prot_to_mpt prot = MPT_PROT_W
      \/ prot_to_mpt prot = Z.lor MPT_PROT_R MPT_PROT_W).
Proof.
  split.
  - unfold prot_to_mpt.
    rewrite <- !Z.land_assoc, land_lor_l, land_lor_r. reflexivity.
  - unfold prot_to_mpt.
    destruct (Z.land prot KVM_PGTABLE_PROT_R =? 0),
             (Z.land prot KVM_PGTABLE_PROT_W =? 0);
      rewrite ?Z.lor_0_r, ?Z.lor_0_l; auto.
Qed.

(** ** Bring-up of a v1 device *)

Lemma initialize_v1_run dev s s1 :
  __initialize dev s = Ok 0 s1 ->
  is_version s1 dev S2MPU_VERSION_1 = true ->
  same_globals s s1
  /\ exists reads,
       trace s1 = trace s ++ reads
       /\ Forall (is_readl_of (dev_va dev + REG_NS_VERSION)) reads
       /\ (length reads <= 1)%nat.
Proof.
  unfold __initialize. intros Hrun Hv1.
  apply bind_ok in Hrun as (data & s0 & Hd & Hrun). injection Hd as <- <-.
  apply bind_ok in Hrun as ([] & s0 & Hver & Hrun).
  assert (Hs0 : same_globals s s0
                /\ exists r0, trace s0 = trace s ++ r0
                     /\ Forall (is_readl_of (dev_va dev + REG_NS_VERSION)) r0
                     /\ (length r0 <= 1)%nat).
  { destruct (drv_version (dev_data s (dev_id dev)) =? 0).
    - unfold bind, readl_relaxed, modify in Hver. injection Hver as <-.
      split; [by repeat split|]. eexists [_]. split; [reflexivity|].
      split; [|simpl; lia]. constructor; [|constructor]. by eexists.
    - injection Hver as <-. split; [by repeat split|]. exists [].
      rewrite app_nil_r. split; [reflexivity|]. split; [constructor|simpl; lia]. }
  clear Hver.
  apply bind_ok in Hrun as (data & s0' & Hd & Hrun). injection Hd as <- <-.
  destruct (Z.eqb_spec (Z.land (drv_version (dev_data s0 (dev_id dev))) VERSION_CHECK_MASK)
              S2MPU_VERSION_1) as [H1|H1].
  - injection Hrun as <-. exact Hs0.
  - exfalso.
    destruct (Z.land (drv_version (dev_data s0 (dev_id dev))) VERSION_CHECK_MASK
              =? S2MPU_VERSION_2); [|discriminate].
    apply initialize_v2_run in Hrun as (_ & Hv & _).
    unfold is_version in Hv1. rewrite Hv in Hv1. apply Z.eqb_eq in Hv1. contradiction.
Qed.

(** X15.  A successful resume or suspend of a v1 device touches neither
    the context registers nor STATUS: it reads VERSION at most once, hands
    the tables to [mpt_ops] (the [host_mpt] of before the call, or no
    access at all), writes ALL_INVALIDATION, goes through the SYNC
    children, and writes the four control registers, CTRL0 last with
    SLVERR as the fault response. *)
Theorem v1_bring_up_trace (b : bring_up) (fuel : nat) (dev : pkvm_iommu)
    (s s' : hyp_state) :
  S2MPU_VERSION_1 <> S2MPU_VERSION_2 ->
  S2MPU_VERSION_1 <> S2MPU_VERSION_9 ->
  reg_ops s = Some ops_v1_v2 ->
  run_bring_up b fuel dev s = Ok 0 s' ->
  is_version s' dev S2MPU_VERSION_1 = true ->
  exists reads sync_evs,
    Forall (is_readl_of (dev_va dev + REG_NS_VERSION)) reads
    /\ (length reads <= 1)%nat
    /\ Forall (child_sync_access dev) sync_evs
    /\ trace s' = trace s ++ reads
         ++ EvMptOps (bring_up_call b dev s)
         :: EvWritel INVALIDATION_INVALIDATE (dev_va dev + REG_NS_ALL_INVALIDATION)
         :: sync_evs
         ++ control_writes_v1_v2 dev
              (Z.lor (Z.lor (Z.lor 0 CTRL0_ENABLE) CTRL0_INTERRUPT_ENABLE)
                     CTRL0_FAULT_RESP_TYPE_SLVERR)
    /\ same_globals s s'.
Proof.
  intros H12 H19 Hops Hrun Hv1.
  assert (Hgen : forall call : hyp unit,
    (let* x := with_reg_ops (fun ops => reg_ops_init ops dev) in
     if negb (x =? 0) then ret x
     else call >> __all_invalidation fuel dev >>
          with_reg_ops (fun ops => reg_ops_set_control_regs ops dev) >> ret 0) s
    = Ok 0 s' ->
    (forall s1, host_mpt s1 = host_mpt s ->
       call s1 = Fault
       \/ call s1 = Ok tt (add_events [EvMptOps (bring_up_call b dev s)] s1)) ->
    exists reads sync_evs,
      Forall (is_readl_of (dev_va dev + REG_NS_VERSION)) reads
      /\ (length reads <= 1)%nat
      /\ Forall (child_sync_access dev) sync_evs
      /\ trace s' = trace s ++ reads
           ++ EvMptOps (bring_up_call b dev s)
           :: EvWritel INVALIDATION_INVALIDATE (dev_va dev + REG_NS_ALL_INVALIDATION)
           :: sync_evs
           ++ control_writes_v1_v2 dev
                (Z.lor (Z.lor (Z.lor 0 CTRL0_ENABLE) CTRL0_INTERRUPT_ENABLE)
                       CTRL0_FAULT_RESP_TYPE_SLVERR)
      /\ same_globals s s').
  { intros call Hr Hcall.
    apply bind_ok in Hr as (r0 & s1 & Hinit & Hr).
    unfold with_reg_ops, bind, gets in Hinit. rewrite Hops in Hinit. simpl in Hinit.
    destruct (Z.eqb_spec r0 0) as [->|Hne]; simpl in Hr;
      [|injection Hr as -> _; contradiction].
    apply bind_ok in Hr as ([] & s2 & Hc & Hr).
    apply bind_ok in Hr as ([] & s3 & Hinv & Hr).
    apply bind_ok in Hr as ([] & s4 & Hctl & Hr). injection Hr as <-.
    pose proof (initialize_run dev s s1 Hinit) as ((Hm & Hr1 & Ho) & _).
    destruct (Hcall s1 Hm) as [Hf|Hok]; [congruence|].
    rewrite Hok in Hc. injection Hc as <-.
    pose proof (all_invalidation_ok _ _ _ _ Hinv) as (evs0 & Hs3 & _).
    assert (Hops3 : reg_ops s3 = Some ops_v1_v2)
      by (rewrite Hs3; simpl; congruence).
    unfold with_reg_ops, bind, gets in Hctl. rewrite Hops3 in Hctl.
    rewrite set_control_regs_run in Hctl. injection Hctl as <-.
    assert (Hv1' : is_version s1 dev S2MPU_VERSION_1 = true)
      by (rewrite Hs3 in Hv1; exact Hv1).
    destruct (initialize_v1_run dev s s1 Hinit Hv1') as (Hg & reads & Htr & Hreads & Hlen).
    assert (Hv2 : is_version s1 dev S2MPU_VERSION_2 = false).
    { unfold is_version in *. apply Z.eqb_eq in Hv1'. apply Z.eqb_neq. congruence. }
    assert (Hv9 : is_version s1 dev S2MPU_VERSION_9 = false).
    { unfold is_version in *. apply Z.eqb_eq in Hv1'. apply Z.eqb_neq. congruence. }
    clear Hs3 evs0.
    unfold __all_invalidation, bind, writel_relaxed, modify in Hinv. simpl in Hinv.
    match type of Hinv with
    | context [__invalidation_barrier_init dev ?t] =>
        destruct (barrier_init_run dev t) as (e1 & He1 & H1); rewrite He1 in Hinv;
        destruct (barrier_complete_run fuel dev (add_events e1 t)) as (e2 & H2 & Hno & _)
    end.
    rewrite Hno in Hinv
      by (change (is_version s1 dev S2MPU_VERSION_2
                  || is_version s1 dev S2MPU_VERSION_9 = false);
          by rewrite Hv2, Hv9).
    injection Hinv as <-.
    exists reads, (e1 ++ e2).
    split; [exact Hreads|]. split; [exact Hlen|].
    split; [by apply Forall_app|].
    split.
    - simpl. rewrite Htr, <- !app_assoc. simpl.
      unfold ctrl0_value.
      change (is_version _ dev S2MPU_VERSION_2) with (is_version s1 dev S2MPU_VERSION_2).
      rewrite Hv2. reflexivity.
    - destruct Hg as (? & ? & ?). by repeat split. }
  destruct b; simpl in Hrun.
  - apply (Hgen _ Hrun).
    intros s1 Hm. unfold bind, gets, call_mpt_ops, with_mpt_ops, bind, gets. simpl.
    rewrite Hm. destruct (mpt_ops s1); [right; reflexivity|left; reflexivity].
  - apply (Hgen _ Hrun).
    intros s1 _. unfold call_mpt_ops, with_mpt_ops, bind, gets. simpl.
    destruct (mpt_ops s1); [right; reflexivity|left; reflexivity].
Qed.

End MoreProofs.

(** ** The further properties at work on the sample platform *)

(** X1 on a range that straddles two 4 KiB granules. *)
Lemma to_valid_range_canonical_witness :
  let hdr := sample_header in
  to_valid_range 0x1800 0x2800 = Some (0x1000, 0x3000)
  /\ 0x1000 <= 0x1800 < 0x1000 + SMPT_GRAN
  /\ to_valid_range 0x1000 0x3000 = Some (0x1000, 0x3000).
Proof.
  intros hdr.
  destruct (to_valid_range_canonical (hdr := hdr) 12 0x1800 0x2800 0x1000 0x3000)
    as (_ & _ & _ & _ & Hs & _ & Hidem).
  - split; [reflexivity|]. split; [lia|reflexivity].
  - lia.
  - lia.
  - reflexivity.
  - split; [reflexivity|]. split; [exact Hs|exact Hidem].
Defined.

(** X2 on the same range, made read-only. *)
Lemma idmap_prepare_updates_host_mpt_witness :
  let hdr := sample_header in
  let plat := sample_platform (fun _ _ => 0) (-1) in
  let s := ready_state ops_v1_v2 (DrvData 0 0) in
  s2mpu_host_stage2_idmap_prepare 0x1800 0x2800 KVM_PGTABLE_PROT_R s
  = Ok tt (set_host_mpt
             (prepare_range sample_mpt_ops (host_mpt s) 0x1000 0x2fff MPT_PROT_R) s).
Proof.
  intros hdr plat s.
  refine (proj1 (idmap_prepare_updates_host_mpt (hdr := hdr)
                   12 0x1800 0x2800 KVM_PGTABLE_PROT_R 0x1000 0x3000 sample_mpt_ops s
                   _ _ _ _ _)).
  - split; [reflexivity|]. split; [lia|reflexivity].
  - lia.
  - lia.
  - reflexivity.
  - reflexivity.
Defined.

(** X3 on the same range, for a device with one SYNC child. *)
Lemma idmap_apply_trace_witness :
  let hdr := sample_header in
  let plat := sample_platform (fun _ _ => 0) (-1) in
  let s := ready_state ops_v1_v2 (DrvData 0 0) in
  s2mpu_host_stage2_idmap_apply sample_dev 0x1800 0x2800 s
  = Ok tt (add_events [EvMptOps (apply_range 0 (host_mpt s) 0 0);
                       EvWritel 1 0x1024; EvWritel 2 0x1028; EvWritel 1 0x1020;
                       EvWritel 1 0x10000] s).
Proof.
  intros hdr plat s.
  refine (proj1 (idmap_apply_trace (hdr := hdr)
                   12 0x1800 0x2800 0x1000 0x3000 sample_mpt_ops sample_dev s
                   _ _ _ _ _ _ _ _)).
  - split; [reflexivity|]. split; [lia|reflexivity].
  - discriminate.
  - discriminate.
  - discriminate.
  - lia.
  - lia.
  - reflexivity.
  - reflexivity.
Defined.

(** X4 on four aligned buffers. *)
Lemma s2mpu_init_success_installs_witness :
  let hdr := sample_header in
  let plat := sample_platform (fun _ _ => 0) (-1) in
  let s := boot_state (DrvData 0 0) in
  let s' := state_of (s2mpu_init aligned_host_mpt 72 s) s in
  exists ops evs,
    reg_ops s' = Some ops
    /\ ops_for_version ops (mpt_version aligned_host_mpt)
    /\ mpt_fmpt (host_mpt s') = claimed_fmpt aligned_host_mpt <$> seq 0 NR_GIGABYTES
    /\ trace s' = trace s ++ evs
    /\ donated evs = [(0x10, 16); (0x20, 16); (0x30, 16); (0x40, 16)]
    /\ returned evs = [].
Proof.
  intros hdr plat s s'.
  destruct (s2mpu_init_success_installs (hdr := hdr) (plat := plat)
              aligned_host_mpt 72 s s')
    as (ops & mops & evs & _ & Hops & Hver & Hget & _ & Hmpt & _ & Htr & Hdon & _ & Hret & _).
  - reflexivity.
  - vm_compute. reflexivity.
  - exists ops, evs. injection Hget as <-.
    split; [exact Hops|]. split; [exact Hver|]. split; [exact Hmpt|].
    split; [exact Htr|]. split; [exact Hdon|exact Hret].
Defined.

(** [s2mpu_init] with an SMPT size of 2 GiB, which does not fit an [int]:
    the local [smpt_size] is -2^31, buffers at 2 GiB pass [IS_ALIGNED], and
    every donation is of 0xfffffffffff80000 pages. *)
Example s2mpu_init_int_sizes :
  let hdr := sample_header in
  let plat := huge_platform in
  exists s',
    s2mpu_init high_host_mpt 72 (boot_state (DrvData 0 0)) = Ok 0 s'
    /\ init_smpt_size huge_mpt_ops = - 0x80000000
    /\ init_nr_pages huge_mpt_ops = 0xfffffffffff80000
    /\ trace s' = replicate 4 (EvHostDonateHyp 0x80000 0xfffffffffff80000 0).
Proof. eexists. split; [vm_compute; reflexivity|]. repeat split. Qed.

(** X6 on a device whose VERSION register reads 0. *)
Lemma bring_up_failure_writes_nothing_witness :
  let hdr := sample_header in
  let plat := sample_platform (fun _ _ => 0) (-1) in
  let s := ready_state ops_v1_v2 (DrvData 0 0) in
  let s' := state_of (run_bring_up Resume 4 lone_dev s) s in
  run_bring_up Resume 4 lone_dev s = Ok (- EINVAL) s'
  /\ same_globals s s'
  /\ exists reads, trace s' = trace s ++ reads /\ Forall is_readl reads.
Proof.
  intros hdr plat s s'.
  assert (Hrun : run_bring_up Resume 4 lone_dev s = Ok (- EINVAL) s')
    by (vm_compute; reflexivity).
  split; [exact Hrun|].
  refine (proj2 (bring_up_failure_writes_nothing (hdr := hdr) (plat := plat)
                   Resume 4 lone_dev s s' (- EINVAL) Hrun _)).
  discriminate.
Defined.


(** X8 on a four-byte load from CTRL0. *)
Lemma dabt_handler_footprint_witness :
  let hdr := sample_header in
  let plat := sample_platform (fun _ _ => 0xffff) (-1) in
  let s := ready_state ops_v1_v2 (DrvData 0 0) in
  exists handled ctxt' evs,
    s2mpu_host_dabt_handler sample_dev (fun _ => 0) 0x800000 0 s
    = Ok (handled, ctxt') (add_events evs s)
    /\ (handled = false -> evs = [] /\ ctxt' = fun _ => 0).
Proof.
  intros hdr plat s.
  destruct (dabt_handler_footprint (hdr := hdr) (plat := plat)
              sample_dev (fun _ => 0) 0x800000 0 s ops_v1_v2)
    as (handled & ctxt' & evs & Hrun & Hno & _).
  - reflexivity.
  - exists handled, ctxt', evs. by split.
Defined.

(** X9 at READ_MPTC, which is write-only. *)
Lemma no_register_read_write_witness :
  let hdr := sample_header in
  let plat := sample_platform (fun _ _ => 0) (-1) in
  let s := ready_state ops_v1_v2 (DrvData 0 0) in
  exists mask_r mask_w,
    host_mmio_reg_access_mask REG_NS_READ_MPTC false s = Ok mask_r s
    /\ host_mmio_reg_access_mask REG_NS_READ_MPTC true s = Ok mask_w s
    /\ (mask_r = 0 \/ mask_w = 0).
Proof.
  intros hdr plat s.
  apply (no_register_read_write (hdr := hdr) ops_v1_v2 REG_NS_READ_MPTC s).
  reflexivity.
Defined.

(** X10 before [s2mpu_init]: CFG can be looked up, CTRL0 cannot. *)
Lemma access_mask_common_table_witness :
  let hdr := sample_header in
  let s := boot_state (DrvData 0 0) in
  (exists mask,
     host_mmio_reg_access_mask REG_NS_CFG false s = Ok mask s
     /\ access_mask ops_v1_v2 REG_NS_CFG false = mask
     /\ access_mask ops_v9 REG_NS_CFG false = mask)
  /\ host_mmio_reg_access_mask REG_NS_CTRL0 false s = Fault.
Proof.
  intros hdr s. split.
  - apply (proj1 (access_mask_common_table (hdr := hdr) REG_NS_CFG false s)).
    reflexivity.
  - apply (proj2 (access_mask_common_table (hdr := hdr) REG_NS_CTRL0 false s));
      reflexivity.
Defined.

(** X13 on a device whose child always reads complete. *)
Lemma invalidation_barrier_fast_path_witness :
  let hdr := sample_header in
  let plat := sample_platform (fun _ _ => 1) (-1) in
  let s := ready_state ops_v1_v2 (DrvData 0 0) in
  exists sync_evs,
    Forall2 (fun sync e => is_readl_of (dev_va sync + REG_NS_SYNC_COMP) e)
            (dev_children sample_dev) sync_evs
    /\ __invalidation_barrier_complete 4 sample_dev s
       = if is_version s sample_dev S2MPU_VERSION_2
            || is_version s sample_dev S2MPU_VERSION_9
         then __wait_while 4 (dev_va sample_dev + REG_NS_STATUS)
                (Z.lor STATUS_BUSY STATUS_ON_INVALIDATING) (add_events sync_evs s)
         else Ok tt (add_events sync_evs s).
Proof.
  intros hdr plat s.
  apply (invalidation_barrier_fast_path (hdr := hdr) (plat := plat) 4 sample_dev s).
  intros sync tr _. vm_compute. discriminate.
Defined.

(** X15 on a v1 device with one SYNC child that reads complete. *)
Lemma v1_bring_up_trace_witness :
  let hdr := sample_header in
  let plat :=
    sample_platform (fun _ addr => if addr =? 0x60 then 0x11000000 else 1) (-1) in
  let s := ready_state ops_v1_v2 (DrvData 0 0) in
  let s' := state_of (run_bring_up Resume 4 sample_dev s) s in
  exists reads sync_evs,
    Forall (is_readl_of (dev_va sample_dev + REG_NS_VERSION)) reads
    /\ (length reads <= 1)%nat
    /\ Forall (child_sync_access sample_dev) sync_evs
    /\ trace s' = trace s ++ reads
         ++ EvMptOps (bring_up_call Resume sample_dev s)
         :: EvWritel INVALIDATION_INVALIDATE (dev_va sample_dev + REG_NS_ALL_INVALIDATION)
         :: sync_evs
         ++ control_writes_v1_v2 sample_dev
              (Z.lor (Z.lor (Z.lor 0 CTRL0_ENABLE) CTRL0_INTERRUPT_ENABLE)
                     CTRL0_FAULT_RESP_TYPE_SLVERR)
    /\ same_globals s s'.
Proof.
  intros hdr plat s s'.
  apply (v1_bring_up_trace (hdr := hdr) (plat := plat) Resume 4 sample_dev s s').
  - discriminate.
  - discriminate.
  - reflexivity.
  - vm_compute. reflexivity.
  - vm_compute. reflexivity.
Defined.

(** X16 on the range of X1, for a device with one SYNC child. *)
Lemma idmap_update_sequence_witness :
  let hdr := sample_header in
  let plat := sample_platform (fun _ _ => 1) (-1) in
  let s := ready_state ops_v1_v2 (DrvData 0 0) in
  let m := prepare_range sample_mpt_ops (host_mpt s) 0x1000 0x2fff MPT_PROT_R in
  exists sync_evs,
    Forall (child_sync_access sample_dev) sync_evs
    /\ (s2mpu_host_stage2_idmap_prepare 0x1800 0x2800 KVM_PGTABLE_PROT_R >>
        s2mpu_host_stage2_idmap_apply sample_dev 0x1800 0x2800 >>
        s2mpu_host_stage2_idmap_complete 4 sample_dev) s
       = Ok tt (add_events
                  ([EvMptOps (apply_range 0 m 0 0);
                    EvWritel 1 0x1024; EvWritel 2 0x1028; EvWritel 1 0x1020;
                    EvWritel 1 0x10000] ++ sync_evs) (set_host_mpt m s)).
Proof.
  intros hdr plat s m.
  refine (idmap_update_sequence (hdr := hdr) (plat := plat)
            12 0x1800 0x2800 KVM_PGTABLE_PROT_R 0x1000 0x3000 sample_mpt_ops
            sample_dev 4 s _ _ _ _ _ _ _ _).
  - split; [reflexivity|]. split; [lia|reflexivity].
  - discriminate.
  - discriminate.
  - discriminate.
  - lia.
  - lia.
  - reflexivity.
  - reflexivity.
Defined.
